(** * Client-side record-query engine of the funding database

    A shallow embedding of the filtering, sorting, pagination, export and
    cross-linking code of the four browser managers:

    - [App]        : grants table            (src/app.js)
    - [Challenges] : challenge.gov tab       (src/unnamed/part_001)
    - [SBIR]       : SBIR/STTR manager       (src/unnamed/part_002)
    - [NOFAs]      : Federal Register NOFAs  (src/unnamed/part_003)

    Modelling conventions.  A record field is a [JS.field]: absent
    ([Undefined]), JSON [null] ([Null]) or a value of the JSON type the
    snapshot carries for it (text as [string], amounts and counts as [Z],
    flags as [bool]).  Strings are byte strings; case folding and white
    space are the ASCII ones.  The DOM is reduced to the values of the
    inputs the handlers read and to the data they write (filtered list,
    page, sort state, alerts).  [Date] parsing and the clock are parameters
    ([JS.Env]).  A [TypeError] raised by a property access on
    [undefined]/[null] is an explicit [JS.Throw]. *)

From Stdlib Require Import List String Ascii ZArith NArith Lia Bool.
From Stdlib Require Import Permutation Sorted DecimalString.
Import ListNotations.

Local Open Scope string_scope.
Local Open Scope Z_scope.

(* ================================================================== *)
(** ** JavaScript primitives used by the managers *)
(* ================================================================== *)

Module JS.

(** A property of a record read from a JSON snapshot. *)
Inductive field (A : Type) : Type :=
| Undefined : field A
| Null : field A
| Val : A -> field A.

Arguments Undefined {A}.
Arguments Null {A}.
Arguments Val {A} _.

(** [ToBoolean] on the three kinds of payload. *)
Definition truthy_str (f : field string) : bool :=
  match f with Val s => negb (s =? "")%string | _ => false end.

Definition truthy_num (f : field Z) : bool :=
  match f with Val n => negb (n =? 0) | _ => false end.

Definition truthy_bool (f : field bool) : bool :=
  match f with Val b => b | _ => false end.

(** [x === null || x === undefined] *)
Definition nullish {A} (f : field A) : bool :=
  match f with Val _ => false | _ => true end.

(** Abrupt completion of a handler. *)
Inductive completion (A : Type) : Type :=
| Normal : A -> completion A
| Throw : completion A.   (* TypeError *)

Arguments Normal {A} _.
Arguments Throw {A}.

Definition bind {A B} (c : completion A) (k : A -> completion B) : completion B :=
  match c with Normal a => k a | Throw => Throw end.

(** [String.prototype.toLowerCase], ASCII letters. *)
Definition lower_ascii (c : ascii) : ascii :=
  let n := N_of_ascii c in
  if (65 <=? n)%N && (n <=? 90)%N then ascii_of_N (n + 32) else c.

Fixpoint toLowerCase (s : string) : string :=
  match s with
  | EmptyString => EmptyString
  | String c s' => String (lower_ascii c) (toLowerCase s')
  end.

(** [s.includes(t)] *)
Fixpoint includes (s t : string) : bool :=
  prefix t s ||
  match s with
  | EmptyString => false
  | String _ s' => includes s' t
  end.

(** [String.prototype.trim], ASCII white space. *)
Definition is_space (c : ascii) : bool :=
  let n := N_of_ascii c in
  ((9 <=? n)%N && (n <=? 13)%N) || (n =? 32)%N.

Fixpoint trimStart (s : string) : string :=
  match s with
  | EmptyString => EmptyString
  | String c s' => if is_space c then trimStart s' else s
  end.

Fixpoint trimEnd (s : string) : string :=
  match s with
  | EmptyString => EmptyString
  | String c s' =>
      match trimEnd s' with
      | EmptyString => if is_space c then EmptyString else String c EmptyString
      | r => String c r
      end
  end.

Definition trim (s : string) : string := trimEnd (trimStart s).

(** The global replace of the export code: every double quote (character
    34) is doubled. *)
Definition dquote : ascii := "034"%char.
Definition newline : ascii := "010"%char.
Definition comma : ascii := ","%char.

Fixpoint double_quotes (s : string) : string :=
  match s with
  | EmptyString => EmptyString
  | String c s' =>
      if Ascii.eqb c dquote then String dquote (String dquote (double_quotes s'))
      else String c (double_quotes s')
  end.

Fixpoint has_char (c : ascii) (s : string) : bool :=
  match s with
  | EmptyString => false
  | String d s' => Ascii.eqb c d || has_char c s'
  end.

(** [Number.prototype.toString] / [String(n)] on integers. *)
Definition num_toString (n : Z) : string := NilZero.string_of_int (Z.to_int n).

(** [Array.prototype.slice(start, end)] (relative indices clamped as in
    the language definition). *)
Definition slice {A} (l : list A) (start stop : Z) : list A :=
  let len := Z.of_nat (List.length l) in
  let k := if start <? 0 then Z.max (len + start) 0 else Z.min start len in
  let final := if stop <? 0 then Z.max (len + stop) 0 else Z.min stop len in
  firstn (Z.to_nat (final - k)) (skipn (Z.to_nat k) l).

(** [Math.ceil(a / b)] for integers [a] and positive [b]. *)
Definition ceil_div (a b : Z) : Z := - ((- a) / b).

(** [Array.prototype.sort(comparefn)].  The comparator result is a number
    or [NaN] ([None]); [SortCompare] reads [NaN] as [+0].  The sort is
    stable; for a consistent comparator every stable sort returns the list
    computed here by insertion. *)
Section Sort.
Context {A : Type} (comparefn : A -> A -> option Z).

Definition SortCompare (x y : A) : Z :=
  match comparefn x y with Some v => v | None => 0 end.

Fixpoint insert (x : A) (l : list A) : list A :=
  match l with
  | [] => [x]
  | y :: l' => if SortCompare x y <=? 0 then x :: l else y :: insert x l'
  end.

Definition sort (l : list A) : list A := fold_right insert [] l.
End Sort.

(** [[...new Set(xs)]]: first occurrences, in order. *)
Section SetOf.
Context {A : Type} (eqb : A -> A -> bool).

Fixpoint dedupe_acc (seen : list A) (l : list A) : list A :=
  match l with
  | [] => []
  | x :: l' =>
      if existsb (eqb x) seen then dedupe_acc seen l'
      else x :: dedupe_acc (x :: seen) l'
  end.

Definition set_of (l : list A) : list A := dedupe_acc [] l.
End SetOf.

Definition field_eqb {A} (eqb : A -> A -> bool) (x y : field A) : bool :=
  match x, y with
  | Undefined, Undefined => true
  | Null, Null => true
  | Val a, Val b => eqb a b
  | _, _ => false
  end.

(** [ToString] of a text property, as template literals, [String(x)] and
    the default sort apply it. *)
Definition str_toString (f : field string) : string :=
  match f with Undefined => "undefined" | Null => "null" | Val s => s end.

(** [Array.prototype.sort()] without comparator on text properties:
    [undefined] goes last, everything else is ordered by the code units of
    its [ToString]. *)
Definition default_compare (x y : field string) : option Z :=
  if (str_toString x <? str_toString y)%string then Some (-1)
  else if (str_toString y <? str_toString x)%string then Some 1
  else Some 0.

Definition is_undefined {A} (f : field A) : bool :=
  match f with Undefined => true | _ => false end.

Definition default_sort (l : list (field string)) : list (field string) :=
  (sort default_compare (filter (fun x => negb (is_undefined x)) l)
   ++ filter is_undefined l)%list.

(** [Date] and the clock of the page. *)
Record Env : Type := {
  Date_parse : string -> option Z;  (* ms since the epoch, [None] = Invalid Date *)
  Date_now : Z
}.

End JS.

Import JS.

(* ================================================================== *)
(** ** Grants table (src/app.js) *)
(* ================================================================== *)

Module App.

Record grant : Type := {
  id : field string;
  title : field string;
  agency : field string;
  agency_code : field string;
  category : field string;
  status : field string;
  funding_instrument : field string;
  description : field string;
  opportunity_number : field string;
  cfda_number : field string;
  close_date : field string;
  posted_date : field string;
  eligibility : field string;
  contact_email : field string;
  url : field string;
  award_floor : field Z;
  award_ceiling : field Z;
  total_funding : field Z;
  expected_awards : field Z;
  cost_sharing : field bool
}.

(** The values of the search box and of the filter controls. *)
Record inputs : Type := {
  search_input : string;
  filter_agency : string;
  filter_category : string;
  filter_status : string;
  filter_funding : string;
  filter_instrument : string;
  filter_deadline : string;
  filter_costshare : string;
  filter_cfda : string
}.

Inductive direction : Type := asc | desc.

(** Module-level variables of the script plus the controls. *)
Record state : Type := {
  grantsData : list grant;
  filteredGrants : list grant;
  currentPage : Z;
  sortColumn : string;
  sortDirection : direction;
  controls : inputs;
  alerts : list string
}.

Definition itemsPerPage : Z := 20.

(** [grant.f !== v] on a text property *)
Definition str_is (f : field string) (v : string) : bool :=
  match f with Val s => (s =? v)%string | _ => false end.

Definition lower_includes (f : field string) (term : string) : bool :=
  match f with Val s => includes (toLowerCase s) term | _ => false end.

Definition matchesSearch (g : grant) (term : string) : bool :=
  (truthy_str (title g) && lower_includes (title g) term) ||
  (truthy_str (agency g) && lower_includes (agency g) term) ||
  (truthy_str (description g) && lower_includes (description g) term) ||
  (truthy_str (opportunity_number g) && lower_includes (opportunity_number g) term).

Definition ceiling_in_range (ceiling : Z) (range : string) : bool :=
  if (range =? "under-100k")%string then ceiling <? 100000
  else if (range =? "100k-500k")%string then (100000 <=? ceiling) && (ceiling <? 500000)
  else if (range =? "500k-1m")%string then (500000 <=? ceiling) && (ceiling <? 1000000)
  else if (range =? "1m-5m")%string then (1000000 <=? ceiling) && (ceiling <? 5000000)
  else if (range =? "5m-10m")%string then (5000000 <=? ceiling) && (ceiling <? 10000000)
  else if (range =? "over-10m")%string then 10000000 <=? ceiling
  else if (range =? "unspecified")%string then negb (truthy_num (Val ceiling))
  else true.

Definition matchesFundingRange (g : grant) (range : string) : bool :=
  let ceiling := award_ceiling g in
  if negb (truthy_num ceiling) then (range =? "unspecified")%string
  else match ceiling with
       | Val c => ceiling_in_range c range
       | _ => (range =? "unspecified")%string
       end.

Section WithEnv.
Variable E : Env.

Definition msPerDay : Z := 1000 * 60 * 60 * 24.

(** [Math.ceil((closeDate - today) / msPerDay)]; [None] is [NaN]. *)
Definition daysDiff (close : string) : option Z :=
  match Date_parse E close with
  | Some t => Some (ceil_div (t - Date_now E) msPerDay)
  | None => None
  end.

Definition within (d : option Z) (n : Z) : bool :=
  match d with Some k => (k <=? n) && (0 <=? k) | None => false end.

Definition matchesDeadline (g : grant) (deadline : string) : bool :=
  if negb (truthy_str (close_date g)) then false
  else match close_date g with
       | Val s =>
           let d := daysDiff s in
           if (deadline =? "week")%string then within d 7
           else if (deadline =? "month")%string then within d 30
           else if (deadline =? "quarter")%string then within d 90
           else if (deadline =? "halfyear")%string then within d 180
           else if (deadline =? "year")%string then within d 365
           else true
       | _ => false
       end.

Definition nonempty (s : string) : bool := negb (s =? "")%string.

(** The callback of [grantsData.filter] in [filterGrants]: every guard
    that fires rejects the grant. *)
Definition passes (i : inputs) (g : grant) : bool :=
  let searchTerm := toLowerCase (search_input i) in
  let cfda := toLowerCase (filter_cfda i) in
  if nonempty searchTerm && negb (matchesSearch g searchTerm) then false
  else if nonempty (filter_agency i) && negb (str_is (agency g) (filter_agency i)) then false
  else if nonempty (filter_category i) && negb (str_is (category g) (filter_category i)) then false
  else if nonempty (filter_status i) && negb (str_is (status g) (filter_status i)) then false
  else if nonempty (filter_funding i) && negb (matchesFundingRange g (filter_funding i)) then false
  else if nonempty (filter_instrument i)
          && negb (str_is (funding_instrument g) (filter_instrument i)) then false
  else if nonempty (filter_deadline i) && negb (matchesDeadline g (filter_deadline i)) then false
  else if (filter_costshare i =? "yes")%string && negb (truthy_bool (cost_sharing g)) then false
  else if (filter_costshare i =? "no")%string && truthy_bool (cost_sharing g) then false
  else if nonempty cfda
          && (negb (truthy_str (cfda_number g)) || negb (lower_includes (cfda_number g) cfda))
       then false
  else true.

Definition filterGrants (st : state) : state :=
  {| grantsData := grantsData st;
     filteredGrants := filter (passes (controls st)) (grantsData st);
     currentPage := 1;
     sortColumn := sortColumn st;
     sortDirection := sortDirection st;
     controls := controls st;
     alerts := alerts st |}.

(** A [change] event on one of the filter controls: the control takes
    the value, then the listener [filterGrants] runs. *)
Definition set_control (name value : string) (i : inputs) : inputs :=
  {| search_input := if (name =? "search-input")%string then value else search_input i;
     filter_agency := if (name =? "filter-agency")%string then value else filter_agency i;
     filter_category := if (name =? "filter-category")%string then value else filter_category i;
     filter_status := if (name =? "filter-status")%string then value else filter_status i;
     filter_funding := if (name =? "filter-funding")%string then value else filter_funding i;
     filter_instrument :=
       if (name =? "filter-instrument")%string then value else filter_instrument i;
     filter_deadline := if (name =? "filter-deadline")%string then value else filter_deadline i;
     filter_costshare :=
       if (name =? "filter-costshare")%string then value else filter_costshare i;
     filter_cfda := if (name =? "filter-cfda")%string then value else filter_cfda i |}.

Definition with_controls (i : inputs) (st : state) : state :=
  {| grantsData := grantsData st;
     filteredGrants := filteredGrants st;
     currentPage := currentPage st;
     sortColumn := sortColumn st;
     sortDirection := sortDirection st;
     controls := i;
     alerts := alerts st |}.

Definition on_change (name value : string) (st : state) : state :=
  filterGrants (with_controls (set_control name value (controls st)) st).

(** The click listener of the clear button: every control is emptied,
    then [filterGrants] runs. *)
Definition on_clear_filters (st : state) : state :=
  filterGrants (with_controls
                  {| search_input := ""; filter_agency := ""; filter_category := "";
                     filter_status := ""; filter_funding := ""; filter_instrument := "";
                     filter_deadline := ""; filter_costshare := ""; filter_cfda := "" |} st).

(** *** Sorting *)

Definition num_column (column : string) (g : grant) : field Z :=
  if (column =? "award_ceiling")%string then award_ceiling g else total_funding g.

Definition date_column (column : string) (g : grant) : field string :=
  if (column =? "close_date")%string then close_date g else posted_date g.

(** [String(a[column])] after the null replacement, for the remaining
    columns. *)
Definition show_str (f : field string) : string :=
  match f with Val s => s | _ => "" end.

Definition show_num (f : field Z) : string :=
  match f with Val n => num_toString n | _ => "" end.

Definition show_bool (f : field bool) : string :=
  match f with Val true => "true" | Val false => "false" | _ => "" end.

Definition column_text (column : string) (g : grant) : string :=
  if (column =? "id")%string then show_str (id g)
  else if (column =? "title")%string then show_str (title g)
  else if (column =? "agency")%string then show_str (agency g)
  else if (column =? "agency_code")%string then show_str (agency_code g)
  else if (column =? "category")%string then show_str (category g)
  else if (column =? "status")%string then show_str (status g)
  else if (column =? "funding_instrument")%string then show_str (funding_instrument g)
  else if (column =? "description")%string then show_str (description g)
  else if (column =? "opportunity_number")%string then show_str (opportunity_number g)
  else if (column =? "cfda_number")%string then show_str (cfda_number g)
  else if (column =? "eligibility")%string then show_str (eligibility g)
  else if (column =? "contact_email")%string then show_str (contact_email g)
  else if (column =? "url")%string then show_str (url g)
  else if (column =? "award_floor")%string then show_num (award_floor g)
  else if (column =? "expected_awards")%string then show_num (expected_awards g)
  else if (column =? "cost_sharing")%string then show_bool (cost_sharing g)
  else "".

(** [valA || 0] on an amount *)
Definition num_or_zero (f : field Z) : Z :=
  match f with Val n => n | _ => 0 end.

(** [new Date(valA || '2099-12-31')] *)
Definition date_or_2099 (f : field string) : option Z :=
  Date_parse E (if truthy_str f then show_str f else "2099-12-31").

Definition oriented (d : direction) (x y : Z) : Z :=
  match d with asc => x - y | desc => y - x end.

Definition comparefn (column : string) (d : direction) (a b : grant) : option Z :=
  if (column =? "award_ceiling")%string || (column =? "total_funding")%string then
    Some (oriented d (num_or_zero (num_column column a)) (num_or_zero (num_column column b)))
  else if (column =? "close_date")%string || (column =? "posted_date")%string then
    match date_or_2099 (date_column column a), date_or_2099 (date_column column b) with
    | Some x, Some y => Some (oriented d x y)
    | _, _ => None
    end
  else
    let valA := toLowerCase (column_text column a) in
    let valB := toLowerCase (column_text column b) in
    if (valA <? valB)%string then Some (match d with asc => -1 | desc => 1 end)
    else if (valB <? valA)%string then Some (match d with asc => 1 | desc => -1 end)
    else Some 0.

(** The time value the comparator reads off a grant for a date column
    (0 stands in for [NaN]), and its sign under a direction. *)
Definition date_time (column : string) (g : grant) : Z :=
  match date_or_2099 (date_column column g) with Some t => t | None => 0 end.

Definition signed (d : direction) (z : Z) : Z :=
  match d with asc => z | desc => - z end.

Definition sortTable (column : string) (st : state) : state :=
  let d := if (sortColumn st =? column)%string
           then match sortDirection st with asc => desc | desc => asc end
           else asc in
  {| grantsData := grantsData st;
     filteredGrants := sort (comparefn column d) (filteredGrants st);
     currentPage := currentPage st;
     sortColumn := column;
     sortDirection := d;
     controls := controls st;
     alerts := alerts st |}.

End WithEnv.

(** *** Page window ([updateTable]) *)

Definition pageGrants (st : state) : list grant :=
  let start := (currentPage st - 1) * itemsPerPage in
  let stop := start + itemsPerPage in
  slice (filteredGrants st) start stop.

(** *** Filter options ([populateFilters]) *)

Definition distinct_sorted (l : list (field string)) : list (field string) :=
  default_sort (set_of (field_eqb String.eqb) l).

Definition agencies (st : state) : list (field string) :=
  distinct_sorted (map agency (grantsData st)).

Definition categories (st : state) : list (field string) :=
  distinct_sorted (map category (grantsData st)).

Definition statuses (st : state) : list (field string) :=
  distinct_sorted (map status (grantsData st)).

(** *** Export ([exportResults]) *)

Definition headers : list string :=
  [ "Title"; "Agency"; "Category"; "Funding Type"; "Min Award"; "Max Award";
    "Total Funding"; "Close Date"; "Posted Date"; "CFDA Number";
    "Opportunity Number"; "Cost Sharing"; "Expected Awards"; "Contact Email";
    "URL" ].

(** [String(f || dflt)] *)
Definition str_or (f : field string) (dflt : string) : string :=
  if truthy_str f then show_str f else dflt.

Definition num_or_empty (f : field Z) : string :=
  if truthy_num f then show_num f else "".

(** [String(row[header])] for each header, in header order. *)
Definition row_values (g : grant) : list string :=
  [ str_toString (title g);
    str_toString (agency g);
    str_toString (category g);
    str_or (funding_instrument g) "Grant";
    num_or_empty (award_floor g);
    num_or_empty (award_ceiling g);
    num_or_empty (total_funding g);
    str_or (close_date g) "";
    str_or (posted_date g) "";
    str_or (cfda_number g) "";
    str_or (opportunity_number g) "";
    (if truthy_bool (cost_sharing g) then "Yes" else "No");
    num_or_empty (expected_awards g);
    str_or (contact_email g) "";
    str_or (url g) "" ].

Definition needs_quotes (escaped : string) : bool :=
  has_char comma escaped || has_char dquote escaped || has_char newline escaped.

Definition csv_cell (value : string) : string :=
  let escaped := double_quotes value in
  if needs_quotes escaped
  then String dquote (escaped ++ String dquote EmptyString)
  else escaped.

Definition csv_line (g : grant) : string :=
  String.concat "," (map csv_cell (row_values g)).

Definition csvContent (l : list grant) : string :=
  String.concat (String newline EmptyString)
                (String.concat "," headers :: map csv_line l).

Inductive export_outcome : Type :=
| Alerted (msg : string)
| Downloaded (content : string).

Definition exportResults (st : state) : export_outcome :=
  match filteredGrants st with
  | [] => Alerted "No grants to export"
  | _ => Downloaded (csvContent (filteredGrants st))
  end.

(** *** Clear button, page buttons and dashboard *)

Definition cleared : inputs :=
  {| search_input := ""; filter_agency := ""; filter_category := "";
     filter_status := ""; filter_funding := ""; filter_instrument := "";
     filter_deadline := ""; filter_costshare := ""; filter_cfda := "" |}.

Definition with_page (p : Z) (st : state) : state :=
  {| grantsData := grantsData st;
     filteredGrants := filteredGrants st;
     currentPage := p;
     sortColumn := sortColumn st;
     sortDirection := sortDirection st;
     controls := controls st;
     alerts := alerts st |}.

Definition totalPages (st : state) : Z :=
  ceil_div (Z.of_nat (List.length (filteredGrants st))) itemsPerPage.

Definition maxButtons : Z := 7.

(** [endPage] and the adjusted [startPage] of [updatePagination]. *)
Definition endPage (cur total : Z) : Z :=
  Z.min total (Z.max 1 (cur - 3) + maxButtons - 1).

Definition startPage (cur total : Z) : Z :=
  let startPage := Z.max 1 (cur - 3) in
  let endPage := endPage cur total in
  if endPage - startPage <? maxButtons - 1
  then Z.max 1 (endPage - maxButtons + 1)
  else startPage.

(** What [updatePagination] appends to the bar. *)
Inductive control : Type :=
| Previous
| PageButton (pageNum : Z)
| Dots
| Next.

(** [for (let i = a; i <= b; i++)] *)
Definition from_to (a b : Z) : list Z :=
  map (fun k => a + Z.of_nat k) (seq 0 (Z.to_nat (b - a + 1))).

Definition pagination (st : state) : list control :=
  let total := totalPages st in
  let cur := currentPage st in
  if total <=? 1 then []
  else
    let s := startPage cur total in
    let e := endPage cur total in
    ((if 1 <? cur then [Previous] else [])
     ++ (if 1 <? s then PageButton 1 :: (if 2 <? s then [Dots] else []) else [])
     ++ map PageButton (from_to s e)
     ++ (if e <? total
         then (if e <? total - 1 then [Dots] else []) ++ [PageButton total]
         else [])
     ++ (if cur <? total then [Next] else []))%list.

(** The [onclick] handlers of the bar. *)
Definition click (c : control) (st : state) : state :=
  match c with
  | Previous => with_page (currentPage st - 1) st
  | PageButton pageNum => with_page pageNum st
  | Dots => st
  | Next => with_page (currentPage st + 1) st
  end.

(** [updateStatistics] *)
Definition stat_total (st : state) : Z := Z.of_nat (List.length (grantsData st)).

Definition stat_open (st : state) : Z :=
  Z.of_nat (List.length (filter (fun g => str_is (status g) "Open") (grantsData st))).

Definition stat_agencies (st : state) : Z :=
  Z.of_nat (List.length (set_of (field_eqb String.eqb) (map agency (grantsData st)))).

(** The callback of the [reduce] that adds up the funding. *)
Definition add_funding (sum : Z) (g : grant) : Z :=
  if truthy_num (total_funding g) then sum + num_or_zero (total_funding g)
  else if truthy_num (award_ceiling g) then
    sum + num_or_zero (award_ceiling g)
          * (if truthy_num (expected_awards g) then num_or_zero (expected_awards g) else 1)
  else sum.

Definition stat_totalFunding (st : state) : Z :=
  fold_left add_funding (grantsData st) 0.

(** [showGrantDetails]: the grant whose modal is opened, if any. *)
Definition showGrantDetails (grantId : string) (st : state) : option grant :=
  find (fun g => str_is (id g) grantId) (grantsData st).

End App.

(* ================================================================== *)
(** ** Challenges tab (src/unnamed/part_001) *)
(* ================================================================== *)

Module Challenges.

Record challenge : Type := {
  id : field string;
  title : field string;
  agency : field string;
  description : field string;
  source : field string;
  status : field string;
  submission_deadline : field string;
  prize_description : field string;
  challenge_type : field string;
  post_date : field string;
  website_url : field string;
  prize_total : field Z
}.

Record inputs : Type := {
  search_input : string;
  filter_agency : string;
  filter_status : string;
  filter_type : string;
  filter_prize : string
}.

Record state : Type := {
  challengesData : list challenge;
  filteredChallenges : list challenge;
  currentChallengePage : Z;
  controls : inputs
}.

Definition challengeItemsPerPage : Z := 20.

Definition nonempty (s : string) : bool := negb (s =? "")%string.

Definition str_is (f : field string) (v : string) : bool :=
  match f with Val s => (s =? v)%string | _ => false end.

(** [x.toLowerCase()] on a property read without guard: a [TypeError]
    when the property is absent or null. *)
Definition lower_of (f : field string) : completion string :=
  match f with Val s => Normal (toLowerCase s) | _ => Throw end.

Definition matchesSearch (searchTerm : string) (c : challenge) : completion bool :=
  if negb (nonempty searchTerm) then Normal true
  else
    bind (lower_of (title c)) (fun t =>
    if includes t searchTerm then Normal true
    else
      bind (lower_of (agency c)) (fun a =>
      if includes a searchTerm then Normal true
      else Normal (truthy_str (description c) &&
                   match description c with
                   | Val d => includes (toLowerCase d) searchTerm
                   | _ => false
                   end))).

Definition prize_in_range (prize : Z) (prizeFilter : string) : bool :=
  if (prizeFilter =? "under-10k")%string then prize <? 10000
  else if (prizeFilter =? "10k-50k")%string then (10000 <=? prize) && (prize <? 50000)
  else if (prizeFilter =? "50k-100k")%string then (50000 <=? prize) && (prize <? 100000)
  else if (prizeFilter =? "100k-500k")%string then (100000 <=? prize) && (prize <? 500000)
  else if (prizeFilter =? "over-500k")%string then 500000 <=? prize
  else true.

Definition matchesPrize (prizeFilter : string) (c : challenge) : bool :=
  if nonempty prizeFilter && truthy_num (prize_total c) then
    match prize_total c with
    | Val prize => prize_in_range prize prizeFilter
    | _ => true
    end
  else true.

(** The callback of [challengesData.filter]. *)
Definition keeps (i : inputs) (c : challenge) : completion bool :=
  bind (matchesSearch (toLowerCase (search_input i)) c) (fun matchesSearch =>
  let matchesAgency := negb (nonempty (filter_agency i)) || str_is (agency c) (filter_agency i) in
  let matchesStatus := negb (nonempty (filter_status i)) || str_is (status c) (filter_status i) in
  let matchesType :=
    negb (nonempty (filter_type i)) || str_is (challenge_type c) (filter_type i) in
  Normal (matchesSearch && matchesAgency && matchesStatus && matchesType
          && matchesPrize (filter_prize i) c)).

(** [Array.prototype.filter] with a callback that may throw. *)
Fixpoint filterM {A} (p : A -> completion bool) (l : list A) : completion (list A) :=
  match l with
  | [] => Normal []
  | x :: l' =>
      bind (p x) (fun b =>
      bind (filterM p l') (fun r =>
      Normal (if b then x :: r else r)))
  end.

(** The slice rendered by [updateChallengeTable]. *)
Definition pageItems (st : state) : list challenge :=
  let startIndex := (currentChallengePage st - 1) * challengeItemsPerPage in
  let endIndex := startIndex + challengeItemsPerPage in
  slice (filteredChallenges st) startIndex endIndex.

(** [updateChallengeTable], with the table body present in the document
    (without it the function returns at once): every challenge of the
    page window becomes a row.  The row template evaluates [challenge.status.toLowerCase()]
    without guard, a TypeError on a challenge without status; the other
    properties go through [escapeHtml], [formatDate] and [|| 'N/A'], which
    accept a missing value, and [formatAmount], defined outside the
    sources at hand, is taken to return. *)
Definition row_raises (c : challenge) : bool := nullish (status c).

Definition updateChallengeTable (st : state) : completion unit :=
  if existsb row_raises (pageItems st) then Throw else Normal tt.

(** What a handler leaves behind: the module variables as it left them,
    and whether it ended in a TypeError. *)
Record outcome : Type := {
  after : state;
  raised : bool
}.

(** The tail of the handlers: the variables are stored, then the table
    is rendered. *)
Definition rendered (st : state) : outcome :=
  {| after := st;
     raised := match updateChallengeTable st with Normal _ => false | Throw => true end |}.

(** [filterChallenges]: when the callback of [filter] throws nothing is
    assigned; otherwise the result and page 1 are stored and the table is
    rendered. *)
Definition filterChallenges (st : state) : outcome :=
  match filterM (keeps (controls st)) (challengesData st) with
  | Throw => {| after := st; raised := true |}
  | Normal l =>
      rendered {| challengesData := challengesData st;
                  filteredChallenges := l;
                  currentChallengePage := 1;
                  controls := controls st |}
  end.

Definition with_prize (pf : string) (i : inputs) : inputs :=
  {| search_input := search_input i;
     filter_agency := filter_agency i;
     filter_status := filter_status i;
     filter_type := filter_type i;
     filter_prize := pf |}.

Definition with_controls (i : inputs) (st : state) : state :=
  {| challengesData := challengesData st;
     filteredChallenges := filteredChallenges st;
     currentChallengePage := currentChallengePage st;
     controls := i |}.

(** A [change] event on the prize select: the select takes the value and
    the listener [filterChallenges] runs. *)
Definition on_prize_change (pf : string) (st : state) : outcome :=
  filterChallenges (with_controls (with_prize pf (controls st)) st).

Definition changePage (page : Z) (st : state) : state :=
  {| challengesData := challengesData st;
     filteredChallenges := filteredChallenges st;
     currentChallengePage := page;
     controls := controls st |}.

Definition totalPages (st : state) : Z :=
  ceil_div (Z.of_nat (List.length (filteredChallenges st))) challengeItemsPerPage.

(** The page numbers [1 .. n] of the loop in [updateChallengePagination]. *)
Definition page_numbers (n : Z) : list Z :=
  map (fun k => Z.of_nat k + 1) (seq 0 (Z.to_nat n)).

(** The arguments of the [changePage(...)] handlers that
    [updateChallengePagination] writes into the page. *)
Definition pagination_targets (st : state) : list Z :=
  let cur := currentChallengePage st in
  let total := totalPages st in
  if total <=? 1 then []
  else
    ((if 1 <? cur then [cur - 1] else [])
     ++ filter (fun i => negb (i =? cur)) (page_numbers total)
     ++ (if cur <? total then [cur + 1] else []))%list.

(** *** Export ([convertChallengersToCsv]) *)

Section CsvExport.
(** [formatAmount] is called by the tab but defined outside the sources
    at hand; [formatDate] of app.js ends in a locale-dependent call. *)
Variable formatAmount : field Z -> string.
Variable toLocaleDateString : string -> string.

Definition formatDate (dateStr : field string) : string :=
  match dateStr with
  | Val s => if (s =? "")%string then "Not specified" else toLocaleDateString s
  | _ => "Not specified"
  end.

Definition quoted (s : string) : string :=
  String dquote (s ++ String dquote EmptyString).

Definition headers : list string :=
  [ "Title"; "Agency"; "Type"; "Status"; "Prize Amount"; "Deadline"; "Description" ].

Definition csv_row (c : challenge) : completion string :=
  match description c with
  | Val d =>
      Normal (String.concat ","
        [ quoted (str_toString (title c));
          quoted (str_toString (agency c));
          quoted (if truthy_str (challenge_type c)
                  then str_toString (challenge_type c) else "");
          quoted (str_toString (status c));
          quoted (formatAmount (prize_total c));
          quoted (formatDate (submission_deadline c));
          quoted (substring 0 200 d ++ "...") ])
  | _ => Throw
  end.

Fixpoint csv_rows (l : list challenge) : completion (list string) :=
  match l with
  | [] => Normal []
  | c :: l' =>
      bind (csv_row c) (fun r =>
      bind (csv_rows l') (fun rs => Normal (r :: rs)))
  end.

Definition convertChallengersToCsv (challenges : list challenge) : completion string :=
  bind (csv_rows challenges) (fun rows =>
  Normal (String.concat (String newline EmptyString)
                        (String.concat "," headers :: rows))).

Definition exportChallenges (st : state) : completion string :=
  convertChallengersToCsv (filteredChallenges st).
End CsvExport.

(** *** Filter options ([populateChallengeFilters]) *)

Definition agency_options (st : state) : list (field string) :=
  default_sort (set_of (field_eqb String.eqb) (map agency (challengesData st))).

Definition type_options (st : state) : list (field string) :=
  default_sort (set_of (field_eqb String.eqb)
                       (filter truthy_str (map challenge_type (challengesData st)))).

(** *** [clearChallengeFilters] and [updateChallengeStatistics] *)

(** The controls are emptied, the whole collection and page 1 are
    stored, then the table is rendered. *)
Definition clearChallengeFilters (st : state) : outcome :=
  rendered {| challengesData := challengesData st;
              filteredChallenges := challengesData st;
              currentChallengePage := 1;
              controls := {| search_input := ""; filter_agency := ""; filter_status := "";
                             filter_type := ""; filter_prize := "" |} |}.

Definition stat_total (st : state) : Z := Z.of_nat (List.length (challengesData st)).

Definition stat_active (st : state) : Z :=
  Z.of_nat (List.length (filter (fun c => str_is (status c) "Active") (challengesData st))).

Definition stat_agencies (st : state) : Z :=
  Z.of_nat (List.length (set_of (field_eqb String.eqb) (map agency (challengesData st)))).

Definition stat_totalPrizes (st : state) : Z :=
  fold_left (fun sum c => sum + match prize_total c with Val p => p | _ => 0 end)
            (challengesData st) 0.

(** [viewChallengeDetails]: the challenge whose modal is opened, if any. *)
Definition viewChallengeDetails (challengeId : string) (st : state) : option challenge :=
  find (fun c => str_is (id c) challengeId) (challengesData st).

End Challenges.

(* ================================================================== *)
(** ** SBIR/STTR manager (src/unnamed/part_002) *)
(* ================================================================== *)

Module SBIR.

Record award : Type := {
  a_id : field string;
  firm : field string;
  award_title : field string;
  a_agency : field string;
  phase : field string;
  award_amount : field Z;
  award_year : field Z;
  company_location : field string;
  company_state : field string;
  company_employees : field Z;
  pi_name : field string;
  abstract : field string;
  keywords : field string;
  contract_number : field string
}.

Record company : Type := {
  c_id : field string;
  firm_name : field string;
  location : field string;
  state : field string;
  employees : field Z;
  total_awards : field Z;
  total_funding : field Z;
  first_award_year : field Z;
  latest_award_year : field Z;
  agencies : field (list string);
  phases : field (list string);
  contact_name : field string;
  contact_email : field string
}.

Record solicitation : Type := {
  s_id : field string;
  title : field string;
  s_agency : field string;
  solicitation_number : field string;
  open_date : field string;
  close_date : field string;
  description : field string;
  phases_offered : field string;
  status : field string;
  solicitation_url : field string
}.

(** The three collections, [sbirData] and [filteredData] alike. *)
Record dataset : Type := {
  awards : list award;
  companies : list company;
  solicitations : list solicitation
}.

Record pages : Type := {
  page_awards : Z;
  page_companies : Z;
  page_solicitations : Z
}.

(** The [type] argument of the methods. *)
Inductive subtab : Type := Awards | Companies | Solicitations.

(** Search boxes and filter selects of the three sub-tabs. *)
Record inputs : Type := {
  awards_search_input : string;
  awards_filter_agency : string;
  awards_filter_phase : string;
  awards_filter_year : string;
  awards_filter_state : string;
  companies_search_input : string;
  companies_filter_state : string;
  companies_filter_funding : string;
  companies_filter_awards : string;
  companies_filter_employees : string;
  solicitations_search_input : string;
  solicitations_filter_agency : string;
  solicitations_filter_status : string;
  solicitations_filter_phases : string
}.

Record manager : Type := {
  sbirData : dataset;
  filteredData : dataset;
  currentPage : pages;
  currentSubTab : subtab;
  controls : inputs;
  alerts : list string
}.

Definition itemsPerPage : Z := 20.

Definition nonempty (s : string) : bool := negb (s =? "")%string.

Definition str_is (f : field string) (v : string) : bool :=
  match f with Val s => (s =? v)%string | _ => false end.

(** [f?.toLowerCase().includes(term)]: [undefined] (falsy) when the
    property is absent or null. *)
Definition opt_lower_includes (f : field string) (term : string) : bool :=
  match f with Val s => includes (toLowerCase s) term | _ => false end.

(** *** State updates *)

Definition set_filtered (d : dataset) (m : manager) : manager :=
  {| sbirData := sbirData m; filteredData := d; currentPage := currentPage m;
     currentSubTab := currentSubTab m; controls := controls m; alerts := alerts m |}.

Definition set_pages (p : pages) (m : manager) : manager :=
  {| sbirData := sbirData m; filteredData := filteredData m; currentPage := p;
     currentSubTab := currentSubTab m; controls := controls m; alerts := alerts m |}.

Definition set_controls (i : inputs) (m : manager) : manager :=
  {| sbirData := sbirData m; filteredData := filteredData m; currentPage := currentPage m;
     currentSubTab := currentSubTab m; controls := i; alerts := alerts m |}.

Definition set_page (t : subtab) (n : Z) (p : pages) : pages :=
  match t with
  | Awards =>
      {| page_awards := n; page_companies := page_companies p;
         page_solicitations := page_solicitations p |}
  | Companies =>
      {| page_awards := page_awards p; page_companies := n;
         page_solicitations := page_solicitations p |}
  | Solicitations =>
      {| page_awards := page_awards p; page_companies := page_companies p;
         page_solicitations := n |}
  end.

Definition get_page (t : subtab) (p : pages) : Z :=
  match t with
  | Awards => page_awards p
  | Companies => page_companies p
  | Solicitations => page_solicitations p
  end.

Definition set_awards (l : list award) (d : dataset) : dataset :=
  {| awards := l; companies := companies d; solicitations := solicitations d |}.

Definition set_companies (l : list company) (d : dataset) : dataset :=
  {| awards := awards d; companies := l; solicitations := solicitations d |}.

Definition set_solicitations (l : list solicitation) (d : dataset) : dataset :=
  {| awards := awards d; companies := companies d; solicitations := l |}.

Definition search_input (t : subtab) (i : inputs) : string :=
  match t with
  | Awards => awards_search_input i
  | Companies => companies_search_input i
  | Solicitations => solicitations_search_input i
  end.

Definition set_search_input (t : subtab) (v : string) (i : inputs) : inputs :=
  {| awards_search_input := match t with Awards => v | _ => awards_search_input i end;
     awards_filter_agency := awards_filter_agency i;
     awards_filter_phase := awards_filter_phase i;
     awards_filter_year := awards_filter_year i;
     awards_filter_state := awards_filter_state i;
     companies_search_input := match t with Companies => v | _ => companies_search_input i end;
     companies_filter_state := companies_filter_state i;
     companies_filter_funding := companies_filter_funding i;
     companies_filter_awards := companies_filter_awards i;
     companies_filter_employees := companies_filter_employees i;
     solicitations_search_input :=
       match t with Solicitations => v | _ => solicitations_search_input i end;
     solicitations_filter_agency := solicitations_filter_agency i;
     solicitations_filter_status := solicitations_filter_status i;
     solicitations_filter_phases := solicitations_filter_phases i |}.

(** [select.selectedIndex = 0] on every select of a sub-tab: the first
    option of each select is the empty-valued one. *)
Definition reset_selects (t : subtab) (i : inputs) : inputs :=
  let a := match t with Awards => true | _ => false end in
  let c := match t with Companies => true | _ => false end in
  let s := match t with Solicitations => true | _ => false end in
  {| awards_search_input := awards_search_input i;
     awards_filter_agency := if a then "" else awards_filter_agency i;
     awards_filter_phase := if a then "" else awards_filter_phase i;
     awards_filter_year := if a then "" else awards_filter_year i;
     awards_filter_state := if a then "" else awards_filter_state i;
     companies_search_input := companies_search_input i;
     companies_filter_state := if c then "" else companies_filter_state i;
     companies_filter_funding := if c then "" else companies_filter_funding i;
     companies_filter_awards := if c then "" else companies_filter_awards i;
     companies_filter_employees := if c then "" else companies_filter_employees i;
     solicitations_search_input := solicitations_search_input i;
     solicitations_filter_agency := if s then "" else solicitations_filter_agency i;
     solicitations_filter_status := if s then "" else solicitations_filter_status i;
     solicitations_filter_phases := if s then "" else solicitations_filter_phases i |}.

(** *** Range predicates *)

Definition matchesFundingRange (amount : field Z) (range : string) : bool :=
  if negb (truthy_num amount) then (range =? "under-500k")%string
  else match amount with
       | Val a =>
           if (range =? "under-500k")%string then a <? 500000
           else if (range =? "500k-1m")%string then (500000 <=? a) && (a <? 1000000)
           else if (range =? "1m-5m")%string then (1000000 <=? a) && (a <? 5000000)
           else if (range =? "5m-10m")%string then (5000000 <=? a) && (a <? 10000000)
           else if (range =? "over-10m")%string then 10000000 <=? a
           else true
       | _ => (range =? "under-500k")%string
       end.

(** Comparisons with an absent or null count are all false. *)
Definition matchesAwardsRange (count : field Z) (range : string) : bool :=
  let on (p : Z -> bool) := match count with Val n => p n | _ => false end in
  if (range =? "1")%string then on (fun n => n =? 1)
  else if (range =? "2-5")%string then on (fun n => (2 <=? n) && (n <=? 5))
  else if (range =? "6-10")%string then on (fun n => (6 <=? n) && (n <=? 10))
  else if (range =? "over-10")%string then on (fun n => 10 <? n)
  else true.

Definition matchesEmployeesRange (count : field Z) (range : string) : bool :=
  if negb (truthy_num count) then true
  else match count with
       | Val n =>
           if (range =? "under-10")%string then n <? 10
           else if (range =? "10-50")%string then (10 <=? n) && (n <=? 50)
           else if (range =? "50-100")%string then (50 <=? n) && (n <=? 100)
           else if (range =? "over-100")%string then 100 <? n
           else true
       | _ => true
       end.

(** *** [applyFilters(type)]: narrows [filteredData[type]] *)

(** [if (v) data = data.filter(p)] *)
Definition narrow {A} (v : string) (p : A -> bool) (data : list A) : list A :=
  if nonempty v then filter p data else data.

Definition year_is (f : field Z) (v : string) : bool :=
  match f with Val n => (num_toString n =? v)%string | _ => false end.

Definition filter_awards (i : inputs) (data : list award) : list award :=
  let data := narrow (awards_filter_agency i)
                     (fun item => str_is (a_agency item) (awards_filter_agency i)) data in
  let data := narrow (awards_filter_phase i)
                     (fun item => str_is (phase item) (awards_filter_phase i)) data in
  let data := narrow (awards_filter_year i)
                     (fun item => year_is (award_year item) (awards_filter_year i)) data in
  narrow (awards_filter_state i)
         (fun item => str_is (company_state item) (awards_filter_state i)) data.

Definition filter_companies (i : inputs) (data : list company) : list company :=
  let data := narrow (companies_filter_state i)
                     (fun item => str_is (state item) (companies_filter_state i)) data in
  let data := narrow (companies_filter_funding i)
                     (fun item => matchesFundingRange (total_funding item)
                                                      (companies_filter_funding i)) data in
  let data := narrow (companies_filter_awards i)
                     (fun item => matchesAwardsRange (total_awards item)
                                                     (companies_filter_awards i)) data in
  narrow (companies_filter_employees i)
         (fun item => matchesEmployeesRange (employees item)
                                            (companies_filter_employees i)) data.

Definition phases_include (f : field string) (v : string) : bool :=
  match f with Val s => includes s v | _ => false end.

Definition filter_solicitations (i : inputs) (data : list solicitation) : list solicitation :=
  let data := narrow (solicitations_filter_agency i)
                     (fun item => str_is (s_agency item) (solicitations_filter_agency i)) data in
  let data := narrow (solicitations_filter_status i)
                     (fun item => str_is (status item) (solicitations_filter_status i)) data in
  narrow (solicitations_filter_phases i)
         (fun item => phases_include (phases_offered item) (solicitations_filter_phases i)) data.

Definition applyFilters (t : subtab) (m : manager) : manager :=
  let i := controls m in
  let d := filteredData m in
  let d' :=
    match t with
    | Awards => set_awards (filter_awards i (awards d)) d
    | Companies => set_companies (filter_companies i (companies d)) d
    | Solicitations => set_solicitations (filter_solicitations i (solicitations d)) d
    end in
  set_pages (set_page t 1 (currentPage m)) (set_filtered d' m).

(** *** [performSearch(type)] *)

Definition award_hit (searchTerm : string) (item : award) : bool :=
  opt_lower_includes (award_title item) searchTerm ||
  opt_lower_includes (firm item) searchTerm ||
  opt_lower_includes (abstract item) searchTerm ||
  opt_lower_includes (keywords item) searchTerm.

Definition company_hit (searchTerm : string) (item : company) : bool :=
  opt_lower_includes (firm_name item) searchTerm ||
  opt_lower_includes (location item) searchTerm.

Definition solicitation_hit (searchTerm : string) (item : solicitation) : bool :=
  opt_lower_includes (title item) searchTerm ||
  opt_lower_includes (description item) searchTerm.

Definition performSearch (t : subtab) (m : manager) : manager :=
  let searchTerm := trim (toLowerCase (search_input t (controls m))) in
  let d := filteredData m in
  let d' :=
    match t with
    | Awards => set_awards (filter (award_hit searchTerm) (awards (sbirData m))) d
    | Companies => set_companies (filter (company_hit searchTerm) (companies (sbirData m))) d
    | Solicitations =>
        set_solicitations (filter (solicitation_hit searchTerm) (solicitations (sbirData m))) d
    end in
  applyFilters t (set_filtered d' m).

(** *** [clearFilters(type)], [switchSubTab], [changePage], [displayData] *)

Definition clearFilters (t : subtab) (m : manager) : manager :=
  let i := reset_selects t (set_search_input t "" (controls m)) in
  let d := filteredData m in
  let d' :=
    match t with
    | Awards => set_awards (awards (sbirData m)) d
    | Companies => set_companies (companies (sbirData m)) d
    | Solicitations => set_solicitations (solicitations (sbirData m)) d
    end in
  set_pages (set_page t 1 (currentPage m)) (set_filtered d' (set_controls i m)).

Definition switchSubTab (t : subtab) (m : manager) : manager :=
  {| sbirData := sbirData m; filteredData := filteredData m; currentPage := currentPage m;
     currentSubTab := t; controls := controls m; alerts := alerts m |}.

Definition changePage (t : subtab) (page : Z) (m : manager) : manager :=
  set_pages (set_page t page (currentPage m)) m.

Definition window {A} (l : list A) (page : Z) : list A :=
  let startIndex := (page - 1) * itemsPerPage in
  let endIndex := startIndex + itemsPerPage in
  slice l startIndex endIndex.

Definition pageData_awards (m : manager) : list award :=
  window (awards (filteredData m)) (page_awards (currentPage m)).

Definition pageData_companies (m : manager) : list company :=
  window (companies (filteredData m)) (page_companies (currentPage m)).

Definition pageData_solicitations (m : manager) : list solicitation :=
  window (solicitations (filteredData m)) (page_solicitations (currentPage m)).

(** *** Cross-linking ([showCompanyFromName]) *)

(** [companies.find(c => c.firm_name.toLowerCase() === name.toLowerCase())]:
    the first match; the callback throws on a company without name. *)
Fixpoint find_company (companyName : string) (l : list company)
  : completion (option company) :=
  match l with
  | [] => Normal None
  | c :: l' =>
      match firm_name c with
      | Val n =>
          if (toLowerCase n =? toLowerCase companyName)%string then Normal (Some c)
          else find_company companyName l'
      | _ => Throw
      end
  end.

(** The test of the [find] callback, on a company that has a name. *)
Definition same_name (companyName : string) (c : company) : bool :=
  match firm_name c with
  | Val n => (toLowerCase n =? toLowerCase companyName)%string
  | _ => false
  end.

Definition not_found_message (companyName : string) : string :=
  "Company " ++ String dquote (companyName ++ String dquote " not found in the companies database.").

Definition alert (msg : string) (m : manager) : manager :=
  {| sbirData := sbirData m; filteredData := filteredData m; currentPage := currentPage m;
     currentSubTab := currentSubTab m; controls := controls m;
     alerts := (alerts m ++ [msg])%list |}.

Definition showCompanyFromName (companyName : string) (m : manager) : completion manager :=
  bind (find_company companyName (companies (sbirData m))) (fun company =>
  match company with
  | Some _ =>
      let m := switchSubTab Companies m in
      let m := clearFilters Companies m in
      let m := set_controls (set_search_input Companies companyName (controls m)) m in
      Normal (performSearch Companies m)
  | None => Normal (alert (not_found_message companyName) m)
  end).

(** *** [showAwardsForCompany] *)

Definition showAwardsForCompany (companyName : string) (m : manager) : manager :=
  let m := switchSubTab Awards m in
  let m := clearFilters Awards m in
  let m := set_controls (set_search_input Awards companyName (controls m)) m in
  performSearch Awards m.

(** *** [updatePagination(type)] *)

Definition count (t : subtab) (d : dataset) : Z :=
  match t with
  | Awards => Z.of_nat (List.length (awards d))
  | Companies => Z.of_nat (List.length (companies d))
  | Solicitations => Z.of_nat (List.length (solicitations d))
  end.

Definition totalPages (t : subtab) (m : manager) : Z :=
  ceil_div (count t (filteredData m)) itemsPerPage.

Definition from_to (a b : Z) : list Z :=
  map (fun k => a + Z.of_nat k) (seq 0 (Z.to_nat (b - a + 1))).

(** The page arguments of the [changePage] handlers written into the bar:
    previous, the numbers around the current page, next. *)
Definition pagination_targets (t : subtab) (m : manager) : list Z :=
  let total := totalPages t m in
  let cur := get_page t (currentPage m) in
  if total <=? 1 then []
  else
    ((if 1 <? cur then [cur - 1] else [])
     ++ from_to (Z.max 1 (cur - 2)) (Z.min total (cur + 2))
     ++ (if cur <? total then [cur + 1] else []))%list.

(** *** [exportResults(type)] *)

(** One cell: [(field || '').toString()] with every quote doubled,
    between quotes. *)
Definition cell (text : string) : string :=
  String dquote (double_quotes text ++ String dquote EmptyString).

Definition cell_str (f : field string) : string :=
  cell (if truthy_str f then match f with Val s => s | _ => "" end else "").

Definition cell_num (f : field Z) : string :=
  cell (if truthy_num f then match f with Val n => num_toString n | _ => "" end else "").

Definition line (cells : list string) : string :=
  String.concat "," cells ++ String newline EmptyString.

Definition award_line (item : award) : string :=
  line [ cell_str (award_title item); cell_str (firm item); cell_str (a_agency item);
         cell_str (phase item); cell_num (award_amount item); cell_num (award_year item);
         cell_str (company_state item); cell_str (pi_name item);
         cell_str (contract_number item) ].

Definition company_line (item : company) : string :=
  line [ cell_str (firm_name item); cell_str (location item); cell_str (state item);
         cell_num (total_awards item); cell_num (total_funding item);
         cell_num (latest_award_year item); cell_num (employees item);
         cell_str (contact_name item) ].

Definition solicitation_line (item : solicitation) : string :=
  line [ cell_str (title item); cell_str (s_agency item);
         cell_str (solicitation_number item); cell_str (status item);
         cell_str (open_date item); cell_str (close_date item);
         cell_str (phases_offered item) ].

Definition exportResults (t : subtab) (m : manager) : string :=
  match t with
  | Awards =>
      ("Award Title,Company,Agency,Phase,Amount,Year,State,PI Name,Contract Number"
       ++ String newline EmptyString)
      ++ String.concat "" (map award_line (awards (filteredData m)))
  | Companies =>
      ("Company Name,Location,State,Total Awards,Total Funding,Latest Award Year,Employees,Contact Name"
       ++ String newline EmptyString)
      ++ String.concat "" (map company_line (companies (filteredData m)))
  | Solicitations =>
      ("Title,Agency,Solicitation Number,Status,Open Date,Close Date,Phases Offered"
       ++ String newline EmptyString)
      ++ String.concat "" (map solicitation_line (solicitations (filteredData m)))
  end.

(** *** [populateFilterOptions] and [updateStatistics] *)

Definition state_options (m : manager) : list (field string) :=
  default_sort
    (set_of (field_eqb String.eqb)
            (filter truthy_str (map company_state (awards (sbirData m)))
             ++ filter truthy_str (map state (companies (sbirData m))))%list).

Definition stat_solicitations (m : manager) : Z :=
  Z.of_nat (List.length (filter (fun s => str_is (status s) "Open")
                                (solicitations (sbirData m)))).

Definition stat_funding (m : manager) : Z :=
  fold_left (fun sum award => sum + match award_amount award with Val a => a | _ => 0 end)
            (awards (sbirData m)) 0.

End SBIR.

(* ================================================================== *)
(** ** Federal Register NOFAs manager (src/unnamed/part_003) *)
(* ================================================================== *)

Module NOFAs.

Record nofa : Type := {
  id : field string;
  title : field string;
  agency : field string;
  document_number : field string;
  publication_date : field string;
  effective_date : field string;
  abstract : field string;
  funding_amount : field Z;
  application_deadline : field string;
  eligible_applicants : field string;
  html_url : field string;
  contact_email : field string;
  keywords : field (list string);
  significant : field bool;
  docket_id : field string
}.

Record inputs : Type := {
  search_input : string;
  filter_agency : string;
  filter_date : string;
  filter_funding : string;
  filter_deadline : string;
  filter_significant : string;
  filter_docket : string
}.

Record manager : Type := {
  nofasData : list nofa;
  filteredData : list nofa;
  currentPage : Z;
  controls : inputs
}.

Definition itemsPerPage : Z := 20.

Definition nonempty (s : string) : bool := negb (s =? "")%string.

Definition str_is (f : field string) (v : string) : bool :=
  match f with Val s => (s =? v)%string | _ => false end.

Definition opt_lower_includes (f : field string) (term : string) : bool :=
  match f with Val s => includes (toLowerCase s) term | _ => false end.

Definition keywords_hit (f : field (list string)) (term : string) : bool :=
  match f with
  | Val ks => existsb (fun keyword => includes (toLowerCase keyword) term) ks
  | _ => false
  end.

Definition matchesFundingRange (amount : field Z) (range : string) : bool :=
  if negb (truthy_num amount) then (range =? "unspecified")%string
  else match amount with
       | Val a =>
           if (range =? "under-1m")%string then a <? 1000000
           else if (range =? "1m-10m")%string then (1000000 <=? a) && (a <? 10000000)
           else if (range =? "10m-100m")%string then (10000000 <=? a) && (a <? 100000000)
           else if (range =? "over-100m")%string then 100000000 <=? a
           else true
       | _ => (range =? "unspecified")%string
       end.

Definition matchesDeadlineFilter (deadline : field string) (flt : string) : bool :=
  if negb (truthy_str deadline) then negb (flt =? "open")%string
  else match deadline with
       | Val d =>
           let deadlineText := toLowerCase d in
           if (flt =? "open")%string then
             includes deadlineText "open" || includes deadlineText "accepting"
             || includes deadlineText "due"
           else if (flt =? "week")%string then
             includes deadlineText "7 days" || includes deadlineText "week"
           else if (flt =? "month")%string then
             includes deadlineText "30 days" || includes deadlineText "month"
           else if (flt =? "quarter")%string then
             includes deadlineText "quarter" || includes deadlineText "3 months"
           else true
       | _ => negb (flt =? "open")%string
       end.

Section WithEnv.
Variable E : Env.

Definition msPerDay : Z := 24 * 60 * 60 * 1000.

(** The [switch] on the date filter; [None] leaves [cutoffDate] unset. *)
Definition cutoffDate (dateFilter : string) : option Z :=
  if (dateFilter =? "week")%string then Some (Date_now E - 7 * msPerDay)
  else if (dateFilter =? "month")%string then Some (Date_now E - 30 * msPerDay)
  else if (dateFilter =? "quarter")%string then Some (Date_now E - 90 * msPerDay)
  else if (dateFilter =? "year")%string then Some (Date_now E - 365 * msPerDay)
  else None.

Definition published_since (cutoff : Z) (n : nofa) : bool :=
  if negb (truthy_str (publication_date n)) then false
  else match publication_date n with
       | Val s => match Date_parse E s with
                  | Some pubDate => cutoff <=? pubDate
                  | None => false
                  end
       | _ => false
       end.

Definition narrow (v : string) (p : nofa -> bool) (data : list nofa) : list nofa :=
  if nonempty v then filter p data else data.

Definition with_filtered (l : list nofa) (m : manager) : manager :=
  {| nofasData := nofasData m; filteredData := l; currentPage := currentPage m;
     controls := controls m |}.

Definition with_page (p : Z) (m : manager) : manager :=
  {| nofasData := nofasData m; filteredData := filteredData m; currentPage := p;
     controls := controls m |}.

Definition with_controls (i : inputs) (m : manager) : manager :=
  {| nofasData := nofasData m; filteredData := filteredData m;
     currentPage := currentPage m; controls := i |}.

(** The chain of [if (filter) data = data.filter(...)] of [applyFilters]. *)
Definition narrowed (i : inputs) (data : list nofa) : list nofa :=
  let data := narrow (filter_agency i) (fun n => str_is (agency n) (filter_agency i)) data in
  let data :=
    if nonempty (filter_date i) then
      match cutoffDate (filter_date i) with
      | Some cutoff => filter (published_since cutoff) data
      | None => data
      end
    else data in
  let data := narrow (filter_funding i)
                     (fun n => matchesFundingRange (funding_amount n) (filter_funding i))
                     data in
  let data := narrow (filter_deadline i)
                     (fun n => matchesDeadlineFilter (application_deadline n)
                                                     (filter_deadline i))
                     data in
  let data :=
    let isSignificant := (filter_significant i =? "true")%string in
    narrow (filter_significant i)
           (fun n => match significant n with
                     | Val b => Bool.eqb b isSignificant
                     | _ => false
                     end)
           data in
  let docketFilter := trim (filter_docket i) in
  narrow docketFilter
         (fun n => opt_lower_includes (docket_id n) (toLowerCase docketFilter))
         data.

(** The test on one notice that the chain of [narrowed] amounts to: every
    control that has a value must be satisfied. *)
Definition passes (i : inputs) (n : nofa) : bool :=
  (negb (nonempty (filter_agency i)) || str_is (agency n) (filter_agency i))
  && (if nonempty (filter_date i)
      then match cutoffDate (filter_date i) with
           | Some cutoff => published_since cutoff n
           | None => true
           end
      else true)
  && (negb (nonempty (filter_funding i))
      || matchesFundingRange (funding_amount n) (filter_funding i))
  && (negb (nonempty (filter_deadline i))
      || matchesDeadlineFilter (application_deadline n) (filter_deadline i))
  && (negb (nonempty (filter_significant i))
      || match significant n with
         | Val b => Bool.eqb b (filter_significant i =? "true")%string
         | _ => false
         end)
  && (negb (nonempty (trim (filter_docket i)))
      || opt_lower_includes (docket_id n) (toLowerCase (trim (filter_docket i)))).

Definition applyFilters (m : manager) : manager :=
  let data := filteredData m in
  with_page 1 (with_filtered (narrowed (controls m) data) m).

Definition search_hit (searchTerm : string) (n : nofa) : bool :=
  opt_lower_includes (title n) searchTerm ||
  opt_lower_includes (agency n) searchTerm ||
  opt_lower_includes (abstract n) searchTerm ||
  keywords_hit (keywords n) searchTerm ||
  opt_lower_includes (document_number n) searchTerm.

Definition performSearch (m : manager) : manager :=
  let searchTerm := trim (toLowerCase (search_input (controls m))) in
  applyFilters (with_filtered (filter (search_hit searchTerm) (nofasData m)) m).

Definition clearFilters (m : manager) : manager :=
  {| nofasData := nofasData m;
     filteredData := nofasData m;
     currentPage := 1;
     controls := {| search_input := ""; filter_agency := ""; filter_date := "";
                    filter_funding := ""; filter_deadline := "";
                    filter_significant := ""; filter_docket := "" |} |}.

(** The state once [loadNOFAsData] has stored a snapshot. *)
Definition loaded (data : list nofa) : manager :=
  {| nofasData := data;
     filteredData := data;
     currentPage := 1;
     controls := {| search_input := ""; filter_agency := ""; filter_date := "";
                    filter_funding := ""; filter_deadline := "";
                    filter_significant := ""; filter_docket := "" |} |}.

Definition set_control (name value : string) (i : inputs) : inputs :=
  {| search_input := if (name =? "nofas-search-input")%string then value else search_input i;
     filter_agency := if (name =? "nofas-filter-agency")%string then value else filter_agency i;
     filter_date := if (name =? "nofas-filter-date")%string then value else filter_date i;
     filter_funding :=
       if (name =? "nofas-filter-funding")%string then value else filter_funding i;
     filter_deadline :=
       if (name =? "nofas-filter-deadline")%string then value else filter_deadline i;
     filter_significant :=
       if (name =? "nofas-filter-significant")%string then value else filter_significant i;
     filter_docket :=
       if (name =? "nofas-filter-docket")%string then value else filter_docket i |}.

(** A [change]/[input] event inside the filters grid: the control takes
    the value and the listener [applyFilters] runs. *)
Definition on_filter_change (name value : string) (m : manager) : manager :=
  applyFilters (with_controls (set_control name value (controls m)) m).

(** An [input] event on the search box: the listener [performSearch]. *)
Definition on_search_input (value : string) (m : manager) : manager :=
  performSearch (with_controls (set_control "nofas-search-input" value (controls m)) m).

Definition changePage (page : Z) (m : manager) : manager := with_page page m.

Definition pageData (m : manager) : list nofa :=
  let startIndex := (currentPage m - 1) * itemsPerPage in
  let endIndex := startIndex + itemsPerPage in
  slice (filteredData m) startIndex endIndex.

(** *** [sortTable(column)] *)

(** What the comparison operators see for a column: a time value for
    the date columns ([None] for an invalid date), a number, or text. *)
Inductive sort_key : Type :=
| KDate (t : option Z)
| KNum (n : Z)
| KStr (s : string).

Definition text_key (f : field string) : sort_key :=
  KStr (if truthy_str f then match f with Val s => s | _ => "" end else "").

(** [new Date((a[column] || '') || 0)] *)
Definition date_key (f : field string) : sort_key :=
  KDate (if truthy_str f
         then match f with Val s => Date_parse E s | _ => Some 0 end
         else Some 0).

Definition key_of (column : string) (n : nofa) : sort_key :=
  if includes column "date" then
    if (column =? "publication_date")%string then date_key (publication_date n)
    else if (column =? "effective_date")%string then date_key (effective_date n)
    else KDate (Some 0)
  else if (column =? "funding_amount")%string then
    KNum (match funding_amount n with Val a => a | _ => 0 end)
  else if (column =? "id")%string then text_key (id n)
  else if (column =? "title")%string then text_key (title n)
  else if (column =? "agency")%string then text_key (agency n)
  else if (column =? "document_number")%string then text_key (document_number n)
  else if (column =? "abstract")%string then text_key (abstract n)
  else if (column =? "application_deadline")%string then text_key (application_deadline n)
  else if (column =? "eligible_applicants")%string then text_key (eligible_applicants n)
  else if (column =? "html_url")%string then text_key (html_url n)
  else if (column =? "contact_email")%string then text_key (contact_email n)
  else if (column =? "docket_id")%string then text_key (docket_id n)
  else if (column =? "keywords")%string then
    KStr (match keywords n with Val ks => String.concat "," ks | _ => "" end)
  else if (column =? "significant")%string then
    KNum (if truthy_bool (significant n) then 1 else 0)
  else KStr "".

Definition key_lt (a b : sort_key) : bool :=
  match a, b with
  | KDate (Some x), KDate (Some y) => x <? y
  | KNum x, KNum y => x <? y
  | KStr x, KStr y => (x <? y)%string
  | _, _ => false
  end.

Definition comparefn (column : string) (a b : nofa) : option Z :=
  let aVal := key_of column a in
  let bVal := key_of column b in
  if key_lt aVal bVal then Some (-1)
  else if key_lt bVal aVal then Some 1
  else Some 0.

Definition sortTable (column : string) (m : manager) : manager :=
  with_filtered (sort (comparefn column) (filteredData m)) m.

(** The number the comparison reads off a notice for a date column and
    for [funding_amount] (0 stands in for an invalid date). *)
Definition time_key (column : string) (n : nofa) : Z :=
  match key_of column n with KDate (Some t) => t | _ => 0 end.

Definition amount_key (n : nofa) : Z :=
  match funding_amount n with Val a => a | _ => 0 end.

(** *** [populateFilterOptions] *)

Definition agency_options (m : manager) : list (field string) :=
  default_sort (set_of (field_eqb String.eqb)
                       (filter truthy_str (map agency (nofasData m)))).

End WithEnv.

(** *** [updatePagination], [exportResults] and the dashboard *)

Definition totalPages (m : manager) : Z :=
  ceil_div (Z.of_nat (List.length (filteredData m))) itemsPerPage.

Definition from_to (a b : Z) : list Z :=
  map (fun k => a + Z.of_nat k) (seq 0 (Z.to_nat (b - a + 1))).

Definition pagination_targets (m : manager) : list Z :=
  let total := totalPages m in
  let cur := currentPage m in
  if total <=? 1 then []
  else
    ((if 1 <? cur then [cur - 1] else [])
     ++ from_to (Z.max 1 (cur - 2)) (Z.min total (cur + 2))
     ++ (if cur <? total then [cur + 1] else []))%list.

Definition cell (text : string) : string :=
  String dquote (double_quotes text ++ String dquote EmptyString).

Definition cell_str (f : field string) : string :=
  cell (if truthy_str f then match f with Val s => s | _ => "" end else "").

Definition cell_num (f : field Z) : string :=
  cell (if truthy_num f then match f with Val n => num_toString n | _ => "" end else "").

Definition cell_bool (f : field bool) : string :=
  cell (if truthy_bool f then "true" else "").

Definition export_line (n : nofa) : string :=
  String.concat ","
    [ cell_str (title n); cell_str (agency n); cell_str (publication_date n);
      cell_num (funding_amount n); cell_str (application_deadline n);
      cell_str (document_number n); cell_bool (significant n); cell_str (docket_id n) ]
  ++ String newline EmptyString.

Definition exportResults (m : manager) : string :=
  ("Title,Agency,Publication Date,Funding Amount,Deadline,Document Number,Significant,Docket ID"
   ++ String newline EmptyString)
  ++ String.concat "" (map export_line (filteredData m)).

Definition stat_agencies (m : manager) : Z :=
  Z.of_nat (List.length (set_of (field_eqb String.eqb)
                                (filter truthy_str (map agency (nofasData m))))).

Definition stat_funding (m : manager) : Z :=
  fold_left (fun sum n => sum + match funding_amount n with Val a => a | _ => 0 end)
            (nofasData m) 0.

End NOFAs.

(* ================================================================== *)
(** ** Sample snapshots and a reference date parser *)
(* ================================================================== *)

Module Fixture.

(** Date-only ISO strings ([YYYY-MM-DD], read as UTC midnight), the
    format of every date in the snapshots.  Anything else is an invalid
    date. *)
Definition digit (c : ascii) : option Z :=
  let n := Z.of_N (N_of_ascii c) in
  if (48 <=? n) && (n <=? 57) then Some (n - 48) else None.

Fixpoint digits (acc : Z) (l : list ascii) : option Z :=
  match l with
  | [] => Some acc
  | c :: l' => match digit c with
               | Some d => digits (10 * acc + d) l'
               | None => None
               end
  end.

Definition days_from_civil (y m d : Z) : Z :=
  let y' := if m <=? 2 then y - 1 else y in
  let era := y' / 400 in
  let yoe := y' - era * 400 in
  let mp := (m + 9) mod 12 in
  let doy := (153 * mp + 2) / 5 + d - 1 in
  let doe := yoe * 365 + yoe / 4 - yoe / 100 + doy in
  era * 146097 + doe - 719468.

Definition iso_date (s : string) : option Z :=
  match list_ascii_of_string s with
  | [y1; y2; y3; y4; "-"%char; m1; m2; "-"%char; d1; d2] =>
      match digits 0 [y1; y2; y3; y4], digits 0 [m1; m2], digits 0 [d1; d2] with
      | Some y, Some m, Some d =>
          if (1 <=? m) && (m <=? 12) && (1 <=? d) && (d <=? 31)
          then Some (days_from_civil y m d * 86400000)
          else None
      | _, _, _ => None
      end
  | _ => None
  end.

(** A page opened on 2025-08-11, the generation date of the snapshot. *)
Definition env : Env :=
  {| Date_parse := iso_date; Date_now := 1754870400000 |}.

(** *** Grants *)

Definition grant (id title agency : string) (close_date : field string)
                 (award_ceiling : field Z) : App.grant :=
  {| App.id := Val id; App.title := Val title; App.agency := Val agency;
     App.agency_code := Undefined; App.category := Val "Science and Technology";
     App.status := Val "Open"; App.funding_instrument := Val "Grant";
     App.description := Undefined; App.opportunity_number := Undefined;
     App.cfda_number := Undefined; App.close_date := close_date;
     App.posted_date := Val "2025-07-01"; App.eligibility := Undefined;
     App.contact_email := Undefined; App.url := Undefined;
     App.award_floor := Undefined; App.award_ceiling := award_ceiling;
     App.total_funding := Undefined; App.expected_awards := Undefined;
     App.cost_sharing := Val false |}.

Definition no_inputs : App.inputs :=
  {| App.search_input := ""; App.filter_agency := ""; App.filter_category := "";
     App.filter_status := ""; App.filter_funding := ""; App.filter_instrument := "";
     App.filter_deadline := ""; App.filter_costshare := ""; App.filter_cfda := "" |}.

(** The page once [loadGrantsData] has stored a snapshot. *)
Definition grants_loaded (data : list App.grant) : App.state :=
  {| App.grantsData := data; App.filteredGrants := data; App.currentPage := 1;
     App.sortColumn := ""; App.sortDirection := App.asc;
     App.controls := no_inputs; App.alerts := [] |}.

Definition g_small : App.grant :=
  grant "g-50k" "Rural Broadband Pilot" "USDA" (Val "2025-09-30") (Val 50000).
Definition g_medium : App.grant :=
  grant "g-150k" "Coastal Resilience Study" "NOAA" (Val "2025-10-15") (Val 150000).
Definition g_unspecified : App.grant :=
  grant "g-null" "Workforce Training Initiative" "DOL" (Val "2025-12-01") Null.
Definition g_no_date : App.grant :=
  grant "g-nodate" "Open Call for Proposals" "NSF" Null (Val 250000).
Definition g_bad_date : App.grant :=
  grant "g-baddate" "Rolling Submission Program" "DOE" (Val "rolling") (Val 300000).
Definition g_far_date : App.grant :=
  grant "g-2100" "Century Infrastructure Fund" "DOT" (Val "2100-01-01") (Val 900000).
Definition g_no_agency : App.grant :=
  grant "g-noagency" "Unattributed Opportunity" "" (Val "2025-11-01") (Val 10000).

(** *** Challenges (abridged from [getSampleChallenges], with a challenge
    without prize and one whose title carries quotation marks) *)

Definition challenge (id title agency description status deadline : string)
                     (prize_total : field Z) (challenge_type : string)
  : Challenges.challenge :=
  {| Challenges.id := Val id; Challenges.title := Val title;
     Challenges.agency := Val agency; Challenges.description := Val description;
     Challenges.source := Val "challenge.gov"; Challenges.status := Val status;
     Challenges.submission_deadline := Val deadline;
     Challenges.prize_description := Undefined;
     Challenges.challenge_type := Val challenge_type;
     Challenges.post_date := Undefined; Challenges.website_url := Undefined;
     Challenges.prize_total := prize_total |}.

Definition innovation_challenge : Challenges.challenge :=
  challenge "innovation_challenge_2025" "Federal Innovation Challenge 2025"
            "General Services Administration"
            "Seeking innovative solutions to improve government services and citizen experience through technology."
            "Active" "2025-12-31" (Val 100000) "Innovation".

Definition cybersecurity_challenge : Challenges.challenge :=
  challenge "cybersecurity_challenge" "Cybersecurity Innovation Challenge"
            "Department of Homeland Security"
            "Developing next-generation cybersecurity tools and techniques to protect critical infrastructure."
            "Active" "2025-09-30" (Val 150000) "Cybersecurity".

Definition recognition_challenge : Challenges.challenge :=
  challenge "recognition_only" "Public Service Recognition Challenge"
            "Office of Personnel Management"
            "Non-monetary recognition for outstanding civic technology."
            "Active" "2025-10-31" Null "Innovation".

Definition moonshot_title : string :=
  "The " ++ String dquote ("Moonshot" ++ String dquote " Prize").

Definition moonshot_challenge : Challenges.challenge :=
  challenge "moonshot" moonshot_title "NASA" "Lunar logistics." "Active" "2025-12-31"
            (Val 100000) "Technology".

Definition statusless_challenge : Challenges.challenge :=
  {| Challenges.id := Val "statusless"; Challenges.title := Val "Open Data Prize";
     Challenges.agency := Val "Department of Commerce";
     Challenges.description := Val "Reuse of public data sets.";
     Challenges.source := Val "challenge.gov"; Challenges.status := Undefined;
     Challenges.submission_deadline := Val "2025-11-30";
     Challenges.prize_description := Undefined;
     Challenges.challenge_type := Val "Technology";
     Challenges.post_date := Undefined; Challenges.website_url := Undefined;
     Challenges.prize_total := Val 1000 |}.

Definition no_challenge_inputs : Challenges.inputs :=
  {| Challenges.search_input := ""; Challenges.filter_agency := "";
     Challenges.filter_status := ""; Challenges.filter_type := "";
     Challenges.filter_prize := "" |}.

Definition challenges_loaded (data : list Challenges.challenge) : Challenges.state :=
  {| Challenges.challengesData := data; Challenges.filteredChallenges := data;
     Challenges.currentChallengePage := 1; Challenges.controls := no_challenge_inputs |}.

Definition twenty_one_challenges : Challenges.state :=
  challenges_loaded (repeat innovation_challenge 21).

(** *** SBIR companies (abridged from [getSampleSBIRData], with a record
    that carries neither name nor location) *)

Definition company (id firm_name location state : string) (employees total_awards
                    total_funding : Z) : SBIR.company :=
  {| SBIR.c_id := Val id; SBIR.firm_name := Val firm_name; SBIR.location := Val location;
     SBIR.state := Val state; SBIR.employees := Val employees;
     SBIR.total_awards := Val total_awards; SBIR.total_funding := Val total_funding;
     SBIR.first_award_year := Undefined; SBIR.latest_award_year := Val 2024;
     SBIR.agencies := Undefined; SBIR.phases := Undefined;
     SBIR.contact_name := Undefined; SBIR.contact_email := Undefined |}.

Definition company_techcorp : SBIR.company :=
  company "company_techcorp" "TechCorp Innovations" "Austin, TX" "TX" 45 3 2500000.
Definition company_biomed : SBIR.company :=
  company "company_biomed" "BioMed Solutions LLC" "Boston, MA" "MA" 12 2 1250000.
Definition company_quantum : SBIR.company :=
  company "company_quantum" "Quantum Dynamics Inc" "Palo Alto, CA" "CA" 8 1 500000.

Definition company_anonymous : SBIR.company :=
  {| SBIR.c_id := Val "company_anonymous"; SBIR.firm_name := Undefined;
     SBIR.location := Null; SBIR.state := Val "TX"; SBIR.employees := Val 5;
     SBIR.total_awards := Val 1; SBIR.total_funding := Null;
     SBIR.first_award_year := Undefined; SBIR.latest_award_year := Undefined;
     SBIR.agencies := Undefined; SBIR.phases := Undefined;
     SBIR.contact_name := Undefined; SBIR.contact_email := Undefined |}.

Definition no_sbir_inputs : SBIR.inputs :=
  {| SBIR.awards_search_input := ""; SBIR.awards_filter_agency := "";
     SBIR.awards_filter_phase := ""; SBIR.awards_filter_year := "";
     SBIR.awards_filter_state := ""; SBIR.companies_search_input := "";
     SBIR.companies_filter_state := ""; SBIR.companies_filter_funding := "";
     SBIR.companies_filter_awards := ""; SBIR.companies_filter_employees := "";
     SBIR.solicitations_search_input := ""; SBIR.solicitations_filter_agency := "";
     SBIR.solicitations_filter_status := ""; SBIR.solicitations_filter_phases := "" |}.

(** The manager once [loadSBIRData] has stored a snapshot. *)
Definition sbir_loaded (d : SBIR.dataset) : SBIR.manager :=
  {| SBIR.sbirData := d; SBIR.filteredData := d;
     SBIR.currentPage := {| SBIR.page_awards := 1; SBIR.page_companies := 1;
                            SBIR.page_solicitations := 1 |};
     SBIR.currentSubTab := SBIR.Awards; SBIR.controls := no_sbir_inputs;
     SBIR.alerts := [] |}.

Definition funding_under_500k : SBIR.inputs :=
  {| SBIR.awards_search_input := ""; SBIR.awards_filter_agency := "";
     SBIR.awards_filter_phase := ""; SBIR.awards_filter_year := "";
     SBIR.awards_filter_state := ""; SBIR.companies_search_input := "";
     SBIR.companies_filter_state := ""; SBIR.companies_filter_funding := "under-500k";
     SBIR.companies_filter_awards := ""; SBIR.companies_filter_employees := "";
     SBIR.solicitations_search_input := ""; SBIR.solicitations_filter_agency := "";
     SBIR.solicitations_filter_status := ""; SBIR.solicitations_filter_phases := "" |}.

Definition companies_with_anonymous : SBIR.dataset :=
  {| SBIR.awards := [];
     SBIR.companies := [company_techcorp; company_anonymous; company_biomed];
     SBIR.solicitations := [] |}.

Definition companies_nameless_second : SBIR.dataset :=
  {| SBIR.awards := [];
     SBIR.companies := [company_biomed; company_anonymous; company_techcorp];
     SBIR.solicitations := [] |}.

Definition sample_companies : SBIR.dataset :=
  {| SBIR.awards := [];
     SBIR.companies := [company_techcorp; company_biomed; company_quantum];
     SBIR.solicitations := [] |}.

(** *** NOFAs (abridged from [getSampleNOFAsData], with a notice without
    any searchable property and one without publication date) *)

Definition nofa (id title agency document_number publication_date abstract : string)
                (funding_amount : field Z) (keywords : list string) : NOFAs.nofa :=
  {| NOFAs.id := Val id; NOFAs.title := Val title; NOFAs.agency := Val agency;
     NOFAs.document_number := Val document_number;
     NOFAs.publication_date := Val publication_date;
     NOFAs.effective_date := Val publication_date; NOFAs.abstract := Val abstract;
     NOFAs.funding_amount := funding_amount; NOFAs.application_deadline := Undefined;
     NOFAs.eligible_applicants := Undefined; NOFAs.html_url := Undefined;
     NOFAs.contact_email := Undefined; NOFAs.keywords := Val keywords;
     NOFAs.significant := Val true; NOFAs.docket_id := Undefined |}.

Definition nofa_housing : NOFAs.nofa :=
  nofa "fr_sample_housing_2025"
       "Notice of Funding Availability for Community Development Block Grant Program"
       "Department of Housing and Urban Development" "2025-02150" "2025-02-01"
       "HUD announces the availability of funds for the Community Development Block Grant program."
       (Val 3500000000) ["housing"; "community"; "development"; "block"; "grant"].

Definition nofa_energy : NOFAs.nofa :=
  nofa "fr_sample_energy_2025"
       "Notice of Funding Opportunity for Clean Energy Innovation Program"
       "Department of Energy" "2025-03201" "2025-02-15"
       "The Department of Energy announces funding opportunities for innovative clean energy technologies."
       (Val 500000000) ["energy"; "clean"; "innovation"; "renewable"; "technology"].

Definition nofa_bare : NOFAs.nofa :=
  {| NOFAs.id := Val "fr_bare"; NOFAs.title := Undefined; NOFAs.agency := Null;
     NOFAs.document_number := Undefined; NOFAs.publication_date := Val "2025-03-01";
     NOFAs.effective_date := Undefined; NOFAs.abstract := Undefined;
     NOFAs.funding_amount := Null; NOFAs.application_deadline := Undefined;
     NOFAs.eligible_applicants := Undefined; NOFAs.html_url := Undefined;
     NOFAs.contact_email := Undefined; NOFAs.keywords := Undefined;
     NOFAs.significant := Val false; NOFAs.docket_id := Val "FR-2025-0001" |}.

Definition nofa_undated : NOFAs.nofa :=
  {| NOFAs.id := Val "fr_undated"; NOFAs.title := Val "Notice of Funding Availability";
     NOFAs.agency := Val "Department of Labor"; NOFAs.document_number := Val "2025-09999";
     NOFAs.publication_date := Null; NOFAs.effective_date := Undefined;
     NOFAs.abstract := Undefined; NOFAs.funding_amount := Val 2000000;
     NOFAs.application_deadline := Undefined; NOFAs.eligible_applicants := Undefined;
     NOFAs.html_url := Undefined; NOFAs.contact_email := Undefined;
     NOFAs.keywords := Undefined; NOFAs.significant := Val false;
     NOFAs.docket_id := Undefined |}.

End Fixture.

(* ================================================================== *)
(** ** Properties of the primitives *)
(* ================================================================== *)

Lemma prefix_empty (s : string) : prefix "" s = true.
Proof. destruct s; reflexivity. Qed.

Lemma prefix_cons (c : ascii) (s t : string) :
  prefix (String c s) (String c t) = prefix s t.
Proof. simpl. destruct (ascii_dec c c) as [_ | n]; [reflexivity | now elim n]. Qed.

Lemma includes_empty (s : string) : includes s "" = true.
Proof. destruct s; reflexivity. Qed.

Lemma includes_prefix (s t : string) : prefix t s = true -> includes s t = true.
Proof. intros H. destruct s; simpl in *; rewrite H; reflexivity. Qed.

Lemma includes_tail (c : ascii) (s t : string) :
  includes s t = true -> includes (String c s) t = true.
Proof. intros H. cbn [includes]. rewrite H. apply orb_true_r. Qed.

Lemma prefix_trimEnd (s : string) : prefix (trimEnd s) s = true.
Proof.
  induction s as [| c s IH]; [reflexivity |].
  cbn [trimEnd]. destruct (trimEnd s) as [| d r] eqn:Er.
  - destruct (is_space c); [apply prefix_empty |].
    rewrite prefix_cons. apply prefix_empty.
  - rewrite prefix_cons. exact IH.
Qed.

Lemma includes_trim (s : string) : includes s (trim s) = true.
Proof.
  unfold trim. induction s as [| c s IH]; [reflexivity |].
  cbn [trimStart]. destruct (is_space c).
  - apply includes_tail, IH.
  - apply includes_prefix, prefix_trimEnd.
Qed.

(** A window that starts inside or after the array: [slice] neither
    fails nor wraps around, it is [firstn]/[skipn]. *)
Lemma slice_window {A} (l : list A) (start size : Z) :
  0 <= start -> 0 <= size ->
  slice l start (start + size) = firstn (Z.to_nat size) (skipn (Z.to_nat start) l).
Proof.
  intros Hs Hz. unfold slice.
  destruct (Z.ltb_spec start 0) as [|_]; [lia |].
  destruct (Z.ltb_spec (start + size) 0) as [|_]; [lia |].
  set (len := Z.of_nat (List.length l)).
  assert (Hlen : List.length l = Z.to_nat len) by (unfold len; lia).
  destruct (Z.le_gt_cases len start) as [Hge | Hlt].
  - rewrite (skipn_all2 l) by lia.
    rewrite Z.min_r by lia. rewrite skipn_all2 by lia.
    now rewrite !firstn_nil.
  - rewrite (Z.min_l start len) by lia.
    destruct (Z.le_gt_cases (start + size) len) as [Hin | Hout].
    + rewrite Z.min_l by lia. f_equal. lia.
    + rewrite Z.min_r by lia.
      rewrite !firstn_all2; [reflexivity | |]; rewrite length_skipn; lia.
Qed.

Lemma slice_window_length {A} (l : list A) (start size : Z) :
  0 <= start -> 0 <= size ->
  (List.length (slice l start (start + size)) <= Z.to_nat size)%nat.
Proof.
  intros Hs Hz. rewrite slice_window by assumption. rewrite length_firstn. lia.
Qed.

Lemma slice_window_past_end {A} (l : list A) (start size : Z) :
  0 <= size -> Z.of_nat (List.length l) <= start ->
  slice l start (start + size) = [].
Proof.
  intros Hz Hs. rewrite slice_window by lia.
  rewrite skipn_all2 by lia. apply firstn_nil.
Qed.

Lemma ceil_div_lt (len n : Z) :
  0 <= len -> ceil_div len 20 < n -> len <= (n - 1) * 20.
Proof. unfold ceil_div. intros H0 H. Z.to_euclidean_division_equations. lia. Qed.

Lemma ceil_div_ge (len n : Z) :
  0 <= len -> n <= ceil_div len 20 -> (n - 1) * 20 < len \/ n <= 0.
Proof. unfold ceil_div. intros H0 H. Z.to_euclidean_division_equations. lia. Qed.

(* ================================================================== *)
(** ** Pagination *)
(* ================================================================== *)

(** C10.  The page window is total.  For every page number [n >= 1] the
    slice taken by [updateTable] (grants) and by [displayData] (SBIR) is
    the list of at most 20 records that starts at offset [(n-1)*20] of the
    filtered result; it is the empty list, not an error, whenever [n] lies
    beyond [ceil(totalCount / 20)]. *)
Theorem page_window_total (n : Z) (Hn : 1 <= n) :
  (forall st : App.state,
      App.currentPage st = n ->
      App.pageGrants st
      = firstn 20 (skipn (Z.to_nat ((n - 1) * 20)) (App.filteredGrants st))
      /\ (List.length (App.pageGrants st) <= 20)%nat
      /\ (ceil_div (Z.of_nat (List.length (App.filteredGrants st))) App.itemsPerPage < n ->
          App.pageGrants st = []))
  /\ (forall (A : Type) (l : list A),
      SBIR.window l n = firstn 20 (skipn (Z.to_nat ((n - 1) * 20)) l)
      /\ (List.length (SBIR.window l n) <= 20)%nat
      /\ (ceil_div (Z.of_nat (List.length l)) SBIR.itemsPerPage < n ->
          SBIR.window l n = [])).
Proof.
  split.
  - intros st Hp. unfold App.pageGrants, App.itemsPerPage. rewrite Hp.
    repeat split.
    + now rewrite slice_window by lia.
    + apply (slice_window_length _ ((n - 1) * 20) 20); lia.
    + intros Hc. apply slice_window_past_end; [lia |].
      apply ceil_div_lt; [lia | exact Hc].
  - intros A l. unfold SBIR.window, SBIR.itemsPerPage. repeat split.
    + now rewrite slice_window by lia.
    + apply (slice_window_length _ ((n - 1) * 20) 20); lia.
    + intros Hc. apply slice_window_past_end; [lia |].
      apply ceil_div_lt; [lia | exact Hc].
Qed.

(** Page 3 of a one-record result: an empty window. *)
Lemma page_window_total_witness :
  1 <= 3 /\ SBIR.window [Fixture.company_techcorp] 3 = [].
Proof.
  assert (H : 1 <= 3) by lia.
  split; [exact H |].
  destruct (page_window_total 3 H) as [_ Hs].
  destruct (Hs SBIR.company [Fixture.company_techcorp]) as (_ & _ & He).
  apply He. vm_compute. reflexivity.
Defined.

Lemma page_numbers_range (total t : Z) :
  In t (Challenges.page_numbers total) -> 1 <= t <= total.
Proof.
  unfold Challenges.page_numbers. rewrite in_map_iff.
  intros (k & <- & Hk). apply in_seq in Hk. lia.
Qed.

(** C5, as the code has it.  [changePage] stores the requested number as
    it is, without clamping, and touches neither the collection nor the
    filtered result; the same holds for the SBIR manager.  The only
    requests the pagination bar itself issues, when the current page is in
    range, are pages of [1 .. ceil(totalCount / 20)]. *)
Theorem changePage_stores_page_keeps_records :
  (forall (st : Challenges.state) (n : Z),
      Challenges.currentChallengePage (Challenges.changePage n st) = n
      /\ Challenges.filteredChallenges (Challenges.changePage n st)
         = Challenges.filteredChallenges st
      /\ Challenges.challengesData (Challenges.changePage n st)
         = Challenges.challengesData st)
  /\ (forall (m : SBIR.manager) (t : SBIR.subtab) (n : Z),
      SBIR.get_page t (SBIR.currentPage (SBIR.changePage t n m)) = n
      /\ SBIR.filteredData (SBIR.changePage t n m) = SBIR.filteredData m
      /\ SBIR.sbirData (SBIR.changePage t n m) = SBIR.sbirData m)
  /\ (forall (st : Challenges.state) (t : Z),
      1 <= Challenges.currentChallengePage st <= Challenges.totalPages st ->
      In t (Challenges.pagination_targets st) ->
      1 <= t <= Challenges.totalPages st).
Proof.
  split; [| split].
  - intros st n. repeat split.
  - intros m [] n; repeat split.
  - intros st t Hcur. unfold Challenges.pagination_targets.
    destruct (Z.leb_spec (Challenges.totalPages st) 1) as [| Htot]; [intros [] |].
    rewrite !in_app_iff. intros [H | [H | H]].
    + destruct (Z.ltb_spec 1 (Challenges.currentChallengePage st)) as [Hlt |];
        [| destruct H].
      destruct H as [<- | []]. lia.
    + apply filter_In in H. destruct H as [H _].
      apply page_numbers_range, H.
    + destruct (Z.ltb_spec (Challenges.currentChallengePage st) (Challenges.totalPages st))
        as [Hlt |]; [| destruct H].
      destruct H as [<- | []]. lia.
Qed.

(** 21 records, shown on page 1: the bar offers page 2 only. *)
Lemma changePage_stores_page_keeps_records_witness :
  1 <= Challenges.currentChallengePage Fixture.twenty_one_challenges
    <= Challenges.totalPages Fixture.twenty_one_challenges
  /\ In 2 (Challenges.pagination_targets Fixture.twenty_one_challenges)
  /\ 1 <= 2 <= Challenges.totalPages Fixture.twenty_one_challenges.
Proof.
  assert (Hc : 1 <= Challenges.currentChallengePage Fixture.twenty_one_challenges
               <= Challenges.totalPages Fixture.twenty_one_challenges)
    by (vm_compute; split; discriminate).
  assert (Hi : In 2 (Challenges.pagination_targets Fixture.twenty_one_challenges))
    by (vm_compute; left; reflexivity).
  split; [exact Hc |]. split; [exact Hi |].
  destruct changePage_stores_page_keeps_records as (_ & _ & H).
  exact (H Fixture.twenty_one_challenges 2 Hc Hi).
Defined.

(** C5, counterexample.  One challenge is loaded, so the only page is
    page 1; [changePage(7)] and [changePage(0)] leave the page at 7 and at
    0, outside [1, ceil(1/20)] = [1, 1]. *)
Lemma changePage_not_clamped :
  let st := Fixture.challenges_loaded [Fixture.cybersecurity_challenge] in
  Challenges.totalPages st = 1
  /\ Challenges.currentChallengePage (Challenges.changePage 7 st) = 7
  /\ Challenges.currentChallengePage (Challenges.changePage 0 st) = 0
  /\ ~ (forall n : Z,
          1 <= Challenges.currentChallengePage (Challenges.changePage n st)
            <= Challenges.totalPages (Challenges.changePage n st)).
Proof.
  cbv zeta. repeat split.
  intros H. specialize (H 7). vm_compute in H. destruct H as [_ H]. apply H. reflexivity.
Qed.

(* ================================================================== *)
(** ** Funding and prize buckets *)
(* ================================================================== *)

Lemma passes_funding_only (E : Env) (g : App.grant) (range : string) :
  (range =? "")%string = false ->
  App.passes E (App.set_control "filter-funding" range Fixture.no_inputs) g
  = App.matchesFundingRange g range.
Proof.
  intros Hr. unfold App.passes. cbn. unfold App.nonempty. rewrite Hr. cbn.
  destruct (App.matchesFundingRange g range); reflexivity.
Qed.

(** C2, as the code has it.  A record whose funding amount is absent or
    null satisfies the [unspecified] bucket and no other one in the grants
    table and in the NOFA manager.  The SBIR companies filter has no such
    bucket: there a missing [total_funding] counts as zero and satisfies
    [under-500k], and nothing else.  For grants with [award_ceiling]
    50000, 150000 and null, the [under-100k] filter yields the first grant
    only and the [unspecified] filter the last one only. *)
Theorem missing_funding_bucket :
  (forall (g : App.grant) (range : string),
      nullish (App.award_ceiling g) = true ->
      App.matchesFundingRange g range = (range =? "unspecified")%string)
  /\ (forall (amount : field Z) (range : string),
      nullish amount = true ->
      NOFAs.matchesFundingRange amount range = (range =? "unspecified")%string)
  /\ (forall (amount : field Z) (range : string),
      nullish amount = true ->
      SBIR.matchesFundingRange amount range = (range =? "under-500k")%string)
  /\ (forall (E : Env) (g1 g2 g3 : App.grant),
      App.award_ceiling g1 = Val 50000 ->
      App.award_ceiling g2 = Val 150000 ->
      App.award_ceiling g3 = Null ->
      let st := Fixture.grants_loaded [g1; g2; g3] in
      App.filteredGrants (App.on_change E "filter-funding" "under-100k" st) = [g1]
      /\ App.filteredGrants (App.on_change E "filter-funding" "unspecified" st) = [g3]).
Proof.
  repeat split.
  - intros g range H. unfold App.matchesFundingRange.
    destruct (App.award_ceiling g); [reflexivity | reflexivity | discriminate].
  - intros [| | a] range H; [reflexivity | reflexivity | discriminate].
  - intros [| | a] range H; [reflexivity | reflexivity | discriminate].
  - unfold App.on_change, App.filterGrants. cbn [App.filteredGrants App.grantsData
      App.with_controls App.controls Fixture.grants_loaded filter].
    rewrite !passes_funding_only by reflexivity.
    unfold App.matchesFundingRange. rewrite H, H0, H1. reflexivity.
  - unfold App.on_change, App.filterGrants. cbn [App.filteredGrants App.grantsData
      App.with_controls App.controls Fixture.grants_loaded filter].
    rewrite !passes_funding_only by reflexivity.
    unfold App.matchesFundingRange. rewrite H, H0, H1. reflexivity.
Qed.

Lemma missing_funding_bucket_witness :
  App.matchesFundingRange Fixture.g_unspecified "under-100k" = false
  /\ NOFAs.matchesFundingRange Null "over-100m" = false
  /\ SBIR.matchesFundingRange Undefined "under-500k" = true
  /\ App.filteredGrants
       (App.on_change Fixture.env "filter-funding" "under-100k"
          (Fixture.grants_loaded [Fixture.g_small; Fixture.g_medium; Fixture.g_unspecified]))
     = [Fixture.g_small]
  /\ App.filteredGrants
       (App.on_change Fixture.env "filter-funding" "unspecified"
          (Fixture.grants_loaded [Fixture.g_small; Fixture.g_medium; Fixture.g_unspecified]))
     = [Fixture.g_unspecified].
Proof.
  destruct missing_funding_bucket as (Hg & Hn & Hs & Hsc).
  split; [exact (Hg Fixture.g_unspecified "under-100k" eq_refl) |].
  split; [exact (Hn Null "over-100m" eq_refl) |].
  split; [exact (Hs Undefined "under-500k" eq_refl) |].
  exact (Hsc Fixture.env Fixture.g_small Fixture.g_medium Fixture.g_unspecified
             eq_refl eq_refl eq_refl).
Defined.

(** C2, counterexample.  In the SBIR companies filter a company without
    [total_funding] satisfies the bounded bucket [under-500k]: filtering
    the anonymous company (funding null) and TechCorp (2.5M) by that
    bucket keeps the company without funding. *)
Lemma sbir_missing_funding_in_bounded_bucket :
  SBIR.total_funding Fixture.company_anonymous = Null
  /\ SBIR.matchesFundingRange (SBIR.total_funding Fixture.company_anonymous) "under-500k"
     = true
  /\ SBIR.filter_companies Fixture.funding_under_500k
       [Fixture.company_anonymous; Fixture.company_techcorp]
     = [Fixture.company_anonymous].
Proof. repeat split. Qed.

Lemma keeps_prize_cleared (i : Challenges.inputs) (pf : string) (c : Challenges.challenge) :
  Challenges.keeps (Challenges.with_prize pf i) c
  = bind (Challenges.keeps (Challenges.with_prize "" i) c)
         (fun b => Normal (b && Challenges.matchesPrize pf c)).
Proof.
  unfold Challenges.keeps. cbn [Challenges.with_prize Challenges.search_input
    Challenges.filter_agency Challenges.filter_status Challenges.filter_type
    Challenges.filter_prize].
  destruct (Challenges.matchesSearch _ c) as [b |]; [| reflexivity].
  cbn [bind]. f_equal.
  replace (Challenges.matchesPrize "" c) with true by reflexivity.
  now rewrite andb_true_r.
Qed.

Lemma filterM_prize_cleared (i : Challenges.inputs) (pf : string)
      (l : list Challenges.challenge) :
  match Challenges.filterM (Challenges.keeps (Challenges.with_prize pf i)) l,
        Challenges.filterM (Challenges.keeps (Challenges.with_prize "" i)) l with
  | Normal l1, Normal l0 =>
      forall c, In c l1 <-> In c l0 /\ Challenges.matchesPrize pf c = true
  | Throw, Throw => True
  | _, _ => False
  end.
Proof.
  induction l as [| x l IH]; cbn [Challenges.filterM bind].
  - intros c. cbn. tauto.
  - rewrite keeps_prize_cleared.
    destruct (Challenges.keeps (Challenges.with_prize "" i) x) as [b |]; cbn [bind];
      [| exact I].
    destruct (Challenges.filterM (Challenges.keeps (Challenges.with_prize pf i)) l)
      as [l1 |];
      destruct (Challenges.filterM (Challenges.keeps (Challenges.with_prize "" i)) l)
      as [l0 |]; cbn [bind]; try exact IH.
    intros c. specialize (IH c).
    destruct b; cbn [andb]; [| exact IH].
    destruct (Challenges.matchesPrize pf x) eqn:Ex; cbn [In].
    + split.
      * intros [<- | Hc]; [split; [now left | exact Ex] |].
        apply IH in Hc. tauto.
      * intros [[<- | Hc] Hp]; [now left | right; apply IH; tauto].
    + split.
      * intros Hc. apply IH in Hc. tauto.
      * intros [[<- | Hc] Hp]; [congruence | apply IH; tauto].
Qed.

(** C9.  A challenge whose [prize_total] is absent, null or 0 satisfies
    the prize predicate for every value of the prize filter; the callback
    of [filterChallenges] gives the same answer for it as with the prize
    filter cleared; and whatever the prize filter is set to, the challenge
    is in the filtered list that the handler leaves exactly when it is
    there with the filter cleared. *)
Theorem prize_filter_skipped_without_prize
        (c : Challenges.challenge)
        (Hc : truthy_num (Challenges.prize_total c) = false) :
  (forall pf : string, Challenges.matchesPrize pf c = true)
  /\ (forall (i : Challenges.inputs) (pf : string),
      Challenges.keeps (Challenges.with_prize pf i) c
      = Challenges.keeps (Challenges.with_prize "" i) c)
  /\ (forall (st : Challenges.state) (pf : string),
      In c (Challenges.filteredChallenges
              (Challenges.after (Challenges.on_prize_change pf st)))
      <-> In c (Challenges.filteredChallenges
                  (Challenges.after (Challenges.on_prize_change "" st)))).
Proof.
  assert (Hp : forall pf, Challenges.matchesPrize pf c = true).
  { intros pf. unfold Challenges.matchesPrize. rewrite Hc, andb_false_r. reflexivity. }
  split; [exact Hp |]. split.
  - intros i pf. rewrite keeps_prize_cleared.
    destruct (Challenges.keeps (Challenges.with_prize "" i) c) as [b |]; [| reflexivity].
    cbn [bind]. now rewrite Hp, andb_true_r.
  - intros st pf. unfold Challenges.on_prize_change, Challenges.filterChallenges.
    cbn [Challenges.controls Challenges.with_controls Challenges.challengesData].
    pose proof (filterM_prize_cleared (Challenges.controls st) pf
                                      (Challenges.challengesData st)) as H.
    destruct (Challenges.filterM _ (Challenges.challengesData st)) as [l1 |];
      destruct (Challenges.filterM _ (Challenges.challengesData st)) as [l0 |];
      cbn [Challenges.after Challenges.rendered Challenges.filteredChallenges
           Challenges.with_controls];
      try (now destruct H); try tauto.
    rewrite H. specialize (Hp pf). tauto.
Qed.

(** The recognition challenge (prize null) under the [over-500k] filter. *)
Lemma prize_filter_skipped_without_prize_witness :
  truthy_num (Challenges.prize_total Fixture.recognition_challenge) = false
  /\ Challenges.matchesPrize "over-500k" Fixture.recognition_challenge = true.
Proof.
  assert (H : truthy_num (Challenges.prize_total Fixture.recognition_challenge) = false)
    by reflexivity.
  split; [exact H |].
  exact (proj1 (prize_filter_skipped_without_prize Fixture.recognition_challenge H)
               "over-500k").
Defined.

(* ================================================================== *)
(** ** Cross-reference from an award to its company *)
(* ================================================================== *)

Lemma find_company_find (companyName : string) (l : list SBIR.company) :
  (forall c, In c l -> nullish (SBIR.firm_name c) = false) ->
  SBIR.find_company companyName l = Normal (find (SBIR.same_name companyName) l).
Proof.
  induction l as [| c l IH]; intros Hkey; [reflexivity |].
  cbn [SBIR.find_company find]. unfold SBIR.same_name at 1.
  pose proof (Hkey c (or_introl eq_refl)) as Hc.
  destruct (SBIR.firm_name c) as [| | n]; try discriminate.
  destruct (toLowerCase n =? toLowerCase companyName)%string; [reflexivity |].
  apply IH. intros c' Hin. apply Hkey. now right.
Qed.

Lemma company_hit_same_name (companyName : string) (c : SBIR.company) :
  SBIR.same_name companyName c = true ->
  SBIR.company_hit (trim (toLowerCase companyName)) c = true.
Proof.
  unfold SBIR.same_name, SBIR.company_hit, SBIR.opt_lower_includes.
  destruct (SBIR.firm_name c) as [| | n]; try discriminate.
  intros H. apply String.eqb_eq in H. rewrite H, includes_trim. reflexivity.
Qed.

(** The companies shown once the cross-link has been followed. *)
Lemma showCompanyFromName_view (companyName : string) (m : SBIR.manager) (c0 : SBIR.company) :
  SBIR.find_company companyName (SBIR.companies (SBIR.sbirData m)) = Normal (Some c0) ->
  exists m',
    SBIR.showCompanyFromName companyName m = Normal m'
    /\ SBIR.currentSubTab m' = SBIR.Companies
    /\ SBIR.companies (SBIR.filteredData m')
       = filter (SBIR.company_hit (trim (toLowerCase companyName)))
                (SBIR.companies (SBIR.sbirData m))
    /\ SBIR.alerts m' = SBIR.alerts m.
Proof.
  intros Hf. unfold SBIR.showCompanyFromName. rewrite Hf. cbn [bind].
  eexists. split; [reflexivity |]. repeat split.
Qed.

(** The link on a well-formed collection.  The company is looked up by
    case-insensitive equality of [firm_name] with the given name.  In a
    companies collection whose records all carry a name: if exactly one
    company bears the name, the
    lookup returns it, the companies sub-tab is shown and the company is
    in the filtered result, without any alert; if no company bears the
    name, one alert saying that the company was not found is raised and the
    view (filtered data, pages, sub-tab, controls) is left as it was. *)
Theorem showCompanyFromName_resolves
        (m : SBIR.manager) (companyName : string)
        (Hkey : forall c, In c (SBIR.companies (SBIR.sbirData m)) ->
                          nullish (SBIR.firm_name c) = false) :
  (forall c : SBIR.company,
      In c (SBIR.companies (SBIR.sbirData m)) ->
      SBIR.same_name companyName c = true ->
      (forall c', In c' (SBIR.companies (SBIR.sbirData m)) ->
                  SBIR.same_name companyName c' = true -> c' = c) ->
      SBIR.find_company companyName (SBIR.companies (SBIR.sbirData m)) = Normal (Some c)
      /\ exists m',
          SBIR.showCompanyFromName companyName m = Normal m'
          /\ SBIR.currentSubTab m' = SBIR.Companies
          /\ In c (SBIR.companies (SBIR.filteredData m'))
          /\ SBIR.alerts m' = SBIR.alerts m)
  /\ ((forall c, In c (SBIR.companies (SBIR.sbirData m)) ->
                 SBIR.same_name companyName c = false) ->
      SBIR.find_company companyName (SBIR.companies (SBIR.sbirData m)) = Normal None
      /\ exists m',
          SBIR.showCompanyFromName companyName m = Normal m'
          /\ SBIR.alerts m' = (SBIR.alerts m ++ [SBIR.not_found_message companyName])%list
          /\ SBIR.filteredData m' = SBIR.filteredData m
          /\ SBIR.currentPage m' = SBIR.currentPage m
          /\ SBIR.currentSubTab m' = SBIR.currentSubTab m
          /\ SBIR.controls m' = SBIR.controls m
          /\ SBIR.sbirData m' = SBIR.sbirData m).
Proof.
  pose proof (find_company_find companyName _ Hkey) as Hfind.
  split.
  - intros c Hin Hname Huniq.
    assert (Hc : find (SBIR.same_name companyName) (SBIR.companies (SBIR.sbirData m))
                 = Some c).
    { destruct (find _ _) as [c' |] eqn:Ef.
      - apply find_some in Ef. destruct Ef as [Hin' Hn']. f_equal. now apply Huniq.
      - pose proof (find_none _ _ Ef c Hin). congruence. }
    rewrite Hc in Hfind. split; [exact Hfind |].
    destruct (showCompanyFromName_view companyName m c Hfind) as (m' & Hs & Ht & Hv & Ha).
    exists m'. repeat split; try assumption.
    rewrite Hv. apply filter_In. split; [exact Hin |].
    now apply company_hit_same_name.
  - intros Hnone.
    assert (Hn : find (SBIR.same_name companyName) (SBIR.companies (SBIR.sbirData m))
                 = None).
    { destruct (find _ _) as [c' |] eqn:Ef; [| reflexivity].
      apply find_some in Ef. destruct Ef as [Hin' Hn']. rewrite Hnone in Hn' by assumption.
      discriminate. }
    rewrite Hn in Hfind. split; [exact Hfind |].
    exists (SBIR.alert (SBIR.not_found_message companyName) m).
    unfold SBIR.showCompanyFromName. rewrite Hfind. repeat split.
Qed.

Lemma sample_companies_named :
  forall c, In c (SBIR.companies (SBIR.sbirData (Fixture.sbir_loaded Fixture.sample_companies))) ->
            nullish (SBIR.firm_name c) = false.
Proof. intros c [<- | [<- | [<- | []]]]; reflexivity. Defined.

(** The scenario of the sample data: TechCorp Innovations is found, and
    Nonexistent Corp is reported. *)
Lemma showCompanyFromName_resolves_witness :
  SBIR.find_company "TechCorp Innovations"
     (SBIR.companies (SBIR.sbirData (Fixture.sbir_loaded Fixture.sample_companies)))
  = Normal (Some Fixture.company_techcorp)
  /\ SBIR.find_company "Nonexistent Corp"
       (SBIR.companies (SBIR.sbirData (Fixture.sbir_loaded Fixture.sample_companies)))
     = Normal None.
Proof.
  split.
  - refine (proj1 (proj1 (showCompanyFromName_resolves
                            (Fixture.sbir_loaded Fixture.sample_companies)
                            "TechCorp Innovations" sample_companies_named)
                         Fixture.company_techcorp _ _ _)).
    + left. reflexivity.
    + reflexivity.
    + intros c' [<- | [<- | [<- | []]]] H;
        [reflexivity | vm_compute in H; discriminate H | vm_compute in H; discriminate H].
  - refine (proj1 (proj2 (showCompanyFromName_resolves
                            (Fixture.sbir_loaded Fixture.sample_companies)
                            "Nonexistent Corp" sample_companies_named) _)).
    intros c [<- | [<- | [<- | []]]]; reflexivity.
Defined.

(** C6, evaluated.  The lookup compares without case: on the sample
    companies [TECHCORP innovations] finds TechCorp Innovations, and an
    unknown name raises the alert and leaves the view alone.  But when a
    company without [firm_name] is listed (here second of three), the
    [find] callback dereferences the missing name: for a name borne by no
    company the handler ends in a TypeError, so no alert is raised, and
    for the name of the one company that bears it, listed after the
    nameless one, nothing is returned or shown. *)
Theorem showCompanyFromName_silent_on_nameless :
  let sample := Fixture.sbir_loaded Fixture.sample_companies in
  let m := Fixture.sbir_loaded Fixture.companies_nameless_second in
  SBIR.find_company "TECHCORP innovations" (SBIR.companies (SBIR.sbirData sample))
  = Normal (Some Fixture.company_techcorp)
  /\ SBIR.showCompanyFromName "Nonexistent Corp" sample
     = Normal (SBIR.alert (SBIR.not_found_message "Nonexistent Corp") sample)
  /\ SBIR.companies (SBIR.sbirData m)
     = [Fixture.company_biomed; Fixture.company_anonymous; Fixture.company_techcorp]
  /\ SBIR.firm_name Fixture.company_anonymous = Undefined
  /\ filter (SBIR.same_name "Nonexistent Corp") (SBIR.companies (SBIR.sbirData m)) = []
  /\ SBIR.showCompanyFromName "Nonexistent Corp" m = Throw
  /\ filter (SBIR.same_name "TechCorp Innovations") (SBIR.companies (SBIR.sbirData m))
     = [Fixture.company_techcorp]
  /\ SBIR.showCompanyFromName "TechCorp Innovations" m = Throw.
Proof. cbv zeta. repeat split. Qed.

(* ================================================================== *)
(** ** Recomputation of the filtered result *)
(* ================================================================== *)

Lemma set_control_twice (name v w : string) (i : App.inputs) :
  App.set_control name w (App.set_control name v i) = App.set_control name w i.
Proof.
  unfold App.set_control. cbn.
  f_equal;
    match goal with
    | |- context [(name =? ?s)%string] => destruct (name =? s)%string
    end; reflexivity.
Qed.

(** The grants table recomputes from the whole collection: the filtered
    result is a function of the collection and of the controls, so a
    filter that is set and then cleared leaves no trace. *)
Lemma filterGrants_from_collection (E : Env) (st : App.state) :
  App.filteredGrants (App.filterGrants E st)
  = filter (App.passes E (App.controls st)) (App.grantsData st).
Proof. reflexivity. Qed.

(** X1.  In the grants table a control that is given a value and then
    emptied leaves the same state as emptying it at once: nothing of the
    intermediate filter survives, because [filterGrants] reads the whole
    collection and the controls only. *)
Lemma grants_filter_reset (E : Env) (st : App.state) (name v : string) :
  App.on_change E name "" (App.on_change E name v st) = App.on_change E name "" st.
Proof.
  unfold App.on_change, App.filterGrants, App.with_controls. cbn.
  now rewrite set_control_twice.
Qed.

(** C1, evaluated on the NOFA manager.  Two sample notices are loaded.
    Choosing the agency [Department of Energy] and then the empty option
    again leaves the controls as they were, yet the filtered result still
    holds the one Energy notice: [applyFilters] narrows the previous
    result.  Only a search event goes back to the whole collection. *)
Theorem nofas_filter_reset_keeps_narrowing (E : Env) :
  let m0 := NOFAs.loaded [Fixture.nofa_housing; Fixture.nofa_energy] in
  let m1 := NOFAs.on_filter_change E "nofas-filter-agency" "Department of Energy" m0 in
  let m2 := NOFAs.on_filter_change E "nofas-filter-agency" "" m1 in
  NOFAs.controls m2 = NOFAs.controls m0
  /\ NOFAs.filteredData m1 = [Fixture.nofa_energy]
  /\ NOFAs.filteredData m2 = [Fixture.nofa_energy]
  /\ NOFAs.filteredData (NOFAs.applyFilters E m0) = [Fixture.nofa_housing; Fixture.nofa_energy]
  /\ NOFAs.filteredData (NOFAs.performSearch E m2)
     = [Fixture.nofa_housing; Fixture.nofa_energy].
Proof. cbv zeta. repeat split. Qed.

(* ================================================================== *)
(** ** Search stage *)
(* ================================================================== *)

(** In the SBIR and NOFA managers a record is a hit when one of its
    searchable properties is present and contains the term. *)
Lemma company_hit_iff (term : string) (c : SBIR.company) :
  SBIR.company_hit term c = true <->
  exists s, (SBIR.firm_name c = Val s \/ SBIR.location c = Val s)
            /\ includes (toLowerCase s) term = true.
Proof.
  unfold SBIR.company_hit, SBIR.opt_lower_includes. rewrite orb_true_iff. split.
  - intros [H | H].
    + destruct (SBIR.firm_name c) as [| | s]; try discriminate. exists s. tauto.
    + destruct (SBIR.location c) as [| | s]; try discriminate. exists s. tauto.
  - intros (s & [-> | ->] & H); tauto.
Qed.

(** With the empty term the hit test asks for a present searchable
    property. *)
Lemma company_hit_empty_term (c : SBIR.company) :
  SBIR.company_hit "" c
  = negb (nullish (SBIR.firm_name c)) || negb (nullish (SBIR.location c)).
Proof.
  unfold SBIR.company_hit, SBIR.opt_lower_includes.
  destruct (SBIR.firm_name c), (SBIR.location c); cbn; rewrite ?includes_empty; reflexivity.
Qed.

(** The grants table guards the search stage: an empty term keeps every
    grant. *)
Lemma grants_empty_search_keeps_all (E : Env) (g : App.grant) :
  App.passes E Fixture.no_inputs g = true.
Proof. reflexivity. Qed.

(** C3, evaluated on the SBIR and NOFA managers.  With an empty search
    box, [performSearch] drops the company that has neither [firm_name]
    nor [location], and the notice without title, agency, abstract,
    keywords and document number: every optional chain yields
    [undefined], so the callback of [filter] is falsy. *)
Theorem empty_search_drops_records_without_searchable_fields (E : Env) :
  let m := Fixture.sbir_loaded Fixture.companies_with_anonymous in
  SBIR.search_input SBIR.Companies (SBIR.controls m) = ""
  /\ SBIR.companies (SBIR.sbirData m)
     = [Fixture.company_techcorp; Fixture.company_anonymous; Fixture.company_biomed]
  /\ SBIR.companies (SBIR.filteredData (SBIR.performSearch SBIR.Companies m))
     = [Fixture.company_techcorp; Fixture.company_biomed]
  /\ NOFAs.filteredData
       (NOFAs.on_search_input E ""
          (NOFAs.loaded [Fixture.nofa_housing; Fixture.nofa_bare; Fixture.nofa_energy]))
     = [Fixture.nofa_housing; Fixture.nofa_energy].
Proof. cbv zeta. repeat split. Qed.

(* ================================================================== *)
(** ** CSV export *)
(* ================================================================== *)

Lemma has_char_double_quotes (c : ascii) (s : string) :
  has_char c (double_quotes s) = has_char c s.
Proof.
  induction s as [| d s IH]; [reflexivity |].
  cbn [double_quotes]. destruct (Ascii.eqb d dquote) eqn:Ed; cbn [has_char]; rewrite IH.
  - apply Ascii.eqb_eq in Ed. subst d. now destruct (Ascii.eqb c dquote).
  - reflexivity.
Qed.

Lemma double_quotes_without_quote (s : string) :
  has_char dquote s = false -> double_quotes s = s.
Proof.
  induction s as [| d s IH]; [reflexivity |].
  cbn [has_char double_quotes]. rewrite orb_false_iff. intros [Hd Hs].
  rewrite Ascii.eqb_sym in Hd. rewrite Hd. now rewrite IH.
Qed.

(** The grants export: a value with a comma, a double quote or a line
    feed is emitted between double quotes with its quotes doubled, any
    other value as it is. *)
Lemma csv_cell_spec (value : string) :
  App.csv_cell value
  = if App.needs_quotes value
    then String dquote (double_quotes value ++ String dquote "")
    else value.
Proof.
  unfold App.csv_cell, App.needs_quotes. rewrite !has_char_double_quotes.
  destruct (has_char comma value); [reflexivity |].
  destruct (has_char dquote value) eqn:Hq; [reflexivity |].
  cbn [orb]. now rewrite double_quotes_without_quote.
Qed.

(** The export does not read the page: the downloaded text is the header
    line followed by one line per filtered grant. *)
Lemma exportResults_all_pages (st : App.state) (p : Z) :
  App.exportResults
    {| App.grantsData := App.grantsData st; App.filteredGrants := App.filteredGrants st;
       App.currentPage := p; App.sortColumn := App.sortColumn st;
       App.sortDirection := App.sortDirection st; App.controls := App.controls st;
       App.alerts := App.alerts st |}
  = App.exportResults st.
Proof. reflexivity. Qed.

(** C7, evaluated on the challenges export.  The challenge titled
    [The "Moonshot" Prize] is written with its title between double
    quotes but with the inner quotes as they are, where the grants export
    doubles them. *)
Theorem challenges_csv_leaves_quotes_unescaped
        (formatAmount : field Z -> string) (toLocaleDateString : string -> string) :
  let q := String dquote "" in
  (exists rest,
      Challenges.convertChallengersToCsv formatAmount toLocaleDateString
                                         [Fixture.moonshot_challenge]
      = Normal ("Title,Agency,Type,Status,Prize Amount,Deadline,Description"
                ++ String newline ""
                ++ q ++ "The " ++ q ++ "Moonshot" ++ q ++ " Prize" ++ q ++ "," ++ rest))
  /\ App.csv_cell (str_toString (Challenges.title Fixture.moonshot_challenge))
     = q ++ "The " ++ q ++ q ++ "Moonshot" ++ q ++ q ++ " Prize" ++ q.
Proof.
  cbv zeta. split; [| reflexivity].
  eexists. cbn. reflexivity.
Qed.

(* ================================================================== *)
(** ** Filter option lists *)
(* ================================================================== *)

(** C8, evaluated on the grants table.  A grant whose agency is the empty
    string contributes the empty string to the agency options:
    [populateFilters] does not drop falsy values. *)
Theorem grants_agency_options_keep_empty :
  let st := Fixture.grants_loaded [Fixture.g_small; Fixture.g_no_agency; Fixture.g_medium] in
  App.agency Fixture.g_no_agency = Val ""
  /\ App.agencies st = [Val ""; Val "NOAA"; Val "USDA"]
  /\ In (Val "") (App.agencies st).
Proof. cbv zeta. split; [reflexivity |]. split; [reflexivity |]. left. reflexivity. Qed.

(* ================================================================== *)
(** ** Sorting *)
(* ================================================================== *)

Section SortFacts.
Context {A : Type} (comparefn : A -> A -> option Z).

Lemma insert_perm (x : A) (l : list A) : Permutation (x :: l) (insert comparefn x l).
Proof.
  induction l as [| y l IH]; cbn [insert]; [reflexivity |].
  destruct (SortCompare comparefn x y <=? 0); [reflexivity |].
  rewrite perm_swap. now apply perm_skip.
Qed.

Lemma sort_perm (l : list A) : Permutation l (sort comparefn l).
Proof.
  induction l as [| x l IH]; [reflexivity |].
  cbn [sort fold_right]. rewrite <- insert_perm. now apply perm_skip.
Qed.

(** On the records [ok] for which the comparator is the difference of a
    key, the sort orders by the key and keeps the order of ties. *)
Variable key : A -> Z.
Variable ok : A -> Prop.
Hypothesis comparefn_key :
  forall x y, ok x -> ok y -> SortCompare comparefn x y = key x - key y.

Let by_key (a b : A) : Prop := key a <= key b.

Lemma insert_sorted (x : A) (l : list A) :
  ok x -> Forall ok l -> StronglySorted by_key l ->
  StronglySorted by_key (insert comparefn x l).
Proof.
  intros Hx Hl Hs. induction Hs as [| y l Hs IH Hy]; cbn [insert].
  - constructor; constructor.
  - apply Forall_cons_iff in Hl. destruct Hl as [Hoy Hl].
    rewrite (comparefn_key x y Hx Hoy).
    destruct (Z.leb_spec (key x - key y) 0) as [Hle | Hgt].
    + constructor; [now constructor |].
      constructor; [unfold by_key; lia |].
      eapply Forall_impl; [| exact Hy]. unfold by_key. intros a Ha. lia.
    + constructor; [now apply IH |].
      rewrite <- insert_perm. constructor; [unfold by_key; lia | exact Hy].
Qed.

Lemma sort_sorted (l : list A) :
  Forall ok l -> StronglySorted by_key (sort comparefn l).
Proof.
  induction l as [| x l IH]; intros Hl; [constructor |].
  apply Forall_cons_iff in Hl. destruct Hl as [Hx Hl].
  cbn [sort fold_right]. apply insert_sorted; [exact Hx | | now apply IH].
  eapply Permutation_Forall; [apply sort_perm | exact Hl].
Qed.

Lemma insert_stable (t : Z) (x : A) (l : list A) :
  ok x -> Forall ok l ->
  filter (fun a => key a =? t) (insert comparefn x l)
  = filter (fun a => key a =? t) (x :: l).
Proof.
  intros Hx Hl. induction l as [| y l IH]; [reflexivity |].
  apply Forall_cons_iff in Hl. destruct Hl as [Hy Hl].
  cbn [insert]. rewrite (comparefn_key x y Hx Hy).
  destruct (Z.leb_spec (key x - key y) 0) as [Hle | Hgt]; [reflexivity |].
  cbn [filter] in *. rewrite (IH Hl).
  destruct (Z.eqb_spec (key y) t), (Z.eqb_spec (key x) t); try reflexivity. lia.
Qed.

Lemma sort_stable (t : Z) (l : list A) :
  Forall ok l ->
  filter (fun a => key a =? t) (sort comparefn l) = filter (fun a => key a =? t) l.
Proof.
  induction l as [| x l IH]; intros Hl; [reflexivity |].
  apply Forall_cons_iff in Hl. destruct Hl as [Hx Hl].
  change (sort comparefn (x :: l)) with (insert comparefn x (sort comparefn l)).
  rewrite insert_stable.
  - cbn [filter]. now rewrite (IH Hl).
  - exact Hx.
  - eapply Permutation_Forall; [apply sort_perm | exact Hl].
Qed.

(** In a list ordered by the key nothing smaller follows. *)
Lemma sorted_after (l1 l2 : list A) (a b : A) :
  StronglySorted by_key (l1 ++ a :: l2) -> In b l2 -> key a <= key b.
Proof.
  induction l1 as [| x l1 IH]; cbn [app]; intros Hs Hb.
  - apply StronglySorted_inv in Hs. destruct Hs as [_ Hall].
    rewrite Forall_forall in Hall. now apply Hall.
  - apply StronglySorted_inv in Hs. destruct Hs as [Hs _]. now apply IH.
Qed.

End SortFacts.

Lemma comparefn_date_key (E : Env) (column : string) (d : App.direction) (a b : App.grant) :
  column = "close_date" \/ column = "posted_date" ->
  (exists t, App.date_or_2099 E (App.date_column column a) = Some t) ->
  (exists t, App.date_or_2099 E (App.date_column column b) = Some t) ->
  SortCompare (App.comparefn E column d) a b
  = App.signed d (App.date_time E column a) - App.signed d (App.date_time E column b).
Proof.
  intros Hcol [ta Ha] [tb Hb]. unfold SortCompare, App.comparefn, App.date_time.
  rewrite Ha, Hb.
  destruct Hcol as [-> | ->]; cbn; destruct d; cbn; lia.
Qed.

(** C4, as the code has it.  In the grants table, a sort on [close_date]
    or [posted_date] compares parsed dates, reading an absent, null or
    empty date as 2099-12-31.  When every date that is present parses,
    the sorted result is a permutation of the filtered grants, ordered by
    that time value in the direction of the sort, with ties left in their
    previous order; in ascending order no grant dated before 2099-12-31
    comes after a grant without date. *)
Theorem sortTable_by_date
        (E : Env) (st : App.state) (column : string) (sentinel : Z)
        (Hcol : column = "close_date" \/ column = "posted_date")
        (Hsent : Date_parse E "2099-12-31" = Some sentinel)
        (Hparse : forall g, In g (App.filteredGrants st) ->
                            exists t, App.date_or_2099 E (App.date_column column g) = Some t) :
  let st' := App.sortTable E column st in
  let key := fun g => App.signed (App.sortDirection st') (App.date_time E column g) in
  Permutation (App.filteredGrants st) (App.filteredGrants st')
  /\ StronglySorted (fun a b => key a <= key b) (App.filteredGrants st')
  /\ (forall t, filter (fun g => key g =? t) (App.filteredGrants st')
                = filter (fun g => key g =? t) (App.filteredGrants st))
  /\ (App.sortDirection st' = App.asc ->
      forall l1 a l2,
        App.filteredGrants st' = (l1 ++ a :: l2)%list ->
        truthy_str (App.date_column column a) = false ->
        forall b, In b l2 -> sentinel <= App.date_time E column b).
Proof.
  intros st' key.
  set (d := App.sortDirection st').
  set (ok := fun g => exists t, App.date_or_2099 E (App.date_column column g) = Some t).
  assert (Hcmp : forall x y, ok x -> ok y ->
                             SortCompare (App.comparefn E column d) x y = key x - key y).
  { intros x y Hx Hy. now apply comparefn_date_key. }
  assert (Hok : Forall ok (App.filteredGrants st)) by (now apply Forall_forall).
  assert (Hl : App.filteredGrants st' = sort (App.comparefn E column d) (App.filteredGrants st))
    by reflexivity.
  assert (Hsorted : StronglySorted (fun a b => key a <= key b) (App.filteredGrants st')).
  { rewrite Hl. exact (sort_sorted _ key ok Hcmp _ Hok). }
  split; [rewrite Hl; apply sort_perm |].
  split; [exact Hsorted |].
  split; [intros t; rewrite Hl; exact (sort_stable _ key ok Hcmp t _ Hok) |].
  intros Hasc l1 a l2 Heq Ha b Hb.
  rewrite Heq in Hsorted.
  pose proof (sorted_after key l1 l2 a b Hsorted Hb) as Hle.
  subst key d. cbv beta in Hle. rewrite Hasc in Hle. cbn [App.signed] in Hle.
  replace (App.date_time E column a) with sentinel in Hle; [exact Hle |].
  unfold App.date_time, App.date_or_2099. now rewrite Ha, Hsent.
Qed.

Lemma three_dated_grants_parse :
  forall g,
    In g (App.filteredGrants
            (Fixture.grants_loaded [Fixture.g_no_date; Fixture.g_medium; Fixture.g_small])) ->
    exists t, App.date_or_2099 Fixture.env (App.date_column "close_date" g) = Some t.
Proof. intros g [<- | [<- | [<- | []]]]; eexists; vm_compute; reflexivity. Defined.

(** A grant without date, then two dated ones: the dated ones come first. *)
Lemma sortTable_by_date_witness :
  let st := Fixture.grants_loaded [Fixture.g_no_date; Fixture.g_medium; Fixture.g_small] in
  Permutation (App.filteredGrants st)
              (App.filteredGrants (App.sortTable Fixture.env "close_date" st))
  /\ App.filteredGrants (App.sortTable Fixture.env "close_date" st)
     = [Fixture.g_small; Fixture.g_medium; Fixture.g_no_date].
Proof.
  cbv zeta. split; [| reflexivity].
  exact (proj1 (sortTable_by_date
                  Fixture.env
                  (Fixture.grants_loaded [Fixture.g_no_date; Fixture.g_medium; Fixture.g_small])
                  "close_date" 4102358400000 (or_introl eq_refl) eq_refl
                  three_dated_grants_parse)).
Defined.

(** C4, counterexample.  Ascending sort on [close_date].  A grant whose
    date does not parse is tied with every other grant (the comparator
    yields [NaN]) and stays in front of a grant due 2025-09-30; a grant
    without date is placed before a grant due 2100-01-01. *)
Lemma unparsable_or_absent_date_not_last :
  Date_parse Fixture.env "rolling" = None
  /\ App.comparefn Fixture.env "close_date" App.asc Fixture.g_bad_date Fixture.g_small = None
  /\ App.comparefn Fixture.env "close_date" App.asc Fixture.g_small Fixture.g_bad_date = None
  /\ (let st := App.sortTable Fixture.env "close_date"
                  (Fixture.grants_loaded [Fixture.g_bad_date; Fixture.g_small]) in
      App.sortDirection st = App.asc
      /\ App.filteredGrants st = [Fixture.g_bad_date; Fixture.g_small])
  /\ (let st := App.sortTable Fixture.env "close_date"
                  (Fixture.grants_loaded [Fixture.g_far_date; Fixture.g_no_date]) in
      App.sortDirection st = App.asc
      /\ App.filteredGrants st = [Fixture.g_no_date; Fixture.g_far_date]).
Proof. cbv zeta. repeat split. Qed.

(** The NOFA manager reads a missing date as the epoch: on a sort by
    [publication_date] the notice without date comes first. *)
Lemma nofas_sort_absent_date_first :
  NOFAs.filteredData
    (NOFAs.sortTable Fixture.env "publication_date"
       (NOFAs.loaded [Fixture.nofa_housing; Fixture.nofa_undated]))
  = [Fixture.nofa_undated; Fixture.nofa_housing].
Proof. reflexivity. Qed.

(* ================================================================== *)
(** ** More on the primitives: containment and distinct values *)
(* ================================================================== *)

Lemma prefix_iff (t s : string) :
  prefix t s = true <-> exists b, s = t ++ b.
Proof.
  revert s. induction t as [| c t IH]; intros s.
  - rewrite prefix_empty. split; [intros _; now exists s | reflexivity].
  - destruct s as [| d s]; cbn [prefix].
    + split; [discriminate | intros [b Hb]; discriminate].
    + destruct (ascii_dec c d) as [-> | Hne].
      * rewrite IH. split; intros [b Hb]; exists b; cbn in *; congruence.
      * split; [discriminate | intros [b Hb]; cbn in Hb; congruence].
Qed.

(** [includes] is containment as a contiguous substring. *)
Lemma includes_iff (s t : string) :
  includes s t = true <-> exists a b, s = a ++ t ++ b.
Proof.
  induction s as [| c s IH].
  - cbn [includes]. rewrite orb_false_r, prefix_iff. split.
    + intros [b Hb]. now exists "", b.
    + intros (a & b & H). destruct a; cbn in H; [now exists b | discriminate].
  - cbn [includes]. rewrite orb_true_iff, prefix_iff, IH. split.
    + intros [[b Hb] | (a & b & Hab)].
      * now exists "", b.
      * exists (String c a), b. cbn. now rewrite Hab.
    + intros (a & b & H). destruct a as [| c' a]; cbn in H.
      * left. now exists b.
      * right. exists a, b. congruence.
Qed.

Section SetFacts.
Context {A : Type} (eqb : A -> A -> bool).
Hypothesis eqb_eq : forall a b, eqb a b = true <-> a = b.

Lemma existsb_eqb_In (x : A) (seen : list A) :
  existsb (eqb x) seen = true <-> In x seen.
Proof.
  rewrite existsb_exists. split.
  - intros (y & Hy & He). apply eqb_eq in He. now subst.
  - intros H. exists x. split; [exact H | now apply eqb_eq].
Qed.

Lemma dedupe_acc_In (x : A) (l seen : list A) :
  In x (dedupe_acc eqb seen l) <-> In x l /\ ~ In x seen.
Proof.
  revert seen. induction l as [| y l IH]; intros seen; cbn [dedupe_acc In].
  - tauto.
  - destruct (existsb (eqb y) seen) eqn:Ey.
    + apply existsb_eqb_In in Ey. rewrite IH. split.
      * tauto.
      * intros [[-> | H] Hn]; tauto.
    + assert (Hy : ~ In y seen).
      { intros H. apply existsb_eqb_In in H. congruence. }
      cbn [In]. rewrite IH. cbn [In]. split.
      * intros [-> | [H Hn]]; tauto.
      * intros [[-> | H] Hn]; [now left |].
        destruct (eqb y x) eqn:Eyx; [apply eqb_eq in Eyx; now left |].
        right. split; [exact H |]. intros [-> | Hs]; [| tauto].
        assert (eqb x x = true) by now apply eqb_eq. congruence.
Qed.

Lemma dedupe_acc_NoDup (l seen : list A) : NoDup (dedupe_acc eqb seen l).
Proof.
  revert seen. induction l as [| y l IH]; intros seen; cbn [dedupe_acc].
  - constructor.
  - destruct (existsb (eqb y) seen); [apply IH |].
    constructor; [| apply IH].
    rewrite dedupe_acc_In. cbn [In]. tauto.
Qed.

Lemma set_of_In (x : A) (l : list A) : In x (set_of eqb l) <-> In x l.
Proof. unfold set_of. rewrite dedupe_acc_In. cbn [In]. tauto. Qed.

Lemma set_of_NoDup (l : list A) : NoDup (set_of eqb l).
Proof. apply dedupe_acc_NoDup. Qed.

End SetFacts.

Lemma field_eqb_eq (a b : field string) :
  field_eqb String.eqb a b = true <-> a = b.
Proof.
  destruct a as [| | s], b as [| | t]; cbn; try (split; [discriminate | congruence]);
    try tauto.
  rewrite String.eqb_eq. split; congruence.
Qed.

Lemma default_sort_perm (l : list (field string)) : Permutation l (default_sort l).
Proof.
  unfold default_sort. rewrite <- sort_perm.
  induction l as [| x l IH]; [reflexivity |].
  cbn [filter]. destruct x; cbn [is_undefined negb].
  - rewrite <- Permutation_middle. now apply perm_skip.
  - cbn [app]. now apply perm_skip.
  - cbn [app]. now apply perm_skip.
Qed.

(** The agency options of the NOFA manager: the distinct agencies of the
    collection, without the absent, null and empty ones. *)
Lemma nofas_agency_options_spec (m : NOFAs.manager) (x : field string) :
  In x (NOFAs.agency_options m)
  <-> truthy_str x = true /\ exists n, In n (NOFAs.nofasData m) /\ NOFAs.agency n = x.
Proof.
  unfold NOFAs.agency_options. split.
  - intros H. apply (Permutation_in _ (Permutation_sym (default_sort_perm _))) in H.
    apply (proj1 (set_of_In _ field_eqb_eq _ _)) in H. apply filter_In in H. destruct H as [H Ht].
    apply in_map_iff in H. destruct H as (n & Hn & Hin). split; [exact Ht | now exists n].
  - intros (Ht & n & Hin & Hn).
    apply (Permutation_in _ (default_sort_perm _)).
    apply (proj2 (set_of_In _ field_eqb_eq _ _)). apply filter_In. split; [| exact Ht].
    apply in_map_iff. now exists n.
Qed.

Lemma nofas_agency_options_distinct (m : NOFAs.manager) : NoDup (NOFAs.agency_options m).
Proof.
  unfold NOFAs.agency_options.
  eapply Permutation_NoDup; [apply default_sort_perm |].
  apply (set_of_NoDup _ field_eqb_eq).
Qed.

(** The grants table takes the agencies as they come, whatever they are. *)
Lemma grants_agencies_spec (st : App.state) (x : field string) :
  In x (App.agencies st) <-> exists g, In g (App.grantsData st) /\ App.agency g = x.
Proof.
  unfold App.agencies, App.distinct_sorted. split.
  - intros H. apply (Permutation_in _ (Permutation_sym (default_sort_perm _))) in H.
    apply (proj1 (set_of_In _ field_eqb_eq _ _)) in H.
    apply in_map_iff in H. destruct H as (g & Hg & Hin). now exists g.
  - intros (g & Hin & Hg).
    apply (Permutation_in _ (default_sort_perm _)).
    apply (proj2 (set_of_In _ field_eqb_eq _ _)). apply in_map_iff. now exists g.
Qed.

(** A NOFA is a search hit when a present text property, or one of its
    keywords, contains the term. *)
Lemma nofa_search_hit_iff (term : string) (n : NOFAs.nofa) :
  NOFAs.search_hit term n = true <->
  (exists s, (NOFAs.title n = Val s \/ NOFAs.agency n = Val s \/ NOFAs.abstract n = Val s
              \/ NOFAs.document_number n = Val s)
             /\ includes (toLowerCase s) term = true)
  \/ (exists ks k, NOFAs.keywords n = Val ks /\ In k ks
                   /\ includes (toLowerCase k) term = true).
Proof.
  unfold NOFAs.search_hit, NOFAs.opt_lower_includes, NOFAs.keywords_hit.
  rewrite !orb_true_iff. split.
  - intros [[[[H | H] | H] | H] | H].
    + destruct (NOFAs.title n) as [| | s]; try discriminate. left. exists s. tauto.
    + destruct (NOFAs.agency n) as [| | s]; try discriminate. left. exists s. tauto.
    + destruct (NOFAs.abstract n) as [| | s]; try discriminate. left. exists s. tauto.
    + destruct (NOFAs.keywords n) as [| | ks]; try discriminate.
      apply existsb_exists in H. destruct H as (k & Hk & Hi). right. now exists ks, k.
    + destruct (NOFAs.document_number n) as [| | s]; try discriminate.
      left. exists s. tauto.
  - intros [(s & [H | [H | [H | H]]] & Hi) | (ks & k & Hks & Hk & Hi)].
    + rewrite H. tauto.
    + rewrite H. tauto.
    + rewrite H. tauto.
    + rewrite H. tauto.
    + rewrite Hks. left. right. apply existsb_exists. now exists k.
Qed.

(* ================================================================== *)
(** ** [applyFilters] works on the previous result *)
(* ================================================================== *)

Lemma nofas_narrow_incl (v : string) (p : NOFAs.nofa -> bool) (data : list NOFAs.nofa) :
  incl (NOFAs.narrow v p data) data.
Proof.
  unfold NOFAs.narrow. destruct (NOFAs.nonempty v); [| apply incl_refl].
  intros x Hx. apply filter_In in Hx. tauto.
Qed.

(** In the NOFA manager a filter event never brings a notice back: the
    new result is drawn from the result on display. *)
Lemma nofas_applyFilters_narrows (E : Env) (m : NOFAs.manager) :
  incl (NOFAs.filteredData (NOFAs.applyFilters E m)) (NOFAs.filteredData m).
Proof.
  unfold NOFAs.applyFilters, NOFAs.narrowed.
  cbn [NOFAs.filteredData NOFAs.with_page NOFAs.with_filtered].
  eapply incl_tran; [apply nofas_narrow_incl |].
  eapply incl_tran; [apply nofas_narrow_incl |].
  eapply incl_tran; [apply nofas_narrow_incl |].
  eapply incl_tran; [apply nofas_narrow_incl |].
  eapply incl_tran; [| apply nofas_narrow_incl].
  destruct (NOFAs.nonempty (NOFAs.filter_date (NOFAs.controls m))); [| apply incl_refl].
  destruct (NOFAs.cutoffDate E (NOFAs.filter_date (NOFAs.controls m))); [| apply incl_refl].
  intros x Hx. apply filter_In in Hx. destruct Hx as [Hx _]. exact Hx.
Qed.

Lemma sbir_narrow_incl {A} (v : string) (p : A -> bool) (data : list A) :
  incl (SBIR.narrow v p data) data.
Proof.
  unfold SBIR.narrow. destruct (SBIR.nonempty v); [| apply incl_refl].
  intros x Hx. apply filter_In in Hx. tauto.
Qed.

(** The same holds for the companies of the SBIR manager. *)
Lemma sbir_applyFilters_narrows (m : SBIR.manager) :
  incl (SBIR.companies (SBIR.filteredData (SBIR.applyFilters SBIR.Companies m)))
       (SBIR.companies (SBIR.filteredData m)).
Proof.
  unfold SBIR.applyFilters, SBIR.filter_companies.
  cbn [SBIR.filteredData SBIR.set_pages SBIR.set_filtered SBIR.companies SBIR.set_companies].
  repeat (eapply incl_tran; [apply sbir_narrow_incl |]). apply incl_refl.
Qed.

(* ================================================================== *)
(** ** Grants table: filters *)
(* ================================================================== *)

Lemma filter_all {A} (p : A -> bool) (l : list A) :
  (forall x, In x l -> p x = true) -> filter p l = l.
Proof.
  induction l as [| x l IH]; intros H; [reflexivity |].
  cbn [filter]. rewrite (H x (or_introl eq_refl)). f_equal.
  apply IH. intros y Hy. apply H. now right.
Qed.

(** X2.  The clear button of the grants table shows the whole collection
    again, on page 1: with every control empty no guard of [filterGrants]
    rejects a grant, whatever properties the grant lacks. *)
Theorem grants_clear_filters_shows_all (E : Env) (st : App.state) :
  App.filteredGrants (App.on_clear_filters E st) = App.grantsData st
  /\ App.currentPage (App.on_clear_filters E st) = 1
  /\ App.controls (App.on_clear_filters E st) = App.cleared.
Proof.
  repeat split. unfold App.on_clear_filters, App.filterGrants.
  cbn [App.filteredGrants App.grantsData App.controls App.with_controls].
  apply filter_all. intros g _. reflexivity.
Qed.

Ltac cascade :=
  repeat match goal with
         | |- context [if ?c then false else _] => destruct c; [discriminate |]
         end.

Ltac one_guard_more H :=
  unfold App.passes;
  cbn [App.set_control App.search_input App.filter_agency App.filter_category
       App.filter_status App.filter_funding App.filter_instrument App.filter_deadline
       App.filter_costshare App.filter_cfda String.eqb Ascii.eqb Bool.eqb];
  rewrite H;
  cbn [toLowerCase App.nonempty String.eqb Ascii.eqb Bool.eqb negb andb];
  repeat (destruct (_ && _); [discriminate |]); trivial.

Lemma passes_monotone_search (E : Env) (i : App.inputs) (v : string) (g : App.grant) :
  App.search_input i = "" ->
  App.passes E (App.set_control "search-input" v i) g = true -> App.passes E i g = true.
Proof. intros H. one_guard_more H. Qed.

Lemma passes_monotone_agency (E : Env) (i : App.inputs) (v : string) (g : App.grant) :
  App.filter_agency i = "" ->
  App.passes E (App.set_control "filter-agency" v i) g = true -> App.passes E i g = true.
Proof. intros H. one_guard_more H. Qed.

Lemma passes_monotone_category (E : Env) (i : App.inputs) (v : string) (g : App.grant) :
  App.filter_category i = "" ->
  App.passes E (App.set_control "filter-category" v i) g = true -> App.passes E i g = true.
Proof. intros H. one_guard_more H. Qed.

Lemma passes_monotone_status (E : Env) (i : App.inputs) (v : string) (g : App.grant) :
  App.filter_status i = "" ->
  App.passes E (App.set_control "filter-status" v i) g = true -> App.passes E i g = true.
Proof. intros H. one_guard_more H. Qed.

Lemma passes_monotone_funding (E : Env) (i : App.inputs) (v : string) (g : App.grant) :
  App.filter_funding i = "" ->
  App.passes E (App.set_control "filter-funding" v i) g = true -> App.passes E i g = true.
Proof. intros H. one_guard_more H. Qed.

Lemma passes_monotone_instrument (E : Env) (i : App.inputs) (v : string) (g : App.grant) :
  App.filter_instrument i = "" ->
  App.passes E (App.set_control "filter-instrument" v i) g = true -> App.passes E i g = true.
Proof. intros H. one_guard_more H. Qed.

Lemma passes_monotone_deadline (E : Env) (i : App.inputs) (v : string) (g : App.grant) :
  App.filter_deadline i = "" ->
  App.passes E (App.set_control "filter-deadline" v i) g = true -> App.passes E i g = true.
Proof. intros H. one_guard_more H. Qed.

Lemma passes_monotone_costshare (E : Env) (i : App.inputs) (v : string) (g : App.grant) :
  App.filter_costshare i = "" ->
  App.passes E (App.set_control "filter-costshare" v i) g = true -> App.passes E i g = true.
Proof. intros H. one_guard_more H. Qed.

Lemma passes_monotone_cfda (E : Env) (i : App.inputs) (v : string) (g : App.grant) :
  App.filter_cfda i = "" ->
  App.passes E (App.set_control "filter-cfda" v i) g = true -> App.passes E i g = true.
Proof. intros H. one_guard_more H. Qed.

(** X3.  Filter monotonicity in the grants table: giving a value to a
    control that was empty never brings a grant in.  Every grant that
    passes the filters afterwards passed them before. *)
Theorem grants_filter_monotone
        (E : Env) (i : App.inputs) (name v : string) (g : App.grant)
        (Hempty : App.set_control name "" i = i) :
  App.passes E (App.set_control name v i) g = true -> App.passes E i g = true.
Proof.
  destruct (name =? "search-input")%string eqn:E0.
  { apply String.eqb_eq in E0. subst name. apply passes_monotone_search.
    apply (f_equal App.search_input) in Hempty. cbn in Hempty. now rewrite <- Hempty. }
  destruct (name =? "filter-agency")%string eqn:E1.
  { apply String.eqb_eq in E1. subst name. apply passes_monotone_agency.
    apply (f_equal App.filter_agency) in Hempty. cbn in Hempty. now rewrite <- Hempty. }
  destruct (name =? "filter-category")%string eqn:E2.
  { apply String.eqb_eq in E2. subst name. apply passes_monotone_category.
    apply (f_equal App.filter_category) in Hempty. cbn in Hempty. now rewrite <- Hempty. }
  destruct (name =? "filter-status")%string eqn:E3.
  { apply String.eqb_eq in E3. subst name. apply passes_monotone_status.
    apply (f_equal App.filter_status) in Hempty. cbn in Hempty. now rewrite <- Hempty. }
  destruct (name =? "filter-funding")%string eqn:E4.
  { apply String.eqb_eq in E4. subst name. apply passes_monotone_funding.
    apply (f_equal App.filter_funding) in Hempty. cbn in Hempty. now rewrite <- Hempty. }
  destruct (name =? "filter-instrument")%string eqn:E5.
  { apply String.eqb_eq in E5. subst name. apply passes_monotone_instrument.
    apply (f_equal App.filter_instrument) in Hempty. cbn in Hempty. now rewrite <- Hempty. }
  destruct (name =? "filter-deadline")%string eqn:E6.
  { apply String.eqb_eq in E6. subst name. apply passes_monotone_deadline.
    apply (f_equal App.filter_deadline) in Hempty. cbn in Hempty. now rewrite <- Hempty. }
  destruct (name =? "filter-costshare")%string eqn:E7.
  { apply String.eqb_eq in E7. subst name. apply passes_monotone_costshare.
    apply (f_equal App.filter_costshare) in Hempty. cbn in Hempty. now rewrite <- Hempty. }
  destruct (name =? "filter-cfda")%string eqn:E8.
  { apply String.eqb_eq in E8. subst name. apply passes_monotone_cfda.
    apply (f_equal App.filter_cfda) in Hempty. cbn in Hempty. now rewrite <- Hempty. }
  replace (App.set_control name v i) with i; [trivial |].
  unfold App.set_control. rewrite E0, E1, E2, E3, E4, E5, E6, E7, E8.
  now destruct i.
Qed.

Lemma grants_filter_monotone_witness :
  App.passes Fixture.env (App.set_control "filter-funding" "under-100k" Fixture.no_inputs)
             Fixture.g_small = true
  /\ App.passes Fixture.env Fixture.no_inputs Fixture.g_small = true.
Proof.
  assert (H : App.passes Fixture.env
                (App.set_control "filter-funding" "under-100k" Fixture.no_inputs)
                Fixture.g_small = true) by reflexivity.
  split; [exact H |].
  exact (grants_filter_monotone Fixture.env Fixture.no_inputs "filter-funding" "under-100k"
                                Fixture.g_small eq_refl H).
Defined.

(* ================================================================== *)
(** ** Buckets and windows *)
(* ================================================================== *)

Ltac compare_cases :=
  repeat match goal with
         | |- context [?a <? ?b] => destruct (Z.ltb_spec a b); try lia
         | |- context [?a <=? ?b] => destruct (Z.leb_spec a b); try lia
         | |- context [?a =? ?b] => destruct (Z.eqb_spec a b); try lia
         end;
  try reflexivity.

(** X4.  The funding buckets of the grants table partition the amounts:
    a grant with a non-zero [award_ceiling] satisfies exactly one of the
    seven filter values, and it is never [unspecified]. *)
Theorem grants_funding_buckets_partition
        (g : App.grant) (c : Z)
        (Hc : App.award_ceiling g = Val c) (Hnz : c <> 0) :
  List.length
    (filter (App.matchesFundingRange g)
            ["under-100k"; "100k-500k"; "500k-1m"; "1m-5m"; "5m-10m"; "over-10m";
             "unspecified"])
  = 1%nat
  /\ App.matchesFundingRange g "unspecified" = false.
Proof.
  unfold App.matchesFundingRange. rewrite Hc. cbn. compare_cases.
  all: split; reflexivity.
Qed.

Lemma grants_funding_buckets_partition_witness :
  App.matchesFundingRange Fixture.g_medium "unspecified" = false.
Proof.
  refine (proj2 (grants_funding_buckets_partition Fixture.g_medium 150000 eq_refl _)).
  discriminate.
Defined.

(** X5.  Deadline windows of the grants table.  A grant without
    [close_date] fails every value of the deadline filter, and so does,
    for the five windows, a grant whose date does not parse.  The windows
    are nested: a grant due within the week is due within the month, the
    quarter, the half year and the year. *)
Theorem grants_deadline_windows (E : Env) (g : App.grant) :
  (truthy_str (App.close_date g) = false ->
   forall deadline, App.matchesDeadline E g deadline = false)
  /\ (forall s, App.close_date g = Val s -> Date_parse E s = None ->
      forall deadline,
        In deadline ["week"; "month"; "quarter"; "halfyear"; "year"] ->
        App.matchesDeadline E g deadline = false)
  /\ (App.matchesDeadline E g "week" = true -> App.matchesDeadline E g "month" = true)
  /\ (App.matchesDeadline E g "month" = true -> App.matchesDeadline E g "quarter" = true)
  /\ (App.matchesDeadline E g "quarter" = true -> App.matchesDeadline E g "halfyear" = true)
  /\ (App.matchesDeadline E g "halfyear" = true -> App.matchesDeadline E g "year" = true).
Proof.
  unfold App.matchesDeadline. split; [| split].
  - intros H deadline. now rewrite H.
  - intros s Hs Hp deadline Hin. rewrite Hs.
    destruct (truthy_str (Val s)); [| reflexivity]. cbn [negb].
    unfold App.daysDiff. rewrite Hp.
    destruct Hin as [<- | [<- | [<- | [<- | [<- | []]]]]]; reflexivity.
  - destruct (negb (truthy_str (App.close_date g))).
    + repeat split; discriminate.
    + destruct (App.close_date g) as [| | s]; [repeat split; discriminate .. |].
      cbn [String.eqb Ascii.eqb Bool.eqb]. unfold App.within.
      destruct (App.daysDiff E s) as [k |]; [| repeat split; discriminate].
      repeat split; rewrite !andb_true_iff, !Z.leb_le; lia.
Qed.

Lemma grants_deadline_windows_witness :
  App.matchesDeadline Fixture.env Fixture.g_no_date "year" = false
  /\ App.matchesDeadline Fixture.env Fixture.g_bad_date "year" = false.
Proof.
  destruct (grants_deadline_windows Fixture.env Fixture.g_no_date) as [H _].
  destruct (grants_deadline_windows Fixture.env Fixture.g_bad_date) as (_ & H' & _).
  split.
  - exact (H eq_refl "year").
  - refine (H' "rolling" eq_refl eq_refl "year" _). cbn. tauto.
Defined.

(* ================================================================== *)
(** ** Sorting by amount and by text *)
(* ================================================================== *)

Lemma ascii_compare_refl (a : ascii) : Ascii.compare a a = Eq.
Proof. unfold Ascii.compare. apply N.compare_refl. Qed.

Lemma ascii_compare_lt_trans (a b c : ascii) :
  Ascii.compare a b = Lt -> Ascii.compare b c = Lt -> Ascii.compare a c = Lt.
Proof. unfold Ascii.compare. rewrite !N.compare_lt_iff. lia. Qed.

Lemma string_compare_lt_trans (s t u : string) :
  String.compare s t = Lt -> String.compare t u = Lt -> String.compare s u = Lt.
Proof.
  revert t u. induction s as [| a s IH]; intros [| b t] [| c u]; cbn [String.compare];
    try discriminate; try reflexivity.
  destruct (Ascii.compare a b) eqn:Eab; try discriminate;
    destruct (Ascii.compare b c) eqn:Ebc; try discriminate; intros H1 H2.
  - apply Ascii.compare_eq_iff in Eab, Ebc. subst. rewrite ascii_compare_refl.
    now apply (IH t u).
  - apply Ascii.compare_eq_iff in Eab. subst. now rewrite Ebc.
  - apply Ascii.compare_eq_iff in Ebc. subst. now rewrite Eab.
  - now rewrite (ascii_compare_lt_trans a b c).
Qed.

Lemma string_leb_refl (s : string) : String.leb s s = true.
Proof. destruct (String.leb_total s s); assumption. Qed.

Lemma string_leb_trans (s t u : string) :
  String.leb s t = true -> String.leb t u = true -> String.leb s u = true.
Proof.
  unfold String.leb.
  destruct (String.compare s t) eqn:Est; try discriminate;
    destruct (String.compare t u) eqn:Etu; try discriminate; intros _ _.
  - apply String.compare_eq_iff in Est, Etu. subst.
    fold (String.leb u u). apply string_leb_refl.
  - apply String.compare_eq_iff in Est. subst. now rewrite Etu.
  - apply String.compare_eq_iff in Etu. subst. now rewrite Est.
  - now rewrite (string_compare_lt_trans s t u).
Qed.

Lemma string_ltb_leb (s t : string) : String.ltb t s = negb (String.leb s t).
Proof.
  unfold String.ltb, String.leb. rewrite (String.compare_antisym s t).
  now destruct (String.compare t s).
Qed.

Section SortOrderFacts.
Context {A : Type} (comparefn : A -> A -> option Z) (le : A -> A -> Prop).
Hypothesis le_total : forall x y, le x y \/ le y x.
Hypothesis le_trans : forall x y z, le x y -> le y z -> le x z.
Hypothesis compare_le : forall x y, SortCompare comparefn x y <= 0 <-> le x y.

Lemma insert_ordered (x : A) (l : list A) :
  StronglySorted le l -> StronglySorted le (insert comparefn x l).
Proof.
  intros Hs. induction Hs as [| y l Hs IH Hy]; cbn [insert].
  - constructor; constructor.
  - destruct (Z.leb_spec (SortCompare comparefn x y) 0) as [Hle | Hgt].
    + apply compare_le in Hle. constructor; [now constructor |].
      constructor; [exact Hle |].
      eapply Forall_impl; [| exact Hy]. intros a Ha. now apply (le_trans x y a).
    + assert (Hyx : le y x).
      { destruct (le_total x y) as [H | H]; [| exact H].
        apply compare_le in H. lia. }
      constructor; [exact IH |].
      rewrite <- insert_perm. now constructor.
Qed.

Lemma sort_ordered (l : list A) : StronglySorted le (sort comparefn l).
Proof.
  induction l as [| x l IH]; [constructor |].
  change (sort comparefn (x :: l)) with (insert comparefn x (sort comparefn l)).
  now apply insert_ordered.
Qed.

Variable tie : A -> bool.
Hypothesis tie_le : forall a b, tie a = true -> tie b = true -> le a b.

Lemma insert_keeps_ties (x : A) (l : list A) :
  filter tie (insert comparefn x l) = filter tie (x :: l).
Proof.
  induction l as [| y l IH]; [reflexivity |]. cbn [insert].
  destruct (Z.leb_spec (SortCompare comparefn x y) 0) as [Hle | Hgt]; [reflexivity |].
  cbn [filter] in *. rewrite IH.
  destruct (tie y) eqn:Ty, (tie x) eqn:Tx; try reflexivity.
  pose proof (proj2 (compare_le x y) (tie_le x y Tx Ty)). lia.
Qed.

Lemma sort_keeps_ties (l : list A) : filter tie (sort comparefn l) = filter tie l.
Proof.
  induction l as [| x l IH]; [reflexivity |].
  change (sort comparefn (x :: l)) with (insert comparefn x (sort comparefn l)).
  rewrite insert_keeps_ties. cbn [filter]. now rewrite IH.
Qed.

End SortOrderFacts.

Lemma comparefn_amount_key (E : Env) (column : string) (d : App.direction)
      (a b : App.grant) :
  column = "award_ceiling" \/ column = "total_funding" ->
  SortCompare (App.comparefn E column d) a b
  = App.signed d (App.num_or_zero (App.num_column column a))
    - App.signed d (App.num_or_zero (App.num_column column b)).
Proof.
  intros Hcol. unfold SortCompare, App.comparefn.
  destruct Hcol as [-> | ->]; cbn; destruct d; cbn; lia.
Qed.

(** X6.  Sorting the grants table by [award_ceiling] or [total_funding]
    orders the filtered grants by the amount, a missing amount counting
    as 0, ascending on the first click and in the direction the click
    toggles to afterwards.  The result is a permutation of the filtered
    grants and equal amounts keep their order. *)
Theorem grants_sort_by_amount
        (E : Env) (st : App.state) (column : string)
        (Hcol : column = "award_ceiling" \/ column = "total_funding") :
  let st' := App.sortTable E column st in
  let key := fun g => App.signed (App.sortDirection st')
                                 (App.num_or_zero (App.num_column column g)) in
  Permutation (App.filteredGrants st) (App.filteredGrants st')
  /\ StronglySorted (fun a b => key a <= key b) (App.filteredGrants st')
  /\ (forall t, filter (fun g => key g =? t) (App.filteredGrants st')
                = filter (fun g => key g =? t) (App.filteredGrants st))
  /\ (App.sortColumn st <> column -> App.sortDirection st' = App.asc).
Proof.
  intros st' key.
  set (d := App.sortDirection st').
  assert (Hl : App.filteredGrants st' = sort (App.comparefn E column d) (App.filteredGrants st))
    by reflexivity.
  assert (Hcmp : forall x y, True -> True ->
                             SortCompare (App.comparefn E column d) x y = key x - key y).
  { intros x y _ _. now apply comparefn_amount_key. }
  assert (Hok : Forall (fun _ : App.grant => True) (App.filteredGrants st))
    by (apply Forall_forall; trivial).
  split; [rewrite Hl; apply sort_perm |].
  split; [rewrite Hl; exact (sort_sorted _ key (fun _ => True) Hcmp _ Hok) |].
  split; [intros t; rewrite Hl; exact (sort_stable _ key (fun _ => True) Hcmp t _ Hok) |].
  intros Hne. subst d st'. unfold App.sortTable. cbn [App.sortDirection].
  apply String.eqb_neq in Hne. now rewrite Hne.
Qed.

(** Ascending by ceiling: the grant without ceiling counts as 0 and
    comes first. *)
Lemma grants_sort_by_amount_witness :
  let st := Fixture.grants_loaded [Fixture.g_medium; Fixture.g_unspecified; Fixture.g_small] in
  Permutation (App.filteredGrants st)
              (App.filteredGrants (App.sortTable Fixture.env "award_ceiling" st))
  /\ App.filteredGrants (App.sortTable Fixture.env "award_ceiling" st)
     = [Fixture.g_unspecified; Fixture.g_small; Fixture.g_medium].
Proof.
  cbv zeta. split; [| reflexivity].
  exact (proj1 (grants_sort_by_amount
                  Fixture.env
                  (Fixture.grants_loaded
                     [Fixture.g_medium; Fixture.g_unspecified; Fixture.g_small])
                  "award_ceiling" (or_introl eq_refl))).
Defined.

Lemma comparefn_text_le (E : Env) (column : string) (d : App.direction) (a b : App.grant) :
  column <> "award_ceiling" -> column <> "total_funding" ->
  column <> "close_date" -> column <> "posted_date" ->
  SortCompare (App.comparefn E column d) a b <= 0
  <-> match d with
      | App.asc => String.leb (toLowerCase (App.column_text column a))
                              (toLowerCase (App.column_text column b)) = true
      | App.desc => String.leb (toLowerCase (App.column_text column b))
                               (toLowerCase (App.column_text column a)) = true
      end.
Proof.
  intros H1 H2 H3 H4. apply String.eqb_neq in H1, H2, H3, H4.
  unfold SortCompare, App.comparefn. rewrite H1, H2, H3, H4. cbn [orb].
  set (ka := toLowerCase (App.column_text column a)).
  set (kb := toLowerCase (App.column_text column b)).
  rewrite (string_ltb_leb kb ka), (string_ltb_leb ka kb).
  pose proof (String.leb_total ka kb) as Ht.
  destruct d; destruct (String.leb ka kb), (String.leb kb ka); cbn;
    split; intros; try reflexivity; try lia; try discriminate;
    destruct Ht; discriminate.
Qed.

(** X7.  Sorting the grants table by a text column (title, agency,
    category, ...) orders the filtered grants by the lower-cased text in
    code-unit order, a missing text counting as the empty string, in the
    direction the click sets.  The result is a permutation of the
    filtered grants and grants with the same lower-cased text keep their
    order. *)
Theorem grants_sort_by_text
        (E : Env) (st : App.state) (column : string)
        (H1 : column <> "award_ceiling") (H2 : column <> "total_funding")
        (H3 : column <> "close_date") (H4 : column <> "posted_date") :
  let st' := App.sortTable E column st in
  let key := fun g => toLowerCase (App.column_text column g) in
  let le := fun a b =>
              match App.sortDirection st' with
              | App.asc => String.leb (key a) (key b) = true
              | App.desc => String.leb (key b) (key a) = true
              end in
  Permutation (App.filteredGrants st) (App.filteredGrants st')
  /\ StronglySorted le (App.filteredGrants st')
  /\ (forall s, filter (fun g => (key g =? s)%string) (App.filteredGrants st')
                = filter (fun g => (key g =? s)%string) (App.filteredGrants st)).
Proof.
  intros st' key le.
  set (d := App.sortDirection st') in *.
  assert (Hl : App.filteredGrants st' = sort (App.comparefn E column d) (App.filteredGrants st))
    by reflexivity.
  assert (Htot : forall x y, le x y \/ le y x).
  { intros x y. unfold le. destruct d; [apply String.leb_total |].
    destruct (String.leb_total (key x) (key y)); tauto. }
  assert (Htr : forall x y z, le x y -> le y z -> le x z).
  { intros x y z. unfold le. destruct d; intros Ha Hb.
    - exact (string_leb_trans _ _ _ Ha Hb).
    - exact (string_leb_trans _ _ _ Hb Ha). }
  assert (Hcmp : forall x y, SortCompare (App.comparefn E column d) x y <= 0 <-> le x y).
  { intros x y. unfold le. exact (comparefn_text_le E column d x y H1 H2 H3 H4). }
  split; [rewrite Hl; apply sort_perm |].
  split; [rewrite Hl; exact (sort_ordered _ le Htot Htr Hcmp _) |].
  intros s. rewrite Hl. apply (sort_keeps_ties _ le Hcmp).
  intros a b Ha Hb. apply String.eqb_eq in Ha, Hb. unfold le.
  rewrite Ha, Hb. destruct d; apply string_leb_refl.
Qed.

(** By title, whatever the case of the letters. *)
Lemma grants_sort_by_text_witness :
  let st := Fixture.grants_loaded [Fixture.g_small; Fixture.g_no_date; Fixture.g_medium] in
  Permutation (App.filteredGrants st)
              (App.filteredGrants (App.sortTable Fixture.env "title" st))
  /\ App.filteredGrants (App.sortTable Fixture.env "title" st)
     = [Fixture.g_medium; Fixture.g_no_date; Fixture.g_small].
Proof.
  cbv zeta. split; [| reflexivity].
  refine (proj1 (grants_sort_by_text
                   Fixture.env
                   (Fixture.grants_loaded [Fixture.g_small; Fixture.g_no_date; Fixture.g_medium])
                   "title" _ _ _ _)); discriminate.
Defined.

(* ================================================================== *)
(** ** Pagination bars and page coverage *)
(* ================================================================== *)

Lemma in_counted_loop (a b z : Z) :
  In z (map (fun k => a + Z.of_nat k) (seq 0 (Z.to_nat (b - a + 1)))) <-> a <= z <= b.
Proof.
  rewrite in_map_iff. split.
  - intros (k & <- & Hk). apply in_seq in Hk. lia.
  - intros H. exists (Z.to_nat (z - a)). split; [lia |]. apply in_seq. lia.
Qed.

Lemma grants_page_window_bounds (cur total : Z) :
  1 <= cur <= total ->
  1 <= App.startPage cur total <= cur
  /\ cur <= App.endPage cur total <= total
  /\ App.endPage cur total - App.startPage cur total + 1 = Z.min App.maxButtons total.
Proof.
  intros H. unfold App.startPage, App.endPage, App.maxButtons.
  destruct (Z.ltb_spec (Z.min total (Z.max 1 (cur - 3) + 7 - 1) - Z.max 1 (cur - 3)) (7 - 1));
    lia.
Qed.

(** X8.  The pagination bar of the grants table.  While the current page
    lies in [1 .. ceil(count/20)], every control of the bar leads to a
    page in that range and leaves the filtered grants alone; with more
    than one page the bar shows a button for the current page, and its
    run of consecutive page buttons has 7 entries, or as many as there are
    pages. *)
Theorem grants_pagination_in_range
        (st : App.state)
        (Hcur : 1 <= App.currentPage st <= App.totalPages st) :
  (forall c, In c (App.pagination st) ->
             1 <= App.currentPage (App.click c st) <= App.totalPages (App.click c st)
             /\ App.filteredGrants (App.click c st) = App.filteredGrants st)
  /\ (1 < App.totalPages st ->
      In (App.PageButton (App.currentPage st)) (App.pagination st)
      /\ List.length (App.from_to (App.startPage (App.currentPage st) (App.totalPages st))
                                  (App.endPage (App.currentPage st) (App.totalPages st)))
         = Z.to_nat (Z.min 7 (App.totalPages st))).
Proof.
  pose proof (grants_page_window_bounds _ _ Hcur) as (Hs & He & Hw).
  unfold App.maxButtons in Hw.
  split.
  - intros c Hc.
    assert (Hpage : forall n, In c [App.PageButton n] -> 1 <= n <= App.totalPages st ->
                              1 <= App.currentPage (App.click c st)
                                <= App.totalPages (App.click c st)
                              /\ App.filteredGrants (App.click c st) = App.filteredGrants st).
    { intros n [<- | []] Hn. split; [exact Hn | reflexivity]. }
    unfold App.pagination in Hc.
    destruct (Z.leb_spec (App.totalPages st) 1) as [| Htot]; [destruct Hc |].
    rewrite !in_app_iff in Hc. destruct Hc as [Hc | [Hc | [Hc | [Hc | Hc]]]].
    + destruct (Z.ltb_spec 1 (App.currentPage st)); [| destruct Hc].
      destruct Hc as [<- | []]. split; [| reflexivity].
      cbn [App.click App.currentPage App.with_page].
      change (App.totalPages (App.with_page _ st)) with (App.totalPages st). lia.
    + destruct (Z.ltb_spec 1 (App.startPage (App.currentPage st) (App.totalPages st)));
        [| destruct Hc].
      destruct Hc as [<- | Hc]; [apply (Hpage 1); [now left | lia] |].
      destruct (2 <? _); [| destruct Hc]. destruct Hc as [<- | []].
      split; [exact Hcur | reflexivity].
    + apply in_map_iff in Hc. destruct Hc as (n & <- & Hn).
      apply in_counted_loop in Hn. apply (Hpage n); [now left | lia].
    + destruct (Z.ltb_spec (App.endPage (App.currentPage st) (App.totalPages st))
                           (App.totalPages st)); [| destruct Hc].
      apply in_app_iff in Hc. destruct Hc as [Hc | Hc].
      * destruct (_ <? _); [| destruct Hc]. destruct Hc as [<- | []].
        split; [exact Hcur | reflexivity].
      * apply (Hpage (App.totalPages st)); [exact Hc | lia].
    + destruct (Z.ltb_spec (App.currentPage st) (App.totalPages st)); [| destruct Hc].
      destruct Hc as [<- | []]. split; [| reflexivity].
      cbn [App.click App.currentPage App.with_page].
      change (App.totalPages (App.with_page _ st)) with (App.totalPages st). lia.
  - intros Htot. split.
    + unfold App.pagination.
      destruct (Z.leb_spec (App.totalPages st) 1); [lia |].
      rewrite !in_app_iff. right. right. left.
      apply in_map. apply in_counted_loop. lia.
    + unfold App.from_to. rewrite length_map, length_seq. lia.
Qed.

(** 150 grants on page 4 of 8: the bar runs from page 1 to page 7. *)
Lemma grants_pagination_in_range_witness :
  let st := App.with_page 4 (Fixture.grants_loaded (repeat Fixture.g_small 150)) in
  1 <= App.currentPage st <= App.totalPages st
  /\ In (App.PageButton (App.currentPage st)) (App.pagination st).
Proof.
  cbv zeta.
  assert (H : 1 <= App.currentPage
                     (App.with_page 4 (Fixture.grants_loaded (repeat Fixture.g_small 150)))
              <= App.totalPages
                   (App.with_page 4 (Fixture.grants_loaded (repeat Fixture.g_small 150))))
    by (vm_compute; split; discriminate).
  split; [exact H |].
  refine (proj1 (proj2 (grants_pagination_in_range _ H) _)).
  vm_compute. reflexivity.
Defined.

(** X9.  The pagination bars of the SBIR and NOFA managers.  While the
    current page lies in [1 .. ceil(count/20)], every page a button of
    the bar asks [changePage] for lies in that range, and with more than
    one page the current page is among them. *)
Theorem managers_pagination_in_range :
  (forall (t : SBIR.subtab) (m : SBIR.manager),
      1 <= SBIR.get_page t (SBIR.currentPage m) <= SBIR.totalPages t m ->
      (forall n, In n (SBIR.pagination_targets t m) -> 1 <= n <= SBIR.totalPages t m)
      /\ (1 < SBIR.totalPages t m ->
          In (SBIR.get_page t (SBIR.currentPage m)) (SBIR.pagination_targets t m)))
  /\ (forall m : NOFAs.manager,
      1 <= NOFAs.currentPage m <= NOFAs.totalPages m ->
      (forall n, In n (NOFAs.pagination_targets m) -> 1 <= n <= NOFAs.totalPages m)
      /\ (1 < NOFAs.totalPages m ->
          In (NOFAs.currentPage m) (NOFAs.pagination_targets m))).
Proof.
  split.
  - intros t m Hcur. unfold SBIR.pagination_targets, SBIR.from_to. split.
    + intros n. destruct (Z.leb_spec (SBIR.totalPages t m) 1) as [Hle | Hgt]; [intros [] |].
      rewrite !in_app_iff, in_counted_loop. intros [H | [H | H]].
      * destruct (Z.ltb_spec 1 (SBIR.get_page t (SBIR.currentPage m))) as [Hlt | Hge]; [| destruct H].
        destruct H as [<- | []]. lia.
      * lia.
      * destruct (Z.ltb_spec (SBIR.get_page t (SBIR.currentPage m)) (SBIR.totalPages t m))
          as [Hlt | Hge]; [| destruct H].
        destruct H as [<- | []]. lia.
    + intros Htot. destruct (Z.leb_spec (SBIR.totalPages t m) 1); [lia |].
      rewrite !in_app_iff, in_counted_loop. right. left. lia.
  - intros m Hcur. unfold NOFAs.pagination_targets, NOFAs.from_to. split.
    + intros n. destruct (Z.leb_spec (NOFAs.totalPages m) 1) as [Hle | Hgt]; [intros [] |].
      rewrite !in_app_iff, in_counted_loop. intros [H | [H | H]].
      * destruct (Z.ltb_spec 1 (NOFAs.currentPage m)) as [Hlt | Hge]; [| destruct H].
        destruct H as [<- | []]. lia.
      * lia.
      * destruct (Z.ltb_spec (NOFAs.currentPage m) (NOFAs.totalPages m)) as [Hlt | Hge]; [| destruct H].
        destruct H as [<- | []]. lia.
    + intros Htot. destruct (Z.leb_spec (NOFAs.totalPages m) 1); [lia |].
      rewrite !in_app_iff, in_counted_loop. right. left. lia.
Qed.

Lemma managers_pagination_in_range_witness :
  let m := NOFAs.loaded (repeat Fixture.nofa_energy 45) in
  1 <= NOFAs.currentPage m <= NOFAs.totalPages m
  /\ In (NOFAs.currentPage m) (NOFAs.pagination_targets m).
Proof.
  cbv zeta.
  assert (H : 1 <= NOFAs.currentPage (NOFAs.loaded (repeat Fixture.nofa_energy 45))
              <= NOFAs.totalPages (NOFAs.loaded (repeat Fixture.nofa_energy 45)))
    by (vm_compute; split; discriminate).
  split; [exact H |].
  refine (proj2 (proj2 managers_pagination_in_range _ H) _).
  vm_compute. reflexivity.
Defined.

Lemma chunks_cover {A} (k : nat) (l : list A) :
  (List.length l <= 20 * k)%nat ->
  List.concat (map (fun j => firstn 20 (skipn (20 * j) l)) (seq 0 k)) = l.
Proof.
  revert l. induction k as [| k IH]; intros l Hl.
  - destruct l; [reflexivity | cbn in Hl; lia].
  - cbn [seq map List.concat]. rewrite <- seq_shift, map_map.
    rewrite (map_ext _ (fun j => firstn 20 (skipn (20 * j) (skipn 20 l)))).
    + rewrite IH; [apply firstn_skipn |]. rewrite length_skipn. lia.
    + intros j. rewrite skipn_skipn. f_equal. f_equal. lia.
Qed.

Lemma windows_cover {A} (l : list A) :
  List.concat (map (fun n => slice l ((n - 1) * 20) ((n - 1) * 20 + 20))
              (map (fun k => 1 + Z.of_nat k)
                   (seq 0 (Z.to_nat (ceil_div (Z.of_nat (List.length l)) 20 - 1 + 1)))))
  = l.
Proof.
  rewrite map_map.
  rewrite (map_ext _ (fun j => firstn 20 (skipn (20 * j) l))).
  - apply chunks_cover. unfold ceil_div. Z.to_euclidean_division_equations. lia.
  - intros k. rewrite slice_window by lia. f_equal. f_equal. lia.
Qed.

(** X10.  Page coverage.  The page windows of [updateTable] and of
    [displayData], taken for the pages 1 to [ceil(count/20)] in order and
    put end to end, give the filtered result back: no record is shown
    twice and none is left out. *)
Theorem pages_cover_result :
  (forall st : App.state,
      List.concat (map (fun n => App.pageGrants (App.with_page n st))
                  (App.from_to 1 (App.totalPages st)))
      = App.filteredGrants st)
  /\ (forall (A : Type) (l : list A),
      List.concat (map (SBIR.window l)
                  (SBIR.from_to 1 (ceil_div (Z.of_nat (List.length l)) SBIR.itemsPerPage)))
      = l)
  /\ (forall m : NOFAs.manager,
      List.concat (map (fun n => NOFAs.pageData (NOFAs.changePage n m))
                  (NOFAs.from_to 1 (NOFAs.totalPages m)))
      = NOFAs.filteredData m).
Proof.
  split; [| split].
  - intros st. exact (windows_cover (App.filteredGrants st)).
  - intros A l. exact (windows_cover l).
  - intros m. exact (windows_cover (NOFAs.filteredData m)).
Qed.

(* ================================================================== *)
(** ** Export cells *)
(* ================================================================== *)

Lemma double_quotes_inj (s t : string) : double_quotes s = double_quotes t -> s = t.
Proof.
  revert t. induction s as [| c s IH]; intros [| d t]; cbn [double_quotes].
  - reflexivity.
  - destruct (Ascii.eqb d dquote); discriminate.
  - destruct (Ascii.eqb c dquote); discriminate.
  - destruct (Ascii.eqb c dquote) eqn:Ec, (Ascii.eqb d dquote) eqn:Ed; intros H.
    + apply Ascii.eqb_eq in Ec, Ed. subst. f_equal. apply IH. congruence.
    + injection H as H1 H2. subst d. now rewrite Ascii.eqb_refl in Ed.
    + injection H as H1 H2. subst c. now rewrite Ascii.eqb_refl in Ec.
    + injection H as H1 H2. subst. f_equal. now apply IH.
Qed.

Lemma length_append (s t : string) :
  String.length (s ++ t) = (String.length s + String.length t)%nat.
Proof. induction s as [| c s IH]; cbn; [reflexivity | now rewrite IH]. Qed.

Lemma append_cancel_r (s t x : string) : s ++ x = t ++ x -> s = t.
Proof.
  intros H.
  assert (Hlen : String.length s = String.length t).
  { apply (f_equal String.length) in H. rewrite !length_append in H. lia. }
  revert t H Hlen. induction s as [| c s IH]; intros [| d t] H Hlen; cbn in *;
    try discriminate; [reflexivity |].
  injection H as -> H. f_equal. apply IH; [exact H | lia].
Qed.

Lemma wrapped_inj (s t : string) :
  String dquote (double_quotes s ++ String dquote "")
  = String dquote (double_quotes t ++ String dquote "") -> s = t.
Proof.
  intros H. injection H as H. apply append_cancel_r in H. now apply double_quotes_inj.
Qed.

(** X11.  Cells of the grants export.  A value with a comma, a double
    quote or a line feed is written between double quotes with its quotes
    doubled, any other value is written as it is; and the writing loses
    nothing: two values with the same cell are the same value. *)
Theorem grants_csv_cell_escaping :
  (forall value,
      App.csv_cell value
      = if has_char comma value || has_char dquote value || has_char newline value
        then String dquote (double_quotes value ++ String dquote "")
        else value)
  /\ (forall v w, App.csv_cell v = App.csv_cell w -> v = w).
Proof.
  split; [exact csv_cell_spec |].
  intros v w. rewrite !csv_cell_spec. unfold App.needs_quotes.
  destruct (has_char comma v || has_char dquote v || has_char newline v) eqn:Ev,
           (has_char comma w || has_char dquote w || has_char newline w) eqn:Ew;
    intros H.
  - now apply wrapped_inj.
  - subst w. cbn [has_char] in Ew. rewrite Ascii.eqb_refl in Ew.
    rewrite orb_true_r in Ew. discriminate.
  - subst v. cbn [has_char] in Ev. rewrite Ascii.eqb_refl in Ev.
    rewrite orb_true_r in Ev. discriminate.
  - exact H.
Qed.

(** X12.  Cells of the SBIR and NOFA exports.  Every cell is written
    between double quotes with its quotes doubled, so two texts with the
    same cell are the same text; an absent, null, empty or zero value is
    written as the empty cell. *)
Theorem managers_export_cells :
  (forall s t, SBIR.cell s = SBIR.cell t -> s = t)
  /\ (forall s t, NOFAs.cell s = NOFAs.cell t -> s = t)
  /\ (forall f, truthy_str f = false -> SBIR.cell_str f = SBIR.cell "")
  /\ (forall f, truthy_num f = false -> SBIR.cell_num f = SBIR.cell "")
  /\ (forall f, truthy_str f = false -> NOFAs.cell_str f = NOFAs.cell "")
  /\ (forall f, truthy_num f = false -> NOFAs.cell_num f = NOFAs.cell "")
  /\ (forall f, truthy_bool f = false -> NOFAs.cell_bool f = NOFAs.cell "").
Proof.
  repeat split.
  - intros s t. apply wrapped_inj.
  - intros s t. apply wrapped_inj.
  - intros f H. unfold SBIR.cell_str. now rewrite H.
  - intros f H. unfold SBIR.cell_num. now rewrite H.
  - intros f H. unfold NOFAs.cell_str. now rewrite H.
  - intros f H. unfold NOFAs.cell_num. now rewrite H.
  - intros f H. unfold NOFAs.cell_bool. now rewrite H.
Qed.

Lemma managers_export_cells_witness :
  SBIR.cell_num (Val 0) = SBIR.cell "" /\ NOFAs.cell_bool (Val false) = NOFAs.cell "".
Proof.
  destruct managers_export_cells as (_ & _ & _ & Hn & _ & _ & Hb).
  split; [exact (Hn (Val 0) eq_refl) | exact (Hb (Val false) eq_refl)].
Defined.

(* ================================================================== *)
(** ** Challenges tab *)
(* ================================================================== *)

Lemma filterM_throws {A} (p : A -> completion bool) (l : list A) :
  Challenges.filterM p l = Throw <-> exists x, In x l /\ p x = Throw.
Proof.
  induction l as [| x l IH]; cbn [Challenges.filterM bind In].
  - split; [discriminate | intros (x & [] & _)].
  - destruct (p x) as [b |] eqn:Ex; cbn [bind].
    + destruct (Challenges.filterM p l) as [r |]; cbn [bind].
      * split; [discriminate |]. intros (y & [<- | Hy] & Ey); [congruence |].
        apply proj2 in IH. assert (Normal r = Throw) by (apply IH; now exists y).
        discriminate.
      * split; [| reflexivity]. intros _.
        destruct (proj1 IH eq_refl) as (y & Hy & Ey). exists y. tauto.
    + split; [| reflexivity]. intros _. exists x. tauto.
Qed.

Lemma keeps_throws (i : Challenges.inputs) (c : Challenges.challenge) :
  Challenges.keeps i c = Throw
  <-> Challenges.matchesSearch (toLowerCase (Challenges.search_input i)) c = Throw.
Proof.
  unfold Challenges.keeps.
  destruct (Challenges.matchesSearch _ c); cbn [bind]; split; congruence.
Qed.

Lemma matchesSearch_throws (term : string) (c : Challenges.challenge) :
  Challenges.matchesSearch term c = Throw
  <-> term <> ""
      /\ (nullish (Challenges.title c) = true
          \/ exists t, Challenges.title c = Val t
                       /\ includes (toLowerCase t) term = false
                       /\ nullish (Challenges.agency c) = true).
Proof.
  unfold Challenges.matchesSearch, Challenges.nonempty, Challenges.lower_of.
  destruct (String.eqb_spec term "") as [-> | Hne]; cbn [negb].
  - split; [discriminate | intros [H _]; now elim H].
  - destruct (Challenges.title c) as [| | t]; cbn [bind nullish].
    + tauto.
    + tauto.
    + destruct (includes (toLowerCase t) term) eqn:Et.
      * split; [discriminate |].
        intros (_ & [H | (t' & Ht & Hi & _)]); [discriminate | congruence].
      * destruct (Challenges.agency c) as [| | a]; cbn [bind nullish].
        -- split; [| reflexivity]. intros _. split; [exact Hne |]. right. now exists t.
        -- split; [| reflexivity]. intros _. split; [exact Hne |]. right. now exists t.
        -- destruct (includes (toLowerCase a) term);
             (split; [discriminate |]);
             intros (_ & [H | (t' & _ & _ & H)]); discriminate.
Qed.

Lemma filter_step_throws (i : Challenges.inputs) (l : list Challenges.challenge) :
  let term := toLowerCase (Challenges.search_input i) in
  Challenges.filterM (Challenges.keeps i) l = Throw
  <-> term <> ""
      /\ exists c, In c l
                   /\ (nullish (Challenges.title c) = true
                       \/ exists t, Challenges.title c = Val t
                                    /\ includes (toLowerCase t) term = false
                                    /\ nullish (Challenges.agency c) = true).
Proof.
  intros term. rewrite filterM_throws. split.
  - intros (c & Hc & Ht). apply keeps_throws, matchesSearch_throws in Ht.
    destruct Ht as [Hne Ht]. split; [exact Hne |]. now exists c.
  - intros (Hne & c & Hc & Ht). exists c. split; [exact Hc |].
    apply keeps_throws, matchesSearch_throws. tauto.
Qed.

Lemma rendered_raised (st : Challenges.state) :
  Challenges.raised (Challenges.rendered st) = true
  <-> exists c, In c (Challenges.pageItems st) /\ nullish (Challenges.status c) = true.
Proof.
  unfold Challenges.rendered, Challenges.updateChallengeTable. cbn [Challenges.raised].
  destruct (existsb Challenges.row_raises (Challenges.pageItems st)) eqn:Ex.
  - split; [| reflexivity]. intros _. apply existsb_exists in Ex. exact Ex.
  - split; [discriminate |]. intros H.
    apply (proj2 (existsb_exists Challenges.row_raises _)) in H. congruence.
Qed.

(** X13.  When the [filterChallenges] handler fails.  It ends in a
    TypeError exactly in two cases.  Either the search box is not empty
    and some challenge of the collection has no title, or has a title
    that does not contain the term and no agency: then nothing is stored.
    Or the filter completes, its result and page 1 are stored, and one
    of the challenges of the first page of the result has no status, on
    which the row template fails. *)
Theorem filterChallenges_throws_iff (st : Challenges.state) :
  let term := toLowerCase (Challenges.search_input (Challenges.controls st)) in
  let filter_fails :=
    term <> ""
    /\ exists c, In c (Challenges.challengesData st)
                 /\ (nullish (Challenges.title c) = true
                     \/ exists t, Challenges.title c = Val t
                                  /\ includes (toLowerCase t) term = false
                                  /\ nullish (Challenges.agency c) = true) in
  let o := Challenges.filterChallenges st in
  (Challenges.raised o = true
   <-> filter_fails
       \/ exists c, In c (Challenges.pageItems (Challenges.after o))
                    /\ nullish (Challenges.status c) = true)
  /\ (filter_fails -> Challenges.after o = st)
  /\ (~ filter_fails ->
      Challenges.currentChallengePage (Challenges.after o) = 1
      /\ Challenges.filterM (Challenges.keeps (Challenges.controls st))
                            (Challenges.challengesData st)
         = Normal (Challenges.filteredChallenges (Challenges.after o))).
Proof.
  intros term filter_fails o.
  pose proof (filter_step_throws (Challenges.controls st) (Challenges.challengesData st))
    as Hstep. cbv zeta in Hstep. fold term in Hstep. fold filter_fails in Hstep.
  subst o. unfold Challenges.filterChallenges.
  destruct (Challenges.filterM _ _) as [l |] eqn:El.
  - assert (Hnot : ~ filter_fails) by (intros H; apply Hstep in H; discriminate).
    split; [| split].
    + rewrite rendered_raised. tauto.
    + tauto.
    + intros _. split; reflexivity.
  - assert (Hf : filter_fails) by (now apply Hstep).
    cbn [Challenges.after Challenges.raised]. split; [| split].
    + tauto.
    + reflexivity.
    + tauto.
Qed.

(** The challenge without status is listed: with an empty search box the
    filter completes and the render fails. *)
Lemma filterChallenges_throws_iff_witness :
  let st := Fixture.challenges_loaded
              [Fixture.cybersecurity_challenge; Fixture.statusless_challenge] in
  Challenges.raised (Challenges.filterChallenges st) = true
  /\ Challenges.filteredChallenges (Challenges.after (Challenges.filterChallenges st))
     = [Fixture.cybersecurity_challenge; Fixture.statusless_challenge].
Proof.
  cbv zeta. split; [| reflexivity].
  apply (proj1 (filterChallenges_throws_iff
                  (Fixture.challenges_loaded
                     [Fixture.cybersecurity_challenge; Fixture.statusless_challenge]))).
  right. exists Fixture.statusless_challenge. split; [| reflexivity].
  vm_compute. right. left. reflexivity.
Defined.

(** X14.  [clearChallengeFilters] stores the whole collection, page 1 and
    empty controls.  It ends in a TypeError exactly when one of the first
    20 challenges of the collection has no status.  Running
    [filterChallenges] on what it leaves gives the same outcome: with
    every control empty the filter keeps every challenge and needs no
    title or agency. *)
Theorem clearChallengeFilters_agrees_with_filter (st : Challenges.state) :
  let o := Challenges.clearChallengeFilters st in
  Challenges.filteredChallenges (Challenges.after o) = Challenges.challengesData st
  /\ Challenges.currentChallengePage (Challenges.after o) = 1
  /\ (Challenges.raised o = true
      <-> exists c, In c (firstn 20 (Challenges.challengesData st))
                   /\ nullish (Challenges.status c) = true)
  /\ Challenges.filterChallenges (Challenges.after o) = o.
Proof.
  intros o. subst o. split; [reflexivity |]. split; [reflexivity |]. split.
  - unfold Challenges.clearChallengeFilters. rewrite rendered_raised.
    unfold Challenges.pageItems, Challenges.challengeItemsPerPage.
    cbn [Challenges.currentChallengePage Challenges.filteredChallenges].
    change ((1 - 1) * 20) with 0.
    rewrite (slice_window (Challenges.challengesData st) 0 20) by lia.
    reflexivity.
  - unfold Challenges.clearChallengeFilters, Challenges.filterChallenges.
    cbn [Challenges.after Challenges.rendered Challenges.controls Challenges.challengesData].
    assert (H : forall l, Challenges.filterM
                            (Challenges.keeps
                               {| Challenges.search_input := ""; Challenges.filter_agency := "";
                                  Challenges.filter_status := ""; Challenges.filter_type := "";
                                  Challenges.filter_prize := "" |}) l = Normal l).
    { induction l as [| c l IH]; [reflexivity |].
      cbn [Challenges.filterM]. rewrite IH. reflexivity. }
    now rewrite H.
Qed.

(** X15.  The prize buckets partition the amounts: a challenge with a
    non-zero [prize_total] satisfies exactly one of the five values of
    the prize filter. *)
Theorem challenge_prize_buckets_partition
        (c : Challenges.challenge) (p : Z)
        (Hp : Challenges.prize_total c = Val p) (Hnz : p <> 0) :
  List.length
    (filter (fun prizeFilter => Challenges.matchesPrize prizeFilter c)
            ["under-10k"; "10k-50k"; "50k-100k"; "100k-500k"; "over-500k"])
  = 1%nat.
Proof.
  unfold Challenges.matchesPrize. rewrite Hp. cbn. compare_cases.
Qed.

Lemma challenge_prize_buckets_partition_witness :
  List.length
    (filter (fun prizeFilter => Challenges.matchesPrize prizeFilter
                                                        Fixture.cybersecurity_challenge)
            ["under-10k"; "10k-50k"; "50k-100k"; "100k-500k"; "over-500k"])
  = 1%nat.
Proof.
  refine (challenge_prize_buckets_partition Fixture.cybersecurity_challenge 150000 eq_refl _).
  discriminate.
Defined.

Lemma csv_rows_throws (fa : field Z -> string) (tl : string -> string)
      (l : list Challenges.challenge) :
  Challenges.csv_rows fa tl l = Throw
  <-> exists c, In c l /\ nullish (Challenges.description c) = true.
Proof.
  induction l as [| c l IH]; cbn [Challenges.csv_rows In].
  - split; [discriminate | intros (c & [] & _)].
  - unfold Challenges.csv_row at 1.
    destruct (Challenges.description c) as [| | d] eqn:Ed; cbn [bind].
    + split; [| reflexivity]. intros _. exists c. rewrite Ed. tauto.
    + split; [| reflexivity]. intros _. exists c. rewrite Ed. tauto.
    + destruct (Challenges.csv_rows fa tl l) as [rs |]; cbn [bind].
      * split; [discriminate |]. intros (x & [<- | Hx] & Hn).
        -- rewrite Ed in Hn. discriminate.
        -- assert (Normal rs = Throw) by (apply IH; now exists x). discriminate.
      * split; [| reflexivity]. intros _.
        destruct (proj1 IH eq_refl) as (x & Hx & Hn). exists x. tauto.
Qed.

(** X16.  When the challenges export fails.  [convertChallengersToCsv]
    raises a TypeError exactly when one of the challenges has no
    description (the description is cut with [substring] without a
    guard); nothing is exported then. *)
Theorem convertChallengersToCsv_throws_iff
        (formatAmount : field Z -> string) (toLocaleDateString : string -> string)
        (challenges : list Challenges.challenge) :
  Challenges.convertChallengersToCsv formatAmount toLocaleDateString challenges = Throw
  <-> exists c, In c challenges /\ nullish (Challenges.description c) = true.
Proof.
  rewrite <- (csv_rows_throws formatAmount toLocaleDateString).
  unfold Challenges.convertChallengersToCsv.
  destruct (Challenges.csv_rows _ _ _); cbn [bind]; split; congruence.
Qed.

(* ================================================================== *)
(** ** SBIR manager *)
(* ================================================================== *)

(** X17.  Funding buckets of the SBIR companies: a company with a
    non-zero [total_funding] satisfies exactly one of the five values of
    the funding filter. *)
Theorem sbir_funding_buckets_partition (a : Z) (Hnz : a <> 0) :
  List.length
    (filter (SBIR.matchesFundingRange (Val a))
            ["under-500k"; "500k-1m"; "1m-5m"; "5m-10m"; "over-10m"])
  = 1%nat.
Proof. unfold SBIR.matchesFundingRange. cbn. compare_cases. Qed.

Lemma sbir_funding_buckets_partition_witness :
  List.length
    (filter (SBIR.matchesFundingRange (Val 2500000))
            ["under-500k"; "500k-1m"; "1m-5m"; "5m-10m"; "over-10m"])
  = 1%nat.
Proof.
  refine (sbir_funding_buckets_partition 2500000 _). discriminate.
Defined.

(** X18.  Employee buckets of the SBIR companies.  A company without
    head count, or with 0, passes every value of the employees filter.
    The buckets [10-50] and [50-100] both include 50: a company with 50
    employees satisfies two of the four values, every other non-zero
    count exactly one. *)
Theorem sbir_employee_buckets :
  (forall count range,
      truthy_num count = false -> SBIR.matchesEmployeesRange count range = true)
  /\ (forall n, n <> 0 ->
      List.length
        (filter (SBIR.matchesEmployeesRange (Val n))
                ["under-10"; "10-50"; "50-100"; "over-100"])
      = if n =? 50 then 2%nat else 1%nat).
Proof.
  split.
  - intros count range H. unfold SBIR.matchesEmployeesRange. now rewrite H.
  - intros n Hn. unfold SBIR.matchesEmployeesRange. cbn. compare_cases.
Qed.

(** X19.  Award-count buckets of the SBIR companies.  A company with at
    least one award satisfies exactly one of the four values of the
    awards filter; a company whose [total_awards] is absent, null or not
    positive satisfies none of them, so any choice in that filter hides
    it. *)
Theorem sbir_award_count_buckets :
  (forall n, 1 <= n ->
      List.length
        (filter (SBIR.matchesAwardsRange (Val n)) ["1"; "2-5"; "6-10"; "over-10"])
      = 1%nat)
  /\ (forall count,
      (match count with Val n => n <= 0 | _ => True end) ->
      filter (SBIR.matchesAwardsRange count) ["1"; "2-5"; "6-10"; "over-10"] = []).
Proof.
  split.
  - intros n Hn. unfold SBIR.matchesAwardsRange. cbn. compare_cases.
  - intros [| | n] H; [reflexivity | reflexivity |].
    unfold SBIR.matchesAwardsRange. cbn. compare_cases.
Qed.

Lemma filter_and {A} (p q : A -> bool) (l : list A) :
  filter q (filter p l) = filter (fun x => p x && q x) l.
Proof.
  induction l as [| x l IH]; [reflexivity |].
  cbn [filter]. destruct (p x); cbn [filter andb]; [| exact IH].
  destruct (q x); now rewrite IH.
Qed.

Lemma filter_twice {A} (p : A -> bool) (l : list A) : filter p (filter p l) = filter p l.
Proof.
  rewrite filter_and. apply filter_ext. intros x. now destruct (p x).
Qed.

Lemma sbir_narrow_filter {A} (v : string) (p : A -> bool) (data : list A) :
  SBIR.narrow v p data = filter (fun x => negb (SBIR.nonempty v) || p x) data.
Proof.
  unfold SBIR.narrow. destruct (SBIR.nonempty v); cbn [negb orb]; [reflexivity |].
  symmetry. apply filter_all. reflexivity.
Qed.

(** The selects of the companies sub-tab as one test on a company. *)
Lemma filter_companies_filter (i : SBIR.inputs) (data : list SBIR.company) :
  SBIR.filter_companies i data
  = filter (fun item =>
              (negb (SBIR.nonempty (SBIR.companies_filter_state i))
               || SBIR.str_is (SBIR.state item) (SBIR.companies_filter_state i))
              && (negb (SBIR.nonempty (SBIR.companies_filter_funding i))
                  || SBIR.matchesFundingRange (SBIR.total_funding item)
                                              (SBIR.companies_filter_funding i))
              && (negb (SBIR.nonempty (SBIR.companies_filter_awards i))
                  || SBIR.matchesAwardsRange (SBIR.total_awards item)
                                             (SBIR.companies_filter_awards i))
              && (negb (SBIR.nonempty (SBIR.companies_filter_employees i))
                  || SBIR.matchesEmployeesRange (SBIR.employees item)
                                                (SBIR.companies_filter_employees i)))
           data.
Proof.
  unfold SBIR.filter_companies. rewrite !sbir_narrow_filter, !filter_and.
  apply filter_ext. intros x. now rewrite ?andb_assoc.
Qed.

Lemma filter_awards_filter (i : SBIR.inputs) (data : list SBIR.award) :
  SBIR.filter_awards i data
  = filter (fun item =>
              (negb (SBIR.nonempty (SBIR.awards_filter_agency i))
               || SBIR.str_is (SBIR.a_agency item) (SBIR.awards_filter_agency i))
              && (negb (SBIR.nonempty (SBIR.awards_filter_phase i))
                  || SBIR.str_is (SBIR.phase item) (SBIR.awards_filter_phase i))
              && (negb (SBIR.nonempty (SBIR.awards_filter_year i))
                  || SBIR.year_is (SBIR.award_year item) (SBIR.awards_filter_year i))
              && (negb (SBIR.nonempty (SBIR.awards_filter_state i))
                  || SBIR.str_is (SBIR.company_state item) (SBIR.awards_filter_state i)))
           data.
Proof.
  unfold SBIR.filter_awards. rewrite !sbir_narrow_filter, !filter_and.
  apply filter_ext. intros x. now rewrite ?andb_assoc.
Qed.

Lemma filter_solicitations_filter (i : SBIR.inputs) (data : list SBIR.solicitation) :
  SBIR.filter_solicitations i data
  = filter (fun item =>
              (negb (SBIR.nonempty (SBIR.solicitations_filter_agency i))
               || SBIR.str_is (SBIR.s_agency item) (SBIR.solicitations_filter_agency i))
              && (negb (SBIR.nonempty (SBIR.solicitations_filter_status i))
                  || SBIR.str_is (SBIR.status item) (SBIR.solicitations_filter_status i))
              && (negb (SBIR.nonempty (SBIR.solicitations_filter_phases i))
                  || SBIR.phases_include (SBIR.phases_offered item)
                                         (SBIR.solicitations_filter_phases i)))
           data.
Proof.
  unfold SBIR.filter_solicitations. rewrite !sbir_narrow_filter, !filter_and.
  apply filter_ext. intros x. now rewrite ?andb_assoc.
Qed.

(** X20.  [applyFilters] of the SBIR manager runs twice as it runs once:
    a second pass over its own result, with the same selects, changes
    nothing.  On the companies sub-tab a company is in the result exactly
    when it was on display and satisfies every select that has a value. *)
Theorem sbir_applyFilters_idempotent (t : SBIR.subtab) (m : SBIR.manager) :
  SBIR.applyFilters t (SBIR.applyFilters t m) = SBIR.applyFilters t m
  /\ (forall c,
      In c (SBIR.companies (SBIR.filteredData (SBIR.applyFilters SBIR.Companies m)))
      <-> In c (SBIR.companies (SBIR.filteredData m))
          /\ (SBIR.companies_filter_state (SBIR.controls m) = ""
              \/ SBIR.state c = Val (SBIR.companies_filter_state (SBIR.controls m)))
          /\ (SBIR.companies_filter_funding (SBIR.controls m) = ""
              \/ SBIR.matchesFundingRange (SBIR.total_funding c)
                   (SBIR.companies_filter_funding (SBIR.controls m)) = true)
          /\ (SBIR.companies_filter_awards (SBIR.controls m) = ""
              \/ SBIR.matchesAwardsRange (SBIR.total_awards c)
                   (SBIR.companies_filter_awards (SBIR.controls m)) = true)
          /\ (SBIR.companies_filter_employees (SBIR.controls m) = ""
              \/ SBIR.matchesEmployeesRange (SBIR.employees c)
                   (SBIR.companies_filter_employees (SBIR.controls m)) = true)).
Proof.
  split.
  - assert (Ha : forall i l, SBIR.filter_awards i (SBIR.filter_awards i l)
                             = SBIR.filter_awards i l)
      by (intros i l; rewrite !filter_awards_filter; apply filter_twice).
    assert (Hc : forall i l, SBIR.filter_companies i (SBIR.filter_companies i l)
                             = SBIR.filter_companies i l)
      by (intros i l; rewrite !filter_companies_filter; apply filter_twice).
    assert (Hs : forall i l, SBIR.filter_solicitations i (SBIR.filter_solicitations i l)
                             = SBIR.filter_solicitations i l)
      by (intros i l; rewrite !filter_solicitations_filter; apply filter_twice).
    unfold SBIR.applyFilters, SBIR.set_pages, SBIR.set_filtered.
    destruct t;
      cbn [SBIR.filteredData SBIR.controls SBIR.currentPage SBIR.sbirData SBIR.alerts
           SBIR.currentSubTab SBIR.awards SBIR.companies SBIR.solicitations
           SBIR.set_awards SBIR.set_companies SBIR.set_solicitations SBIR.set_page
           SBIR.page_awards SBIR.page_companies SBIR.page_solicitations];
      rewrite ?Ha, ?Hc, ?Hs; reflexivity.
  - intros c. unfold SBIR.applyFilters.
    cbn [SBIR.filteredData SBIR.set_pages SBIR.set_filtered SBIR.companies SBIR.set_companies].
    rewrite filter_companies_filter, filter_In, !andb_true_iff, !orb_true_iff.
    unfold SBIR.nonempty, SBIR.str_is. rewrite !negb_true_iff, !negb_false_iff, !String.eqb_eq.
    assert (Hs : forall v, match SBIR.state c with
                           | Val s => (s =? v)%string
                           | _ => false
                           end = true <-> SBIR.state c = Val v).
    { intros v. destruct (SBIR.state c) as [| | s]; try (split; [discriminate | congruence]).
      rewrite String.eqb_eq. split; congruence. }
    rewrite Hs. tauto.
Qed.

(** X21.  Search on the SBIR companies sub-tab.  The search reads the
    whole collection, whatever list is on display.  With no select set,
    its result is the companies, in collection order, that have a name or
    a location containing the trimmed, lower-cased content of the search
    box. *)
Theorem sbir_company_search_results
        (m : SBIR.manager)
        (Hstate : SBIR.companies_filter_state (SBIR.controls m) = "")
        (Hfunding : SBIR.companies_filter_funding (SBIR.controls m) = "")
        (Hawards : SBIR.companies_filter_awards (SBIR.controls m) = "")
        (Hemployees : SBIR.companies_filter_employees (SBIR.controls m) = "") :
  let term := trim (toLowerCase (SBIR.companies_search_input (SBIR.controls m))) in
  SBIR.companies (SBIR.filteredData (SBIR.performSearch SBIR.Companies m))
  = filter (SBIR.company_hit term) (SBIR.companies (SBIR.sbirData m))
  /\ (forall c,
      In c (SBIR.companies (SBIR.filteredData (SBIR.performSearch SBIR.Companies m)))
      <-> In c (SBIR.companies (SBIR.sbirData m))
          /\ exists s, (SBIR.firm_name c = Val s \/ SBIR.location c = Val s)
                       /\ includes (toLowerCase s) term = true)
  /\ (forall d,
      SBIR.companies (SBIR.filteredData
                        (SBIR.performSearch SBIR.Companies (SBIR.set_filtered d m)))
      = SBIR.companies (SBIR.filteredData (SBIR.performSearch SBIR.Companies m)))
  /\ SBIR.page_companies (SBIR.currentPage (SBIR.performSearch SBIR.Companies m)) = 1.
Proof.
  intros term.
  assert (Hres : SBIR.companies (SBIR.filteredData (SBIR.performSearch SBIR.Companies m))
                 = filter (SBIR.company_hit term) (SBIR.companies (SBIR.sbirData m))).
  { unfold SBIR.performSearch, SBIR.applyFilters.
    cbn [SBIR.filteredData SBIR.set_pages SBIR.set_filtered SBIR.companies
         SBIR.set_companies SBIR.controls SBIR.search_input].
    unfold SBIR.filter_companies. rewrite Hstate, Hfunding, Hawards, Hemployees.
    reflexivity. }
  split; [exact Hres |]. split; [| split; reflexivity].
  intros c. rewrite Hres, filter_In, company_hit_iff. tauto.
Qed.

Lemma sbir_company_search_results_witness :
  SBIR.companies
    (SBIR.filteredData
       (SBIR.performSearch SBIR.Companies (Fixture.sbir_loaded Fixture.sample_companies)))
  = filter (SBIR.company_hit "") [Fixture.company_techcorp; Fixture.company_biomed;
                                  Fixture.company_quantum].
Proof.
  exact (proj1 (sbir_company_search_results (Fixture.sbir_loaded Fixture.sample_companies)
                                            eq_refl eq_refl eq_refl eq_refl)).
Defined.

Lemma award_hit_firm (companyName f : string) (a : SBIR.award) :
  SBIR.firm a = Val f -> toLowerCase f = toLowerCase companyName ->
  SBIR.award_hit (trim (toLowerCase companyName)) a = true.
Proof.
  intros Hf He. unfold SBIR.award_hit, SBIR.opt_lower_includes.
  rewrite Hf, He, includes_trim. now rewrite orb_true_r.
Qed.

(** X22.  The link from a company to its awards.  [showAwardsForCompany]
    shows the awards sub-tab on page 1 with the name in the search box and
    every select of that sub-tab reset; the result is the awards of the
    collection that the name hits, and it contains every award whose firm
    is the name, compared without case. *)
Theorem showAwardsForCompany_shows_firm_awards (companyName : string) (m : SBIR.manager) :
  let m' := SBIR.showAwardsForCompany companyName m in
  SBIR.currentSubTab m' = SBIR.Awards
  /\ SBIR.page_awards (SBIR.currentPage m') = 1
  /\ SBIR.awards_search_input (SBIR.controls m') = companyName
  /\ SBIR.awards (SBIR.filteredData m')
     = filter (SBIR.award_hit (trim (toLowerCase companyName))) (SBIR.awards (SBIR.sbirData m))
  /\ (forall a f,
      In a (SBIR.awards (SBIR.sbirData m)) ->
      SBIR.firm a = Val f -> toLowerCase f = toLowerCase companyName ->
      In a (SBIR.awards (SBIR.filteredData m')))
  /\ SBIR.companies (SBIR.filteredData m') = SBIR.companies (SBIR.filteredData m)
  /\ SBIR.sbirData m' = SBIR.sbirData m.
Proof.
  intros m'.
  assert (Hres : SBIR.awards (SBIR.filteredData m')
                 = filter (SBIR.award_hit (trim (toLowerCase companyName)))
                          (SBIR.awards (SBIR.sbirData m))) by reflexivity.
  repeat split; try exact Hres.
  intros a f Hin Hf He. rewrite Hres. apply filter_In. split; [exact Hin |].
  now apply (award_hit_firm companyName f).
Qed.

Lemma find_company_throws (companyName : string) (l1 l2 : list SBIR.company)
      (c : SBIR.company) :
  nullish (SBIR.firm_name c) = true ->
  (forall x, In x l1 -> nullish (SBIR.firm_name x) = false
                        /\ SBIR.same_name companyName x = false) ->
  SBIR.find_company companyName (l1 ++ c :: l2) = Throw.
Proof.
  intros Hc. induction l1 as [| x l1 IH]; intros H; cbn [app SBIR.find_company].
  - destruct (SBIR.firm_name c); [reflexivity | reflexivity | discriminate].
  - destruct (H x (or_introl eq_refl)) as [Hn Hs]. unfold SBIR.same_name in Hs.
    destruct (SBIR.firm_name x) as [| | n]; try discriminate.
    rewrite Hs. apply IH. intros y Hy. apply H. now right.
Qed.

(** X23.  When the link from an award to its company fails.  A company
    without [firm_name] that is listed before any company bearing the
    name makes [showCompanyFromName] raise a TypeError: no alert is shown
    and nothing is displayed, even if a company with the name comes
    later in the collection. *)
Theorem showCompanyFromName_throws_on_nameless
        (companyName : string) (m : SBIR.manager)
        (l1 l2 : list SBIR.company) (c : SBIR.company)
        (Hsplit : SBIR.companies (SBIR.sbirData m) = (l1 ++ c :: l2)%list)
        (Hc : nullish (SBIR.firm_name c) = true)
        (Hbefore : forall x, In x l1 -> nullish (SBIR.firm_name x) = false
                                        /\ SBIR.same_name companyName x = false) :
  SBIR.showCompanyFromName companyName m = Throw.
Proof.
  unfold SBIR.showCompanyFromName. rewrite Hsplit.
  now rewrite (find_company_throws companyName l1 l2 c Hc Hbefore).
Qed.

(** BioMed, a nameless company, then TechCorp: the link to TechCorp
    fails. *)
Lemma showCompanyFromName_throws_on_nameless_witness :
  SBIR.showCompanyFromName "TechCorp Innovations"
                           (Fixture.sbir_loaded Fixture.companies_nameless_second)
  = Throw.
Proof.
  refine (showCompanyFromName_throws_on_nameless
            "TechCorp Innovations" (Fixture.sbir_loaded Fixture.companies_nameless_second)
            [Fixture.company_biomed] [Fixture.company_techcorp]
            Fixture.company_anonymous eq_refl eq_refl _).
  intros x [<- | []]. split; reflexivity.
Defined.

(** X24.  The state options of the SBIR manager are the distinct states
    of the awards' companies and of the companies, without the absent,
    null and empty ones. *)
Theorem sbir_state_options (m : SBIR.manager) :
  (forall x,
      In x (SBIR.state_options m)
      <-> truthy_str x = true
          /\ ((exists a, In a (SBIR.awards (SBIR.sbirData m)) /\ SBIR.company_state a = x)
              \/ (exists c, In c (SBIR.companies (SBIR.sbirData m)) /\ SBIR.state c = x)))
  /\ NoDup (SBIR.state_options m).
Proof.
  unfold SBIR.state_options. split.
  - intros x. split.
    + intros H. apply (Permutation_in _ (Permutation_sym (default_sort_perm _))) in H.
      apply (proj1 (set_of_In _ field_eqb_eq _ _)) in H.
      apply in_app_iff in H. destruct H as [H | H]; apply filter_In in H;
        destruct H as [H Ht]; apply in_map_iff in H; destruct H as (y & Hy & Hin).
      * split; [exact Ht |]. left. now exists y.
      * split; [exact Ht |]. right. now exists y.
    + intros (Ht & H).
      apply (Permutation_in _ (default_sort_perm _)).
      apply (proj2 (set_of_In _ field_eqb_eq _ _)). apply in_app_iff.
      destruct H as [(a & Hin & Ha) | (c & Hin & Hc)]; [left | right];
        apply filter_In; (split; [| exact Ht]); apply in_map_iff; eauto.
  - eapply Permutation_NoDup; [apply default_sort_perm |].
    apply (set_of_NoDup _ field_eqb_eq).
Qed.

(* ================================================================== *)
(** ** NOFA manager *)
(* ================================================================== *)

Lemma nofas_narrow_filter (v : string) (p : NOFAs.nofa -> bool) (data : list NOFAs.nofa) :
  NOFAs.narrow v p data = filter (fun x => negb (NOFAs.nonempty v) || p x) data.
Proof.
  unfold NOFAs.narrow. destruct (NOFAs.nonempty v); cbn [negb orb]; [reflexivity |].
  symmetry. apply filter_all. reflexivity.
Qed.

Lemma nofas_narrowed_filter (E : Env) (i : NOFAs.inputs) (data : list NOFAs.nofa) :
  NOFAs.narrowed E i data = filter (NOFAs.passes E i) data.
Proof.
  unfold NOFAs.narrowed.
  replace (if NOFAs.nonempty (NOFAs.filter_date i)
           then match NOFAs.cutoffDate E (NOFAs.filter_date i) with
                | Some cutoff =>
                    filter (NOFAs.published_since E cutoff)
                           (NOFAs.narrow (NOFAs.filter_agency i)
                              (fun n => NOFAs.str_is (NOFAs.agency n) (NOFAs.filter_agency i))
                              data)
                | None =>
                    NOFAs.narrow (NOFAs.filter_agency i)
                      (fun n => NOFAs.str_is (NOFAs.agency n) (NOFAs.filter_agency i)) data
                end
           else NOFAs.narrow (NOFAs.filter_agency i)
                  (fun n => NOFAs.str_is (NOFAs.agency n) (NOFAs.filter_agency i)) data)
    with (filter (fun n => if NOFAs.nonempty (NOFAs.filter_date i)
                           then match NOFAs.cutoffDate E (NOFAs.filter_date i) with
                                | Some cutoff => NOFAs.published_since E cutoff n
                                | None => true
                                end
                           else true)
                 (NOFAs.narrow (NOFAs.filter_agency i)
                    (fun n => NOFAs.str_is (NOFAs.agency n) (NOFAs.filter_agency i)) data)).
  - rewrite !nofas_narrow_filter, !filter_and. apply filter_ext.
    intros n. unfold NOFAs.passes. now rewrite ?andb_assoc.
  - destruct (NOFAs.nonempty (NOFAs.filter_date i)); [| now apply filter_all].
    destruct (NOFAs.cutoffDate E (NOFAs.filter_date i)); [reflexivity | now apply filter_all].
Qed.

(** X25.  [applyFilters] of the NOFA manager keeps, of the notices on
    display, exactly those that satisfy every control that has a value;
    it resets the page to 1; and a second pass with the same controls
    changes nothing, so the two listeners of the filter grid may both
    run. *)
Theorem nofas_applyFilters_conjunction (E : Env) (m : NOFAs.manager) :
  (forall n, In n (NOFAs.filteredData (NOFAs.applyFilters E m))
             <-> In n (NOFAs.filteredData m) /\ NOFAs.passes E (NOFAs.controls m) n = true)
  /\ NOFAs.currentPage (NOFAs.applyFilters E m) = 1
  /\ NOFAs.applyFilters E (NOFAs.applyFilters E m) = NOFAs.applyFilters E m.
Proof.
  unfold NOFAs.applyFilters.
  cbn [NOFAs.filteredData NOFAs.with_page NOFAs.with_filtered NOFAs.controls
       NOFAs.currentPage NOFAs.nofasData].
  rewrite !nofas_narrowed_filter. split; [| split].
  - intros n. apply filter_In.
  - reflexivity.
  - unfold NOFAs.with_page, NOFAs.with_filtered.
    cbn [NOFAs.filteredData NOFAs.controls NOFAs.currentPage NOFAs.nofasData].
    now rewrite filter_twice.
Qed.

(** X26.  A search in the NOFA manager reads the whole collection,
    whatever list is on display: its result is the notices of the
    collection, in order, that the term hits and that satisfy every
    control that has a value.  A filter event that follows with the same
    controls leaves that result as it is. *)
Theorem nofas_performSearch_recomputes (E : Env) (m : NOFAs.manager) :
  let term := trim (toLowerCase (NOFAs.search_input (NOFAs.controls m))) in
  NOFAs.filteredData (NOFAs.performSearch E m)
  = filter (fun n => NOFAs.search_hit term n && NOFAs.passes E (NOFAs.controls m) n)
           (NOFAs.nofasData m)
  /\ (forall l, NOFAs.performSearch E (NOFAs.with_filtered l m) = NOFAs.performSearch E m)
  /\ NOFAs.applyFilters E (NOFAs.performSearch E m) = NOFAs.performSearch E m.
Proof.
  intros term. split; [| split].
  - unfold NOFAs.performSearch, NOFAs.applyFilters.
    cbn [NOFAs.filteredData NOFAs.with_page NOFAs.with_filtered NOFAs.controls
         NOFAs.nofasData].
    now rewrite nofas_narrowed_filter, filter_and.
  - reflexivity.
  - unfold NOFAs.performSearch, NOFAs.applyFilters, NOFAs.with_page, NOFAs.with_filtered.
    cbn [NOFAs.filteredData NOFAs.controls NOFAs.currentPage NOFAs.nofasData].
    rewrite !nofas_narrowed_filter. now rewrite filter_twice.
Qed.

(** X27.  Funding buckets of the NOFA manager.  A notice with a non-zero
    [funding_amount] satisfies exactly one of the four bounded values of
    the funding filter.  The value [unspecified] is satisfied by every
    notice, with or without amount (for a notice with an amount it falls
    to the default branch), so that choice hides nothing. *)
Theorem nofas_funding_buckets :
  (forall a, a <> 0 ->
      List.length
        (filter (NOFAs.matchesFundingRange (Val a))
                ["under-1m"; "1m-10m"; "10m-100m"; "over-100m"])
      = 1%nat)
  /\ (forall amount, NOFAs.matchesFundingRange amount "unspecified" = true).
Proof.
  split.
  - intros a Hnz. unfold NOFAs.matchesFundingRange. cbn. compare_cases.
  - intros [| | a]; [reflexivity | reflexivity |].
    unfold NOFAs.matchesFundingRange. cbn. now destruct (a =? 0).
Qed.

(** X28.  Publication windows of the NOFA manager.  A notice without
    publication date, or with a date that does not parse, is outside
    every window.  The windows are nested: a notice published within the
    last week is within the last month, quarter and year.  A value of the
    date filter other than the four windows sets no cutoff. *)
Theorem nofas_publication_windows (E : Env) (n : NOFAs.nofa) :
  let since := fun days => NOFAs.published_since E (Date_now E - days * NOFAs.msPerDay) n in
  NOFAs.cutoffDate E "week" = Some (Date_now E - 7 * NOFAs.msPerDay)
  /\ NOFAs.cutoffDate E "month" = Some (Date_now E - 30 * NOFAs.msPerDay)
  /\ NOFAs.cutoffDate E "quarter" = Some (Date_now E - 90 * NOFAs.msPerDay)
  /\ NOFAs.cutoffDate E "year" = Some (Date_now E - 365 * NOFAs.msPerDay)
  /\ (forall v, ~ In v ["week"; "month"; "quarter"; "year"] -> NOFAs.cutoffDate E v = None)
  /\ (since 7 = true -> since 30 = true)
  /\ (since 30 = true -> since 90 = true)
  /\ (since 90 = true -> since 365 = true)
  /\ (truthy_str (NOFAs.publication_date n) = false ->
      forall cutoff, NOFAs.published_since E cutoff n = false)
  /\ (forall s, NOFAs.publication_date n = Val s -> Date_parse E s = None ->
      forall cutoff, NOFAs.published_since E cutoff n = false).
Proof.
  intros since. repeat split.
  - intros v Hv. unfold NOFAs.cutoffDate. cbn [In] in Hv.
    destruct (String.eqb_spec v "week"); [exfalso; apply Hv; subst; intuition |].
    destruct (String.eqb_spec v "month"); [exfalso; apply Hv; subst; intuition |].
    destruct (String.eqb_spec v "quarter"); [exfalso; apply Hv; subst; intuition |].
    destruct (String.eqb_spec v "year"); [exfalso; apply Hv; subst; intuition | reflexivity].
  - subst since. cbv beta. unfold NOFAs.published_since, NOFAs.msPerDay.
    destruct (negb _); [discriminate |].
    destruct (NOFAs.publication_date n) as [| | s]; try discriminate.
    destruct (Date_parse E s); [| discriminate]. rewrite !Z.leb_le. lia.
  - subst since. cbv beta. unfold NOFAs.published_since, NOFAs.msPerDay.
    destruct (negb _); [discriminate |].
    destruct (NOFAs.publication_date n) as [| | s]; try discriminate.
    destruct (Date_parse E s); [| discriminate]. rewrite !Z.leb_le. lia.
  - subst since. cbv beta. unfold NOFAs.published_since, NOFAs.msPerDay.
    destruct (negb _); [discriminate |].
    destruct (NOFAs.publication_date n) as [| | s]; try discriminate.
    destruct (Date_parse E s); [| discriminate]. rewrite !Z.leb_le. lia.
  - intros H cutoff. unfold NOFAs.published_since. now rewrite H.
  - intros s Hs Hp cutoff. unfold NOFAs.published_since. rewrite Hs, Hp.
    now destruct (negb _).
Qed.

Section SortExt.
Context {A : Type} (cmp1 cmp2 : A -> A -> option Z).

Lemma insert_ext_in (x : A) (l : list A) :
  (forall y, In y l -> SortCompare cmp1 x y = SortCompare cmp2 x y) ->
  insert cmp1 x l = insert cmp2 x l.
Proof.
  induction l as [| y l IH]; intros H; [reflexivity |].
  cbn [insert]. rewrite (H y (or_introl eq_refl)).
  destruct (SortCompare cmp2 x y <=? 0); [reflexivity |].
  f_equal. apply IH. intros z Hz. apply H. now right.
Qed.

Lemma sort_ext_in (l : list A) :
  (forall x y, In x l -> In y l -> SortCompare cmp1 x y = SortCompare cmp2 x y) ->
  sort cmp1 l = sort cmp2 l.
Proof.
  induction l as [| x l IH]; intros H; [reflexivity |].
  change (sort cmp1 (x :: l)) with (insert cmp1 x (sort cmp1 l)).
  change (sort cmp2 (x :: l)) with (insert cmp2 x (sort cmp2 l)).
  rewrite IH by (intros a b Ha Hb; apply H; now right).
  apply insert_ext_in. intros y Hy. apply H; [now left | right].
  eapply Permutation_in; [apply Permutation_sym, sort_perm | exact Hy].
Qed.

End SortExt.

(** Three-way comparison of two numbers, as [sortTable] of the NOFA
    manager answers it. *)
Lemma three_way_le (key : NOFAs.nofa -> Z) (a b : NOFAs.nofa) :
  SortCompare (fun x y => if key x <? key y then Some (-1)
                          else if key y <? key x then Some 1 else Some 0) a b <= 0
  <-> key a <= key b.
Proof.
  unfold SortCompare.
  destruct (Z.ltb_spec (key a) (key b)); [lia |].
  destruct (Z.ltb_spec (key b) (key a)); lia.
Qed.

Lemma three_way_sort (key : NOFAs.nofa -> Z) (l : list NOFAs.nofa) :
  let l' := sort (fun x y => if key x <? key y then Some (-1)
                             else if key y <? key x then Some 1 else Some 0) l in
  Permutation l l'
  /\ StronglySorted (fun a b => key a <= key b) l'
  /\ (forall t, filter (fun n => key n =? t) l' = filter (fun n => key n =? t) l).
Proof.
  intros l'. split; [apply sort_perm |]. split.
  - apply (sort_ordered _ (fun a b => key a <= key b)).
    + intros x y. lia.
    + intros x y z. lia.
    + apply three_way_le.
  - intros t. apply (sort_keeps_ties _ (fun a b => key a <= key b)).
    + apply three_way_le.
    + intros a b Ha Hb. apply Z.eqb_eq in Ha, Hb. lia.
Qed.

(** X29.  [sortTable] of the NOFA manager sorts ascending, every time.
    By [funding_amount] the notices on display are ordered by the amount,
    a missing amount counting as 0.  By [publication_date] or
    [effective_date], when every date that is present parses, they are
    ordered by the parsed date, a missing date counting as the epoch: an
    undated notice is preceded only by notices dated at or before
    1970-01-01.  In both cases the result is a permutation of the list on
    display and ties keep their order. *)
Theorem nofas_sortTable_order (E : Env) (m : NOFAs.manager) :
  (let l' := NOFAs.filteredData (NOFAs.sortTable E "funding_amount" m) in
   Permutation (NOFAs.filteredData m) l'
   /\ StronglySorted (fun a b => NOFAs.amount_key a <= NOFAs.amount_key b) l'
   /\ (forall t, filter (fun n => NOFAs.amount_key n =? t) l'
                 = filter (fun n => NOFAs.amount_key n =? t) (NOFAs.filteredData m)))
  /\ (forall column,
      column = "publication_date" \/ column = "effective_date" ->
      (forall n, In n (NOFAs.filteredData m) ->
                 exists t, NOFAs.key_of E column n = NOFAs.KDate (Some t)) ->
      let l' := NOFAs.filteredData (NOFAs.sortTable E column m) in
      Permutation (NOFAs.filteredData m) l'
      /\ StronglySorted (fun a b => NOFAs.time_key E column a <= NOFAs.time_key E column b) l'
      /\ (forall t, filter (fun n => NOFAs.time_key E column n =? t) l'
                    = filter (fun n => NOFAs.time_key E column n =? t) (NOFAs.filteredData m))
      /\ (forall l1 a l2 b,
          l' = (l1 ++ a :: l2)%list -> In b l2 ->
          NOFAs.key_of E column b = NOFAs.KDate (Some 0) ->
          NOFAs.time_key E column a <= 0)).
Proof.
  split.
  - cbv zeta. unfold NOFAs.sortTable. cbn [NOFAs.filteredData NOFAs.with_filtered].
    rewrite (sort_ext_in (NOFAs.comparefn E "funding_amount")
               (fun x y => if NOFAs.amount_key x <? NOFAs.amount_key y then Some (-1)
                           else if NOFAs.amount_key y <? NOFAs.amount_key x then Some 1
                                else Some 0)).
    + apply three_way_sort.
    + intros x y _ _. reflexivity.
  - intros column Hcol Hparse. cbv zeta.
    unfold NOFAs.sortTable. cbn [NOFAs.filteredData NOFAs.with_filtered].
    rewrite (sort_ext_in (NOFAs.comparefn E column)
               (fun x y => if NOFAs.time_key E column x <? NOFAs.time_key E column y
                           then Some (-1)
                           else if NOFAs.time_key E column y <? NOFAs.time_key E column x
                                then Some 1 else Some 0)).
    + pose proof (three_way_sort (NOFAs.time_key E column) (NOFAs.filteredData m))
        as (Hp & Hs & Ht).
      split; [exact Hp |]. split; [exact Hs |]. split; [exact Ht |].
      intros l1 a l2 b Heq Hb Hk. rewrite Heq in Hs.
      pose proof (sorted_after (NOFAs.time_key E column) l1 l2 a b Hs Hb) as Hle.
      unfold NOFAs.time_key at 2 in Hle. now rewrite Hk in Hle.
    + intros x y Hx Hy. destruct (Hparse x Hx) as [tx Ex], (Hparse y Hy) as [ty Ey].
      unfold SortCompare, NOFAs.comparefn, NOFAs.time_key. rewrite Ex, Ey. reflexivity.
Qed.

Lemma housing_undated_parse :
  forall n, In n (NOFAs.filteredData (NOFAs.loaded [Fixture.nofa_housing; Fixture.nofa_undated])) ->
            exists t, NOFAs.key_of Fixture.env "publication_date" n = NOFAs.KDate (Some t).
Proof. intros n [<- | [<- | []]]; eexists; vm_compute; reflexivity. Defined.

Lemma nofas_sortTable_order_witness :
  let m := NOFAs.loaded [Fixture.nofa_housing; Fixture.nofa_undated] in
  Permutation (NOFAs.filteredData m)
              (NOFAs.filteredData (NOFAs.sortTable Fixture.env "publication_date" m)).
Proof.
  cbv zeta.
  exact (proj1 (proj2 (nofas_sortTable_order
                         Fixture.env
                         (NOFAs.loaded [Fixture.nofa_housing; Fixture.nofa_undated]))
                      "publication_date" (or_introl eq_refl) housing_undated_parse)).
Defined.

(** X30.  The agency options and the agency count of the NOFA manager.
    The options are the distinct agencies of the collection without the
    absent, null and empty ones, each once, and the dashboard counts
    exactly these. *)
Theorem nofas_agency_options_and_count (m : NOFAs.manager) :
  (forall x,
      In x (NOFAs.agency_options m)
      <-> truthy_str x = true /\ exists n, In n (NOFAs.nofasData m) /\ NOFAs.agency n = x)
  /\ NoDup (NOFAs.agency_options m)
  /\ NOFAs.stat_agencies m = Z.of_nat (List.length (NOFAs.agency_options m)).
Proof.
  split; [| split].
  - intros x. unfold NOFAs.agency_options. split.
    + intros H. apply (Permutation_in _ (Permutation_sym (default_sort_perm _))) in H.
      apply (proj1 (set_of_In _ field_eqb_eq _ _)) in H. apply filter_In in H.
      destruct H as [H Ht]. apply in_map_iff in H. destruct H as (n & Hn & Hin).
      split; [exact Ht | now exists n].
    + intros (Ht & n & Hin & Hn).
      apply (Permutation_in _ (default_sort_perm _)).
      apply (proj2 (set_of_In _ field_eqb_eq _ _)). apply filter_In. split; [| exact Ht].
      apply in_map_iff. now exists n.
  - unfold NOFAs.agency_options.
    eapply Permutation_NoDup; [apply default_sort_perm |].
    apply (set_of_NoDup _ field_eqb_eq).
  - unfold NOFAs.stat_agencies, NOFAs.agency_options. f_equal.
    apply Permutation_length, default_sort_perm.
Qed.
